(** * Resumable batch-translation pipeline: a shallow embedding

    The Python program drives three document handlers (Word, PowerPoint,
    Excel) from a task ledger kept in a Google Sheets worksheet.  This file
    embeds the parts of the program that carry its retry, resume and
    batching rules, and proves (or refutes on a concrete run) what the
    specification says about them.

    Conventions
    - A Python [str] is the list of its Unicode code points ([pystr]);
      literals are written in UTF-8 and decoded by [u].
    - A dynamically typed Python value is a [pyval].
    - Everything outside the interpreter (the Gemini service, the gspread
      worksheet, the disk, Word, Excel) lives in a [World]: scripted
      outcomes of the calls still to come, the data they act on, and a log
      of the effects performed so far.
    - Code that can raise runs in the monad [M]; [try_except] is the
      Python [try/except].  [print] is not modelled.
    - [time.sleep(x)] appends [EvSleep] with the duration in milliseconds. *)

From Stdlib Require Import ZArith NArith List String Ascii Bool Lia.
From Stdlib Require DecimalPos.
From stdpp Require Import base option list gmap.

Local Open Scope Z_scope.

(* ====================================================================== *)
(** * Python values                                                        *)
(* ====================================================================== *)

Module py.

(** A Python string: its code points, in order. *)
Definition pystr : Type := list N.

(** UTF-8 decoding of the bytes of a literal. *)
Fixpoint utf8_decode (bs : list N) : pystr :=
  match bs with
  | [] => []
  | b :: rest =>
      if (b <? 128)%N then b :: utf8_decode rest
      else if (b <? 224)%N then
        match rest with
        | c1 :: rest1 =>
            (N.lor (N.shiftl (N.land b 31) 6) (N.land c1 63)) :: utf8_decode rest1
        | [] => [b]
        end
      else if (b <? 240)%N then
        match rest with
        | c1 :: c2 :: rest2 =>
            (N.lor (N.shiftl (N.land b 15) 12)
               (N.lor (N.shiftl (N.land c1 63) 6) (N.land c2 63)))
              :: utf8_decode rest2
        | _ => [b]
        end
      else
        match rest with
        | c1 :: c2 :: c3 :: rest3 =>
            (N.lor (N.shiftl (N.land b 7) 18)
               (N.lor (N.shiftl (N.land c1 63) 12)
                  (N.lor (N.shiftl (N.land c2 63) 6) (N.land c3 63))))
              :: utf8_decode rest3
        | _ => [b]
        end
  end.

Definition u (s : string) : pystr :=
  utf8_decode (map N_of_ascii (list_ascii_of_string s)).

(** The double quote character, which a literal cannot hold. *)
Definition dquote : pystr := [34%N].

Definition pystr_eqb (a b : pystr) : bool := bool_decide (a = b).

(** [s.startswith(prefix)] *)
Fixpoint startswith (prefix s : pystr) : bool :=
  match prefix, s with
  | [], _ => true
  | p :: prefix', c :: s' => (p =? c)%N && startswith prefix' s'
  | _ :: _, [] => false
  end.

(** [s.endswith(suffix)] *)
Definition endswith (suffix s : pystr) : bool :=
  startswith (rev suffix) (rev s).

(** [needle in hay] *)
Fixpoint contains (needle hay : pystr) : bool :=
  startswith needle hay ||
  match hay with
  | [] => false
  | _ :: hay' => contains needle hay'
  end.

(** [s.replace(old, new)] for a non-empty [old]: leftmost, non-overlapping. *)
Fixpoint replace_fuel (fuel : nat) (old new s : pystr) : pystr :=
  match fuel with
  | O => s
  | S fuel' =>
      match s with
      | [] => []
      | c :: s' =>
          if startswith old s
          then new ++ replace_fuel fuel' old new (drop (length old) s)
          else c :: replace_fuel fuel' old new s'
      end
  end.

Definition replace (old new s : pystr) : pystr :=
  match old with
  | [] => s
  | _ => replace_fuel (S (length s)) old new s
  end.

(** The characters [str.strip()] removes: those for which
    [str.isspace()] holds. *)
Definition isspace (c : N) : bool :=
  ((9 <=? c) && (c <=? 13) || (28 <=? c) && (c <=? 32)
   || (c =? 133) || (c =? 160) || (c =? 5760)
   || (8192 <=? c) && (c <=? 8202)
   || (c =? 8232) || (c =? 8233) || (c =? 8239) || (c =? 8287)
   || (c =? 12288))%N.

Fixpoint lstrip (s : pystr) : pystr :=
  match s with
  | c :: s' => if isspace c then lstrip s' else s
  | [] => []
  end.

Definition strip (s : pystr) : pystr := rev (lstrip (rev (lstrip s))).

(** [s.lower()] on the ASCII letters; other code points are kept. *)
Definition lower (s : pystr) : pystr :=
  map (fun c => if ((65 <=? c) && (c <=? 90))%N then (c + 32)%N else c) s.

(** [sep.join(parts)] *)
Fixpoint join (sep : pystr) (parts : list pystr) : pystr :=
  match parts with
  | [] => []
  | [p] => p
  | p :: rest => p ++ sep ++ join sep rest
  end.

(** [str(n)] for an integer. *)
Fixpoint digits_of_uint (d : Decimal.uint) : pystr :=
  match d with
  | Decimal.Nil => []
  | Decimal.D0 r => 48%N :: digits_of_uint r
  | Decimal.D1 r => 49%N :: digits_of_uint r
  | Decimal.D2 r => 50%N :: digits_of_uint r
  | Decimal.D3 r => 51%N :: digits_of_uint r
  | Decimal.D4 r => 52%N :: digits_of_uint r
  | Decimal.D5 r => 53%N :: digits_of_uint r
  | Decimal.D6 r => 54%N :: digits_of_uint r
  | Decimal.D7 r => 55%N :: digits_of_uint r
  | Decimal.D8 r => 56%N :: digits_of_uint r
  | Decimal.D9 r => 57%N :: digits_of_uint r
  end.

Definition str_of_Z (n : Z) : pystr :=
  match Z.to_int n with
  | Decimal.Pos d => digits_of_uint d
  | Decimal.Neg d => 45%N :: digits_of_uint d
  end.

(** [int(s)] for an optional sign followed by ASCII digits; [None] stands
    for [ValueError].  (Digit-group underscores are not accepted here.) *)
Fixpoint digits_value (acc : Z) (s : pystr) : option Z :=
  match s with
  | [] => Some acc
  | c :: s' =>
      if ((48 <=? c) && (c <=? 57))%N
      then digits_value (10 * acc + Z.of_N (c - 48)) s'
      else None
  end.

Definition int_of_str (s : pystr) : option Z :=
  match strip s with
  | [] | [45%N] | [43%N] => None
  | 45%N :: ds => Z.opp <$> digits_value 0 ds
  | 43%N :: ds => digits_value 0 ds
  | ds => digits_value 0 ds
  end.

(** A dynamically typed value: what [json.loads] can produce, and what
    Excel hands over for a cell or a range.  The payload of a number is never
    inspected by the program. *)
#[local] Unset Elimination Schemes.
Inductive pyval : Type :=
  | PNone
  | PBool (b : bool)
  | PNum (n : Z)
  | PStr (s : pystr)
  | PList (l : list pyval)
  | PTuple (l : list pyval)
  | PDict (kv : list (pystr * pyval)).
#[local] Set Elimination Schemes.

(** Truth value of [if v:]. *)
Definition truthy (v : pyval) : bool :=
  match v with
  | PNone => false
  | PBool b => b
  | PNum n => negb (n =? 0)
  | PStr s => negb (bool_decide (s = []))
  | PList l => match l with [] => false | _ => true end
  | PTuple l => match l with [] => false | _ => true end
  | PDict kv => match kv with [] => false | _ => true end
  end.

(** [len(v)]; [None] stands for the [TypeError] of an unsized value. *)
Definition len (v : pyval) : option nat :=
  match v with
  | PStr s => Some (length s)
  | PList l => Some (length l)
  | PTuple l => Some (length l)
  | PDict kv => Some (length kv)
  | _ => None
  end.

(** The items [zip(..., v)] draws from a sized value. *)
Definition items (v : pyval) : list pyval :=
  match v with
  | PList l => l
  | PTuple l => l
  | PStr s => map (fun c => PStr [c]) s
  | PDict kv => map (fun p => PStr (fst p)) kv
  | _ => []
  end.

Definition str_list (l : list pystr) : pyval := PList (map PStr l).

End py.

Export py.

(* ====================================================================== *)
(** * Documents                                                            *)
(* ====================================================================== *)

(** What the program reads and writes of a document through python-docx
    and python-pptx.  A paragraph object is addressed by its index in the
    document's paragraph store, so that the same paragraph reached along
    two routes is the same object. *)

Record RunStyle := mkRunStyle {
  font_name : option pystr;
  font_size : option Z;
  bold : option bool;
  italic : option bool;
  underline : option bool;
  color : option N;
  char_style : pystr
}.

Definition default_run_style : RunStyle :=
  mkRunStyle None None None None None None [].

Record Run := mkRun { run_text : pystr; run_style : RunStyle }.

Module docx.

Record ParagraphFormat := mkParagraphFormat {
  alignment : option Z;
  left_indent : option Z;
  right_indent : option Z;
  first_line_indent : option Z;
  space_before : option Z;
  space_after : option Z;
  line_spacing : option Z;
  line_spacing_rule : option Z;
  keep_together : option bool;
  keep_with_next : option bool
}.

Record Paragraph := mkParagraph {
  runs : list Run;
  paragraph_format : ParagraphFormat
}.

(** [paragraph.text] *)
Definition text (p : Paragraph) : pystr := concat (map run_text (runs p)).

(** [doc.paragraphs], [doc.tables] (table, row, cell, paragraph) and
    the paragraphs found under [txbxContent] elements, as handles. *)
Record Document := mkDocument {
  store : list Paragraph;
  paragraphs : list nat;
  tables : list (list (list (list nat)));
  textboxes : list nat
}.

End docx.

Module pptx.

Record Paragraph := mkParagraph {
  runs : list Run;
  alignment : option Z
}.

(** [paragraph.text] *)
Definition text (p : Paragraph) : pystr := concat (map run_text (runs p)).

(** A shape of a slide.  [OtherShape known] has neither a table nor a
    text frame; reading [shape_type] of it raises [NotImplementedError]
    when [known] is false. *)
#[local] Unset Elimination Schemes.
Inductive Shape : Type :=
  | GroupShape (shapes : list Shape)
  | TableFrame (rows : list (list (list nat)))
  | AutoShape (paragraphs : list nat)
  | OtherShape (known : bool).
#[local] Set Elimination Schemes.

Record Presentation := mkPresentation {
  store : list Paragraph;
  slides : list (list Shape)
}.

End pptx.

(** The contents of a file, as the library that opens it sees them.  An
    [.xlsx] workbook read by openpyxl is a list of worksheets, each a list
    of rows of cell values. *)
Inductive Content : Type :=
  | DocxDoc (d : docx.Document)
  | PptxDoc (p : pptx.Presentation)
  | XlsxBook (worksheets : list (list (list pyval)))
  | Blob.

Record File := mkFile { file_size : Z; file_content : Content }.

Inductive Node : Type :=
  | NFile (f : File)
  | NDir.

(* ====================================================================== *)
(** * The world outside the interpreter                                    *)
(* ====================================================================== *)

Inductive ExnClass : Type :=
  | PermissionError
  | FileNotFoundError
  | JSONDecodeError
  | TypeError
  | ValueError
  | IndexError
  | NotImplementedError
  | OtherException.

(** A raised exception: its class and [str(e)]. *)
Record Exn := mkExn { exn_class : ExnClass; exn_msg : pystr }.

(** Outcome of one [model.generate_content] call followed by the read of
    [response.text]: either of them raises, or a text arrives, with usage
    metadata when the response has the attribute (each count possibly
    missing). *)
Inductive RemoteReply : Type :=
  | RemoteRaises (msg : pystr)
  | RemoteResponse (text : pystr) (usage_metadata : option (option Z * option Z)).

(** Outcome of one gspread worksheet call. *)
Inductive ApiReply : Type :=
  | ApiOk
  | ApiError (msg : pystr).

(** Outcome of one [save] of a document or workbook; a successful save
    tells the size of the file written. *)
Inductive SaveReply : Type :=
  | SaveOk (size : Z)
  | SaveLocked (msg : pystr)
  | SaveFails (msg : pystr).

Inductive Event : Type :=
  | EvSleep (ms : Z)
  | EvTranslateCall (text_list : list pystr) (file_context : pystr)
  | EvContextCall (text_sample : pystr)
  | EvGetAllValues
  | EvRowValues (row : nat)
  | EvUpdateCell (row col : nat) (value : pystr)
  | EvSave (path : pystr)
  | EvTaskkill
  | EvRangeWrite (values : list pyval)
  | EvRowWrite (row_idx : nat) (row : list pyval)
  | EvMakedirs (path : pystr)
  | EvCopy (src dst : pystr)
  | EvConvert (src dst : pystr)
  | EvRemove (path : pystr)
  | EvWorkbookClose
  | EvSlack (message : pystr).

Record World := mkWorld {
  log : list Event;               (* effects performed, oldest first *)
  remote : list RemoteReply;      (* Gemini replies still to come *)
  gspread : list ApiReply;        (* worksheet call outcomes still to come *)
  sheet : list (list pystr);      (* the worksheet, header row first *)
  now : pystr;                    (* datetime.now(), formatted *)
  saves : list SaveReply;         (* save outcomes still to come *)
  taskkills : list bool;          (* does subprocess.run return normally *)
  range_writes : list bool;       (* does an Excel range assignment succeed *)
  fs : gmap pystr Node            (* the disk *)
}.

Definition set_log (l : list Event) (w : World) : World :=
  mkWorld l (remote w) (gspread w) (sheet w) (now w) (saves w) (taskkills w)
    (range_writes w) (fs w).
Definition set_remote (r : list RemoteReply) (w : World) : World :=
  mkWorld (log w) r (gspread w) (sheet w) (now w) (saves w) (taskkills w)
    (range_writes w) (fs w).
Definition set_gspread (g : list ApiReply) (w : World) : World :=
  mkWorld (log w) (remote w) g (sheet w) (now w) (saves w) (taskkills w)
    (range_writes w) (fs w).
Definition set_sheet (s : list (list pystr)) (w : World) : World :=
  mkWorld (log w) (remote w) (gspread w) s (now w) (saves w) (taskkills w)
    (range_writes w) (fs w).
Definition set_saves (s : list SaveReply) (w : World) : World :=
  mkWorld (log w) (remote w) (gspread w) (sheet w) (now w) s (taskkills w)
    (range_writes w) (fs w).
Definition set_taskkills (t : list bool) (w : World) : World :=
  mkWorld (log w) (remote w) (gspread w) (sheet w) (now w) (saves w) t
    (range_writes w) (fs w).
Definition set_range_writes (r : list bool) (w : World) : World :=
  mkWorld (log w) (remote w) (gspread w) (sheet w) (now w) (saves w)
    (taskkills w) r (fs w).
Definition set_fs (f : gmap pystr Node) (w : World) : World :=
  mkWorld (log w) (remote w) (gspread w) (sheet w) (now w) (saves w)
    (taskkills w) (range_writes w) f.

(** ** The monad of code that acts on the world and may raise *)

Inductive Outcome (A : Type) : Type :=
  | Return (a : A)
  | Raise (e : Exn).
Arguments Return {A} a.
Arguments Raise {A} e.

Definition M (A : Type) : Type := World -> Outcome A * World.

Definition ret {A} (a : A) : M A := fun w => (Return a, w).

Definition raise {A} (e : Exn) : M A := fun w => (Raise e, w).

Definition bind {A B} (m : M A) (k : A -> M B) : M B :=
  fun w =>
    match m w with
    | (Return a, w') => k a w'
    | (Raise e, w') => (Raise e, w')
    end.

(** [try: m  except Exception as e: h e] *)
Definition try_except {A} (m : M A) (h : Exn -> M A) : M A :=
  fun w =>
    match m w with
    | (Return a, w') => (Return a, w')
    | (Raise e, w') => h e w'
    end.

(** [try: m  finally: f] *)
Definition try_finally {A} (m : M A) (f : M unit) : M A :=
  fun w =>
    match m w with
    | (r, w') =>
        match f w' with
        | (Return _, w'') => (r, w'')
        | (Raise e, w'') => (Raise e, w'')
        end
    end.

Notation "x <- m ;; k" := (bind m (fun x => k))
  (at level 100, m at next level, right associativity).
Notation "m ;; k" := (bind m (fun _ => k))
  (at level 100, right associativity).

Definition emit (e : Event) : M unit :=
  fun w => (Return tt, set_log (log w ++ [e]) w).

(** [time.sleep(seconds)], the duration given in milliseconds. *)
Definition sleep (ms : Z) : M unit := emit (EvSleep ms).

Definition get_world : M World := fun w => (Return w, w).

(** [os.path.exists(path)] *)
Definition os_path_exists (path : pystr) : M bool :=
  fun w => (Return (bool_decide (is_Some (fs w !! path))), w).

(** The sleeps of a log, in order. *)
Definition sleeps (l : list Event) : list Z :=
  omap (fun e => match e with EvSleep ms => Some ms | _ => None end) l.

(* ====================================================================== *)
(** * utils.py                                                             *)
(* ====================================================================== *)

Module utils.

(** The character class of the pattern: U+AC00 .. U+D7A3. *)
Definition is_hangul_syllable (c : N) : bool :=
  ((44032 <=? c) && (c <=? 55203))%N.

Definition has_korean (text : pyval) : bool :=
  match text with
  | PStr s => existsb is_hangul_syllable s
  | _ => false
  end.

End utils.

(* ====================================================================== *)
(** * config.py                                                            *)
(* ====================================================================== *)

Module config.
Definition BATCH_SIZE_DOCX : nat := 30.
Definition BATCH_SIZE_PPTX : nat := 70.
Definition BATCH_SIZE_XLSX : nat := 70.
Definition API_DELAY_SECONDS_ms : Z := 500.
Definition AUTO_SAVE_INTERVAL : nat := 10.
End config.

(* ====================================================================== *)
(** * translator.py                                                        *)
(* ====================================================================== *)

Module translator.

Definition MAX_RETRIES : nat := 3.
Definition RETRY_DELAY_SECONDS : Z := 5.

Definition DEFAULT_CONTEXT : pystr :=
  Eval vm_compute in u "MES Technical Document. Use standard terminology.".

Definition fence : pystr := Eval vm_compute in u "```".
Definition fence_json : pystr := Eval vm_compute in u "```json".

(** The response object of a call that returned. *)
Record Response := mkResponse {
  response_text : pystr;
  response_usage : option (option Z * option Z)
}.

(** One call of the remote model: the next scripted reply is consumed;
    with no reply left the call raises. *)
Definition generate_content (call : Event) : M Response :=
  emit call ;;
  fun w =>
    match remote w with
    | RemoteResponse text usage :: rest =>
        (Return (mkResponse text usage), set_remote rest w)
    | RemoteRaises msg :: rest =>
        (Raise (mkExn OtherException msg), set_remote rest w)
    | [] => (Raise (mkExn OtherException []), w)
    end.

(** [generate_context], lines 48-90. *)
Fixpoint generate_context_attempts (attempts : list nat) (text_sample : pystr)
  : M pystr :=
  match attempts with
  | [] => ret DEFAULT_CONTEXT
  | attempt :: rest =>
      try_except
        (response <- generate_content (EvContextCall (take (Z.to_nat 10000) text_sample)) ;;
         ret (strip (response_text response)))
        (fun e =>
           if (attempt <? MAX_RETRIES)%nat then
             sleep (1000 * (RETRY_DELAY_SECONDS * Z.of_nat attempt)) ;;
             generate_context_attempts rest text_sample
           else ret DEFAULT_CONTEXT)
  end.

Definition generate_context (text_sample : pystr) : M pystr :=
  generate_context_attempts (seq 1 MAX_RETRIES) text_sample.

(** Lines 149-150: the markdown fence is taken off. *)
Definition strip_fence (result_text : pystr) : pystr :=
  if startswith fence result_text
  then replace fence [] (replace fence_json [] result_text)
  else result_text.

Section WithJson.

(** [json.loads]; [None] stands for [json.JSONDecodeError]. *)
Variable json_loads : pystr -> option pyval.

(** The body of the [try] of [translate_batch], lines 129-154.  The
    prompt sent is built from the glossary, [file_context] and the JSON
    dump of [text_list]; the logged call keeps the two arguments. *)
Definition translate_try (text_list : list pystr) (file_context : pystr)
  : M (pyval * Z * Z) :=
  response <- generate_content (EvTranslateCall text_list file_context) ;;
  let result_text := strip (response_text response) in
  let input_tokens :=
    match response_usage response with
    | Some (prompt_token_count, _) => default 0 prompt_token_count
    | None => 0
    end in
  let output_tokens :=
    match response_usage response with
    | Some (_, candidates_token_count) => default 0 candidates_token_count
    | None => 0
    end in
  let result_text := strip_fence result_text in
  match json_loads result_text with
  | Some translated_list => ret (translated_list, input_tokens, output_tokens)
  | None => raise (mkExn JSONDecodeError [])
  end.

(** The retry loop of [translate_batch], lines 127-184, over the
    attempt numbers still to run. *)
Fixpoint translate_attempts (attempts : list nat) (text_list : list pystr)
  (file_context : pystr) : M (pyval * Z * Z) :=
  match attempts with
  | [] => ret (str_list text_list, 0, 0)
  | attempt :: rest =>
      try_except (translate_try text_list file_context)
        (fun e =>
           match exn_class e with
           | JSONDecodeError =>
               if (attempt <? MAX_RETRIES)%nat then
                 sleep (1000 * RETRY_DELAY_SECONDS) ;;
                 translate_attempts rest text_list file_context
               else ret (str_list text_list, 0, 0)
           | _ =>
               if (attempt <? MAX_RETRIES)%nat then
                 sleep (1000 * (RETRY_DELAY_SECONDS * Z.of_nat attempt)) ;;
                 translate_attempts rest text_list file_context
               else ret (str_list text_list, 0, 0)
           end)
  end.

Definition translate_batch (text_list : list pystr) (file_context : pystr)
  : M (pyval * Z * Z) :=
  match text_list with
  | [] => ret (PList [], 0, 0)
  | _ => translate_attempts (seq 1 MAX_RETRIES) text_list file_context
  end.

End WithJson.

End translator.

(* ====================================================================== *)
(** * sheets_manager.py                                                    *)
(* ====================================================================== *)

Module sheets_manager.

Definition SHEETS_API_RETRY_COUNT : nat := 3.
Definition SHEETS_API_RETRY_DELAY : Z := 5.
Definition SHEETS_API_MIN_DELAY_ms : Z := 500.

Module SheetColumns.
Definition ROW_NUM : nat := 1.
Definition UPPER_PATH : nat := 2.
Definition SUB_PATH : nat := 3.
Definition FILE_NAME : nat := 4.
Definition FILE_SIZE : nat := 5.
Definition FILE_TYPE : nat := 6.
Definition STATUS : nat := 7.
Definition START_TIME : nat := 8.
Definition END_TIME : nat := 9.
Definition ERROR : nat := 10.
Definition NOTE : nat := 11.
Definition INPUT_TOKEN : nat := 12.
Definition OUTPUT_TOKEN : nat := 13.
Definition TOTAL_COST : nat := 14.
End SheetColumns.

Module Status.
Definition WAITING : pystr := Eval vm_compute in u "대기".
Definition IN_PROGRESS : pystr := Eval vm_compute in u "진행중".
Definition COMPLETED : pystr := Eval vm_compute in u "완료".
Definition ERROR : pystr := Eval vm_compute in u "오류".
Definition VERIFIED_1 : pystr := Eval vm_compute in u "1차검증완료".
Definition REVIEW_1_COMPLETED : pystr := Eval vm_compute in u "1차 검수완료".
End Status.

(** ** The worksheet object of gspread *)

(** One worksheet call: the next scripted outcome decides whether it
    raises; with no outcome left it succeeds. *)
Definition api_call {A} (call : Event) (action : World -> A * World) : M A :=
  emit call ;;
  fun w =>
    match gspread w with
    | ApiError msg :: rest =>
        (Raise (mkExn OtherException msg), set_gspread rest w)
    | ApiOk :: rest =>
        let '(a, w') := action (set_gspread rest w) in (Return a, w')
    | [] => let '(a, w') := action w in (Return a, w')
    end.

(** [row[j]] of the cell grid, the empty string where the grid has no
    cell. *)
Definition cell (g : list (list pystr)) (row col : nat) : pystr :=
  default [] (default [] (g !! (row - 1)%nat) !! (col - 1)%nat).

(** Writing cell [(row, col)], both counted from 1; rows and columns
    missing in the grid are filled with empty cells. *)
Definition pad {A} (n : nat) (d : A) (l : list A) : list A :=
  l ++ replicate (n - length l) d.

Definition grid_update (row col : nat) (value : pystr)
  (g : list (list pystr)) : list (list pystr) :=
  let g1 := pad row [] g in
  let r1 := pad col [] (default [] (g1 !! (row - 1)%nat)) in
  <[(row - 1)%nat := <[(col - 1)%nat := value]> r1]> g1.

Definition sheet_get_all_values : M (list (list pystr)) :=
  api_call EvGetAllValues (fun w => (sheet w, w)).

Definition sheet_row_values (row : nat) : M (list pystr) :=
  api_call (EvRowValues row) (fun w => (default [] (sheet w !! (row - 1)%nat), w)).

Definition sheet_update_cell (row col : nat) (value : pystr) : M unit :=
  api_call (EvUpdateCell row col value)
    (fun w => (tt, set_sheet (grid_update row col value (sheet w)) w)).

(** ** SheetsManager *)

Record Task := mkTask {
  row_index : nat;
  row_num : pystr;
  upper_path : pystr;
  sub_path : pystr;
  file_name : pystr;
  file_type : pystr;
  status : pystr
}.

Definition processable_statuses : list pystr :=
  [Status.WAITING; Status.IN_PROGRESS; Status.ERROR].

(** [row[col - 1] if len(row) >= col else ''] *)
Definition field (row : list pystr) (col : nat) : pystr :=
  if (col <=? length row)%nat then default [] (row !! (col - 1)%nat) else [].

(** [row[SheetColumns.STATUS - 1]] where [len(row) > SheetColumns.STATUS - 1],
    lines 128-129. *)
Definition row_status (row : list pystr) : option pystr :=
  row !! (SheetColumns.STATUS - 1)%nat.

(** The dictionary returned for sheet row [idx], lines 133-141. *)
Definition task_of_row (idx : nat) (row : list pystr) (status : pystr) : Task :=
  mkTask idx
    (field row SheetColumns.ROW_NUM)
    (field row SheetColumns.UPPER_PATH)
    (field row SheetColumns.SUB_PATH)
    (field row SheetColumns.FILE_NAME)
    (field row SheetColumns.FILE_TYPE)
    status.

(** The [for] loop of [get_next_waiting_task], lines 126-143; [idx] is
    the sheet row number of the head of [rows]. *)
Fixpoint first_processable (idx : nat) (rows : list (list pystr))
  : option Task :=
  match rows with
  | [] => None
  | row :: rest =>
      match row_status row with
      | Some status =>
          if bool_decide (status ∈ processable_statuses)
          then Some (task_of_row idx row status)
          else first_processable (S idx) rest
      | None => first_processable (S idx) rest
      end
  end.

Definition get_next_waiting_task : M (option Task) :=
  try_except
    (all_values <- sheet_get_all_values ;;
     ret (first_processable 2 (drop 1 all_values)))
    (fun e => ret None).

Definition is_rate_limit (e : Exn) : bool :=
  contains (u "429") (exn_msg e) || contains (u "Quota exceeded") (exn_msg e).

(** The loop of [_api_call_with_retry], lines 196-214, over the attempt
    numbers still to run. *)
Fixpoint api_retry_loop {A} (attempts : list nat) (func : M A)
  (last_exception : option Exn) : M A :=
  match attempts with
  | [] =>
      match last_exception with
      | Some e => raise e
      | None => raise (mkExn TypeError [])
      end
  | attempt :: rest =>
      try_except (sleep SHEETS_API_MIN_DELAY_ms ;; func)
        (fun e =>
           if is_rate_limit e then
             let wait_time := SHEETS_API_RETRY_DELAY * (Z.of_nat attempt + 1) in
             sleep (1000 * wait_time) ;;
             api_retry_loop rest func (Some e)
           else raise e)
  end.

Definition _api_call_with_retry {A} (func : M A) : M A :=
  api_retry_loop (seq 0 SHEETS_API_RETRY_COUNT) func None.

Definition update_status (row_index : nat) (status : pystr) : M bool :=
  try_except
    (_api_call_with_retry (sheet_update_cell row_index SheetColumns.STATUS status) ;;
     ret true)
    (fun e => ret false).

Definition update_file_name (row_index : nat) (new_file_name : pystr) : M unit :=
  try_except
    (_api_call_with_retry
       (sheet_update_cell row_index SheetColumns.FILE_NAME new_file_name))
    (fun e => ret tt).

Definition set_start_time (row_index : nat) : M unit :=
  try_except
    (w <- get_world ;;
     sheet_update_cell row_index SheetColumns.START_TIME (now w))
    (fun e => ret tt).

Definition set_end_time (row_index : nat) : M unit :=
  try_except
    (w <- get_world ;;
     sheet_update_cell row_index SheetColumns.END_TIME (now w))
    (fun e => ret tt).

(** The inner [safe_int] of [get_current_tokens]. *)
Definition safe_int (value : pystr) : Z :=
  match value with
  | [] => 0
  | _ => default 0 (int_of_str (strip (replace (u ",") [] value)))
  end.

Definition get_current_tokens (row_index : nat) : M (Z * Z) :=
  try_except
    (row_data <- sheet_row_values row_index ;;
     let input_tokens :=
       if (SheetColumns.INPUT_TOKEN <=? length row_data)%nat
       then safe_int (default [] (row_data !! (SheetColumns.INPUT_TOKEN - 1)%nat))
       else 0 in
     let output_tokens :=
       if (SheetColumns.OUTPUT_TOKEN <=? length row_data)%nat
       then safe_int (default [] (row_data !! (SheetColumns.OUTPUT_TOKEN - 1)%nat))
       else 0 in
     ret (input_tokens, output_tokens))
    (fun e => ret (0, 0)).

Definition update_tokens (row_index : nat) (input_tokens output_tokens : Z)
  : M unit :=
  try_except
    (current <- get_current_tokens row_index ;;
     let new_input_tokens := fst current + input_tokens in
     let new_output_tokens := snd current + output_tokens in
     sheet_update_cell row_index SheetColumns.INPUT_TOKEN
       (str_of_Z new_input_tokens) ;;
     sheet_update_cell row_index SheetColumns.OUTPUT_TOKEN
       (str_of_Z new_output_tokens))
    (fun e => ret tt).

Definition reset_tokens (row_index : nat) : M unit :=
  try_except
    (sheet_update_cell row_index SheetColumns.INPUT_TOKEN (str_of_Z 0) ;;
     sheet_update_cell row_index SheetColumns.OUTPUT_TOKEN (str_of_Z 0))
    (fun e => ret tt).

Definition record_error (row_index : nat) (error_message module_name : pystr)
  : M unit :=
  try_except
    (update_status row_index Status.ERROR ;;
     w <- get_world ;;
     let error_detail :=
       u "[" ++ now w ++ u "] 모듈: " ++ module_name ++ [10%N] ++ u "오류: "
         ++ error_message in
     sheet_update_cell row_index SheetColumns.ERROR error_detail)
    (fun e => ret tt).

Definition mark_completed (row_index : nat) : M unit :=
  try_except
    (update_status row_index Status.COMPLETED ;;
     set_end_time row_index)
    (fun e => ret tt).

Definition start_task (row_index : nat) : M unit :=
  try_except
    (update_status row_index Status.IN_PROGRESS ;;
     set_start_time row_index ;;
     reset_tokens row_index)
    (fun e => ret tt).

(** The [for] loop of [get_completed_tasks], lines 160-172; [idx] is the
    sheet row number of the head of [rows]. *)
Fixpoint completed_rows (idx : nat) (rows : list (list pystr)) : list Task :=
  match rows with
  | [] => []
  | row :: rest =>
      match row_status row with
      | Some status =>
          if bool_decide (status = Status.COMPLETED)
          then task_of_row idx row status :: completed_rows (S idx) rest
          else completed_rows (S idx) rest
      | None => completed_rows (S idx) rest
      end
  end.

Definition get_completed_tasks : M (list Task) :=
  try_except
    (all_values <- sheet_get_all_values ;;
     ret (completed_rows 2 (drop 1 all_values)))
    (fun e => ret []).

End sheets_manager.

(* ====================================================================== *)
(** * handlers/docx_handler.py                                             *)
(* ====================================================================== *)

(** [if sheets_manager and row_index:] *)
Definition tracking (sheets_manager : bool) (row_index : option nat) : option nat :=
  match row_index with
  | Some (S n) => if sheets_manager then Some (S n) else None
  | _ => None
  end.

(** [doc.save(path)], [prs.save(path)]: the next scripted outcome decides;
    with no outcome left the save succeeds. *)
Definition library_save (c : Content) (path : pystr) : M unit :=
  emit (EvSave path) ;;
  fun w =>
    match saves w with
    | SaveLocked msg :: rest =>
        (Raise (mkExn PermissionError msg), set_saves rest w)
    | SaveFails msg :: rest =>
        (Raise (mkExn OtherException msg), set_saves rest w)
    | SaveOk size :: rest =>
        (Return tt, set_fs (<[path := NFile (mkFile size c)]> (fs w)) (set_saves rest w))
    | [] => (Return tt, set_fs (<[path := NFile (mkFile 1 c)]> (fs w)) w)
    end.

Module docx_handler.

Import docx.

Definition SAVE_MAX_RETRIES : nat := 5.
Definition SAVE_RETRY_DELAY : Z := 3.

Definition kill_word_processes : M unit :=
  try_except
    (emit EvTaskkill ;;
     (fun w =>
        match taskkills w with
        | false :: rest =>
            (Raise (mkExn OtherException []), set_taskkills rest w)
        | true :: rest => (Return tt, set_taskkills rest w)
        | [] => (Return tt, w)
        end) ;;
     sleep 2000)
    (fun e => ret tt).

(** The loop of [save_document_with_retry], lines 57-81, over the
    attempt numbers still to run. *)
Fixpoint save_attempts (attempts : list nat) (max_retries : nat)
  (doc : Document) (file_path : pystr) : M bool :=
  match attempts with
  | [] => ret false
  | attempt :: rest =>
      try_except
        (library_save (DocxDoc doc) file_path ;; ret true)
        (fun e =>
           match exn_class e with
           | PermissionError =>
               if (attempt <? max_retries)%nat then
                 (if (2 <=? attempt)%nat
                  then kill_word_processes
                  else sleep (1000 * SAVE_RETRY_DELAY)) ;;
                 save_attempts rest max_retries doc file_path
               else
                 raise (mkExn OtherException
                          (u "파일 저장 실패 (모든 재시도 실패): " ++ exn_msg e))
           | _ =>
               if (attempt <? max_retries)%nat then
                 sleep (1000 * SAVE_RETRY_DELAY) ;;
                 save_attempts rest max_retries doc file_path
               else raise e
           end)
  end.

Definition save_document_with_retry (doc : Document) (file_path : pystr)
  (max_retries : nat) : M bool :=
  save_attempts (seq 1 max_retries) max_retries doc file_path.

(** The handles [iter_docx_paragraphs] yields, in order. *)
Definition iter_docx_paragraphs (doc : Document) : list nat :=
  paragraphs doc ++ concat (concat (concat (tables doc))) ++ textboxes doc.

Definition empty_paragraph : Paragraph :=
  mkParagraph [] (mkParagraphFormat None None None None None None None None None None).

Definition paragraph_at (st : list Paragraph) (h : nat) : Paragraph :=
  default empty_paragraph (st !! h).

(** [copy_docx_style_and_replace] for a [str]: the paragraph format is
    backed up and restored around the assignment of [paragraph.text],
    which leaves one run; that run gets the character style of the
    former first run, the font name, size and colour only where the
    backup holds a true value. *)
Definition copy_docx_style_and_replace (p : Paragraph) (new_text : pystr)
  : Paragraph :=
  let para_backup := paragraph_format p in
  let new_run_style :=
    match runs p with
    | ref_run :: _ =>
        let b := run_style ref_run in
        mkRunStyle
          (match font_name b with Some ((_ :: _) as n) => Some n | _ => None end)
          (match font_size b with
           | Some sz => if sz =? 0 then None else Some sz
           | None => None
           end)
          (bold b) (italic b) (underline b) (color b) (char_style b)
    | [] => default_run_style
    end in
  mkParagraph [mkRun new_text new_run_style] para_backup.

(** [for obj, trans_text in zip(batch_queue, translated):
       copy_docx_style_and_replace(obj, trans_text)].
    python-docx takes a [str] for [paragraph.text]; another value ends
    the loop with [TypeError]. *)
Fixpoint write_back (pairs : list (nat * pyval)) (st : list Paragraph)
  : M (list Paragraph) :=
  match pairs with
  | [] => ret st
  | (obj, PStr trans_text) :: rest =>
      write_back rest
        (<[obj := copy_docx_style_and_replace (paragraph_at st obj) trans_text]> st)
  | (obj, _) :: rest => raise (mkExn TypeError [])
  end.

Record Loop := mkLoop {
  doc : Document;
  batch_queue : list nat;
  total_count : nat;
  batch_cycle : nat;
  total_input_tokens : Z;
  total_output_tokens : Z
}.

Definition with_store (d : Document) (st : list Paragraph) : Document :=
  mkDocument st (paragraphs d) (tables d) (textboxes d).

(** [texts = [p.text for p in batch_queue]] *)
Definition queue_texts (s : Loop) : list pystr :=
  map (fun p => text (paragraph_at (store (doc s)) p)) (batch_queue s).

Section WithJson.

Variable json_loads : pystr -> option pyval.
Variable file_path : pystr.
Variable context : pystr.
Variable sheets_manager : bool.
Variable row_index : option nat.

(** The work file is overwritten in place. *)
Definition new_path : pystr := file_path.

(** Lines 226-258: a queue that reached [BATCH_SIZE_DOCX]. *)
Definition full_batch (s : Loop) : M Loop :=
  let texts := queue_texts s in
  r <- translator.translate_batch json_loads texts context ;;
  let '(translated, input_tokens, output_tokens) := r in
  let total_in := total_input_tokens s + input_tokens in
  let total_out := total_output_tokens s + output_tokens in
  match py.len translated with
  | None => raise (mkExn TypeError [])
  | Some n =>
      s1 <-
        (if (n =? length (batch_queue s))%nat then
           st <- write_back (zip (batch_queue s) (items translated)) (store (doc s)) ;;
           let d := with_store (doc s) st in
           let cycle := S (batch_cycle s) in
           let s' := mkLoop d (batch_queue s) (total_count s + n) cycle total_in total_out in
           if (cycle mod config.AUTO_SAVE_INTERVAL =? 0)%nat then
             save_document_with_retry d new_path SAVE_MAX_RETRIES ;;
             match tracking sheets_manager row_index with
             | Some row =>
                 sheets_manager.update_tokens row total_in total_out ;;
                 ret (mkLoop d (batch_queue s) (total_count s + n) cycle 0 0)
             | None => ret s'
             end
           else ret s'
         else
           ret (mkLoop (doc s) (batch_queue s) (total_count s) (batch_cycle s)
                  total_in total_out)) ;;
      sleep config.API_DELAY_SECONDS_ms ;;
      ret (mkLoop (doc s1) [] (total_count s1) (batch_cycle s1)
             (total_input_tokens s1) (total_output_tokens s1))
  end.

(** The body of the [for] loop, lines 215-258, for one paragraph. *)
Definition paragraph_step (paragraph : nat) (s : Loop) : M Loop :=
  let text := strip (text (paragraph_at (store (doc s)) paragraph)) in
  if truthy (PStr text) && utils.has_korean (PStr text) then
    let s' := mkLoop (doc s) (batch_queue s ++ [paragraph]) (total_count s)
                (batch_cycle s) (total_input_tokens s) (total_output_tokens s) in
    if (config.BATCH_SIZE_DOCX <=? length (batch_queue s'))%nat
    then full_batch s'
    else ret s'
  else ret s.

Fixpoint paragraph_loop (hs : list nat) (s : Loop) : M Loop :=
  match hs with
  | [] => ret s
  | h :: rest => s' <- paragraph_step h s ;; paragraph_loop rest s'
  end.

(** Lines 261-274: what is left in the queue after the loop. *)
Definition trailing_batch (s : Loop) : M Loop :=
  match batch_queue s with
  | [] => ret s
  | _ =>
      let texts := queue_texts s in
      r <- translator.translate_batch json_loads texts context ;;
      let '(translated, input_tokens, output_tokens) := r in
      let total_in := total_input_tokens s + input_tokens in
      let total_out := total_output_tokens s + output_tokens in
      match py.len translated with
      | None => raise (mkExn TypeError [])
      | Some n =>
          if (n =? length (batch_queue s))%nat then
            st <- write_back (zip (batch_queue s) (items translated)) (store (doc s)) ;;
            ret (mkLoop (with_store (doc s) st) (batch_queue s) (total_count s + n)
                   (S (batch_cycle s)) total_in total_out)
          else
            ret (mkLoop (doc s) (batch_queue s) (total_count s) (batch_cycle s)
                   total_in total_out)
      end
  end.

(** [Document(file_path)] *)
Definition open_document : M Document :=
  fun w =>
    match fs w !! file_path with
    | Some (NFile (mkFile _ (DocxDoc d))) => (Return d, w)
    | _ => (Raise (mkExn OtherException []), w)
    end.

Definition process_docx : M pystr :=
  d <- open_document ;;
  s <- paragraph_loop (iter_docx_paragraphs d) (mkLoop d [] 0 0 0 0) ;;
  s <- trailing_batch s ;;
  save_document_with_retry (doc s) new_path SAVE_MAX_RETRIES ;;
  match tracking sheets_manager row_index with
  | Some row =>
      if (0 <? total_input_tokens s) || (0 <? total_output_tokens s)
      then sheets_manager.update_tokens row (total_input_tokens s) (total_output_tokens s)
      else ret tt
  | None => ret tt
  end ;;
  ret new_path.

End WithJson.

End docx_handler.

(* ====================================================================== *)
(** * handlers/pptx_handler.py                                             *)
(* ====================================================================== *)

Module pptx_handler.

Import pptx.

Definition empty_paragraph : Paragraph := mkParagraph [] None.

Definition paragraph_at (st : list Paragraph) (h : nat) : Paragraph :=
  default empty_paragraph (st !! h).

(** [copy_pptx_style_and_replace] for a [str]: the paragraph is cleared
    and gets one run; the alignment stays, and the run takes bold,
    italic and underline of the former first run, its font name, size
    and colour only where the backup holds a true value. *)
Definition copy_pptx_style_and_replace (p : Paragraph) (new_text : pystr)
  : Paragraph :=
  let paragraph_alignment := alignment p in
  let new_run_style :=
    match runs p with
    | ref_run :: _ =>
        let b := run_style ref_run in
        mkRunStyle
          (match font_name b with Some ((_ :: _) as n) => Some n | _ => None end)
          (match font_size b with
           | Some sz => if sz =? 0 then None else Some sz
           | None => None
           end)
          (bold b) (italic b) (underline b) (color b) []
    | [] => default_run_style
    end in
  mkParagraph [mkRun new_text new_run_style] paragraph_alignment.

(** What the generator [iter_pptx_shapes] hands to its consumer: the
    paragraphs of the text frame of a shape or of a table cell, or the
    exception raised while the next shape is examined. *)
Inductive Yield : Type :=
  | YieldFrame (paragraphs : list nat)
  | YieldRaise (e : Exn).

Fixpoint iter_pptx_shape (shape : Shape) : list Yield :=
  match shape with
  | GroupShape shapes =>
      (fix iter_pptx_shapes (l : list Shape) : list Yield :=
         match l with
         | [] => []
         | x :: r => iter_pptx_shape x ++ iter_pptx_shapes r
         end) shapes
  | TableFrame rows => map YieldFrame (concat rows)
  | AutoShape ps => [YieldFrame ps]
  | OtherShape true => []
  | OtherShape false => [YieldRaise (mkExn NotImplementedError [])]
  end.

Definition iter_pptx_shapes (shapes : list Shape) : list Yield :=
  flat_map iter_pptx_shape shapes.

Fixpoint write_back (pairs : list (nat * pyval)) (st : list Paragraph)
  : M (list Paragraph) :=
  match pairs with
  | [] => ret st
  | (obj, PStr trans_text) :: rest =>
      write_back rest
        (<[obj := copy_pptx_style_and_replace (paragraph_at st obj) trans_text]> st)
  | (obj, _) :: rest => raise (mkExn TypeError [])
  end.

Record Loop := mkLoop {
  prs : Presentation;
  batch_queue : list nat;
  total_count : nat;
  batch_cycle : nat;
  total_input_tokens : Z;
  total_output_tokens : Z
}.

Definition with_store (d : Presentation) (st : list Paragraph) : Presentation :=
  mkPresentation st (slides d).

(** [texts = [b.text for b in batch_queue]] *)
Definition queue_texts (s : Loop) : list pystr :=
  map (fun b => text (paragraph_at (store (prs s)) b)) (batch_queue s).

Section WithJson.

Variable json_loads : pystr -> option pyval.
Variable file_path : pystr.
Variable context : pystr.
Variable sheets_manager : bool.
Variable row_index : option nat.

Definition new_path : pystr := file_path.

(** Lines 146-178: a queue that reached [BATCH_SIZE_PPTX]. *)
Definition full_batch (s : Loop) : M Loop :=
  let texts := queue_texts s in
  r <- translator.translate_batch json_loads texts context ;;
  let '(translated, input_tokens, output_tokens) := r in
  let total_in := total_input_tokens s + input_tokens in
  let total_out := total_output_tokens s + output_tokens in
  match py.len translated with
  | None => raise (mkExn TypeError [])
  | Some n =>
      s1 <-
        (if (n =? length (batch_queue s))%nat then
           st <- write_back (zip (batch_queue s) (items translated)) (store (prs s)) ;;
           let d := with_store (prs s) st in
           let cycle := S (batch_cycle s) in
           let s' := mkLoop d (batch_queue s) (total_count s + n) cycle total_in total_out in
           if (cycle mod config.AUTO_SAVE_INTERVAL =? 0)%nat then
             library_save (PptxDoc d) new_path ;;
             match tracking sheets_manager row_index with
             | Some row =>
                 sheets_manager.update_tokens row total_in total_out ;;
                 ret (mkLoop d (batch_queue s) (total_count s + n) cycle 0 0)
             | None => ret s'
             end
           else ret s'
         else
           ret (mkLoop (prs s) (batch_queue s) (total_count s) (batch_cycle s)
                  total_in total_out)) ;;
      sleep 500 ;;
      ret (mkLoop (prs s1) [] (total_count s1) (batch_cycle s1)
             (total_input_tokens s1) (total_output_tokens s1))
  end.

(** Lines 135-178, for one paragraph of a text frame. *)
Definition paragraph_step (p : nat) (s : Loop) : M Loop :=
  let text := strip (text (paragraph_at (store (prs s)) p)) in
  if truthy (PStr text) && utils.has_korean (PStr text) then
    let s' := mkLoop (prs s) (batch_queue s ++ [p]) (total_count s)
                (batch_cycle s) (total_input_tokens s) (total_output_tokens s) in
    if (config.BATCH_SIZE_PPTX <=? length (batch_queue s'))%nat
    then full_batch s'
    else ret s'
  else ret s.

Fixpoint paragraph_loop (ps : list nat) (s : Loop) : M Loop :=
  match ps with
  | [] => ret s
  | p :: rest => s' <- paragraph_step p s ;; paragraph_loop rest s'
  end.

(** Lines 121-178: the consumer of the generator. *)
Fixpoint shape_loop (ys : list Yield) (s : Loop) : M Loop :=
  match ys with
  | [] => ret s
  | YieldFrame ps :: rest => s' <- paragraph_loop ps s ;; shape_loop rest s'
  | YieldRaise e :: _ => raise e
  end.

(** Lines 181-194. *)
Definition trailing_batch (s : Loop) : M Loop :=
  match batch_queue s with
  | [] => ret s
  | _ =>
      let texts := queue_texts s in
      r <- translator.translate_batch json_loads texts context ;;
      let '(translated, input_tokens, output_tokens) := r in
      let total_in := total_input_tokens s + input_tokens in
      let total_out := total_output_tokens s + output_tokens in
      match py.len translated with
      | None => raise (mkExn TypeError [])
      | Some n =>
          if (n =? length (batch_queue s))%nat then
            st <- write_back (zip (batch_queue s) (items translated)) (store (prs s)) ;;
            ret (mkLoop (with_store (prs s) st) (batch_queue s) (total_count s + n)
                   (S (batch_cycle s)) total_in total_out)
          else
            ret (mkLoop (prs s) (batch_queue s) (total_count s) (batch_cycle s)
                   total_in total_out)
      end
  end.

(** [Presentation(file_path)] *)
Definition open_presentation : M Presentation :=
  fun w =>
    match fs w !! file_path with
    | Some (NFile (mkFile _ (PptxDoc d))) => (Return d, w)
    | _ => (Raise (mkExn OtherException []), w)
    end.

Definition process_pptx : M pystr :=
  d <- open_presentation ;;
  s <- shape_loop (flat_map iter_pptx_shapes (slides d)) (mkLoop d [] 0 0 0 0) ;;
  s <- trailing_batch s ;;
  library_save (PptxDoc (prs s)) new_path ;;
  match tracking sheets_manager row_index with
  | Some row =>
      if (0 <? total_input_tokens s) || (0 <? total_output_tokens s)
      then sheets_manager.update_tokens row (total_input_tokens s) (total_output_tokens s)
      else ret tt
  | None => ret tt
  end ;;
  ret new_path.

End WithJson.

End pptx_handler.

(* ====================================================================== *)
(** * handlers/xlsx_handler.py                                             *)
(* ====================================================================== *)

(** The embedding covers the work done on one worksheet once its data is
    in memory (lines 370-459) together with the helpers it calls.  By then
    [all_values] and [all_formulas] are sequences of rows; a row is a
    [PList], or [None], or some other value. *)

Module xlsx_handler.

Definition SAVE_MAX_RETRIES : nat := 3.
Definition SAVE_RETRY_DELAY : Z := 2.
Definition MAX_CELL_LENGTH : Z := 32000.
Definition MAX_PATH_LENGTH : nat := 180.

(** The characters [ ] < > ? * | *)
Definition PROBLEMATIC_CHARS : list N := [91; 93; 60; 62; 63; 42; 124]%N.

(** The [for] loop of [has_problematic_path], lines 67-69. *)
Fixpoint first_problematic (chars : list N) (file_path : pystr) : option N :=
  match chars with
  | [] => None
  | char :: rest =>
      if contains [char] file_path then Some char
      else first_problematic rest file_path
  end.

Definition has_problematic_path (file_path : pystr) : bool * option pystr :=
  if (MAX_PATH_LENGTH <? length file_path)%nat then
    (true, Some (u "경로가 너무 깁니다 (" ++ str_of_Z (Z.of_nat (length file_path))
                   ++ u "자)"))
  else
    match first_problematic PROBLEMATIC_CHARS file_path with
    | Some char =>
        (true, Some (u "경로에 특수문자 '" ++ [char] ++ u "'가 포함되어 있습니다"))
    | None => (false, None)
    end.

(** [wb.save(file_path)] through Excel. *)
Definition workbook_save (file_path : pystr) : M unit :=
  emit (EvSave file_path) ;;
  fun w =>
    match saves w with
    | SaveLocked msg :: rest =>
        (Raise (mkExn PermissionError msg), set_saves rest w)
    | SaveFails msg :: rest =>
        (Raise (mkExn OtherException msg), set_saves rest w)
    | SaveOk _ :: rest => (Return tt, set_saves rest w)
    | [] => (Return tt, w)
    end.

(** The loop of [save_workbook_simple], lines 87-102. *)
Fixpoint save_attempts (attempts : list nat) (max_retries : nat)
  (file_path : pystr) : M bool :=
  match attempts with
  | [] => ret false
  | attempt :: rest =>
      try_except (workbook_save file_path ;; ret true)
        (fun e =>
           if (attempt <? max_retries - 1)%nat then
             sleep (1000 * SAVE_RETRY_DELAY) ;;
             save_attempts rest max_retries file_path
           else ret false)
  end.

Definition save_workbook_simple (file_path : pystr) (max_retries : nat) : M bool :=
  save_attempts (seq 0 max_retries) max_retries file_path.

Definition truncate_cell_value (value : pyval) : pyval :=
  match value with
  | PStr s =>
      if MAX_CELL_LENGTH <? Z.of_nat (length s)
      then PStr (take (Z.to_nat (MAX_CELL_LENGTH - 3)) s ++ u "...")
      else value
  | _ => value
  end.

(** Lines 167-173: the length cap, applied in place to every row that
    is a list. *)
Definition truncate_rows (all_values : list pyval) : list pyval :=
  map (fun row =>
         match row with
         | PList l => PList (map truncate_cell_value l)
         | _ => row
         end) all_values.

(** An assignment to the [value] of an Excel range. *)
Definition range_assign (write : Event) : M unit :=
  emit write ;;
  fun w =>
    match range_writes w with
    | false :: rest => (Raise (mkExn OtherException []), set_range_writes rest w)
    | true :: rest => (Return tt, set_range_writes rest w)
    | [] => (Return tt, w)
    end.

(** Lines 188-206: the row by row fallback; a row that cannot be
    written is counted and passed over. *)
Fixpoint write_rows (row_idx : nat) (rows : list pyval) (error_count : nat)
  : M nat :=
  match rows with
  | [] => ret error_count
  | PNone :: rest => write_rows (S row_idx) rest error_count
  | row :: rest =>
      let cells := match row with PList l => l | _ => [row] end in
      n <- try_except (range_assign (EvRowWrite row_idx cells) ;; ret error_count)
             (fun e => ret (S error_count)) ;;
      write_rows (S row_idx) rest n
  end.

(** [write_range_safely]: the result and [all_values] as the call
    leaves it. *)
Definition write_range_safely (all_values : list pyval) : M (bool * list pyval) :=
  let all_values := truncate_rows all_values in
  try_except
    (range_assign (EvRangeWrite all_values) ;; ret (true, all_values))
    (fun e =>
       try_except
         (write_rows 0 all_values 0 ;; ret (true, all_values))
         (fun e2 => ret (false, all_values))).

(** Lines 383-393: the formula recorded for a cell. *)
Definition formula_at (all_formulas : list pyval) (row_idx col_idx : nat) : pyval :=
  match all_formulas !! row_idx with
  | None => PNone
  | Some PNone => PNone
  | Some (PList formula_row) => default PNone (formula_row !! col_idx)
  | Some formula_row => if (col_idx =? 0)%nat then formula_row else PNone
  end.

(** Line 395: [formula and isinstance(formula, str) and
    formula.startswith('=')]. *)
Definition is_formula (formula : pyval) : bool :=
  match formula with
  | PStr s => truthy formula && startswith (u "=") s
  | _ => false
  end.

(** The value the loops read for a cell: [row[col_idx]], where a row
    that is not a list counts as the list holding it. *)
Definition value_at (all_values : list pyval) (row_idx col_idx : nat) : pyval :=
  match all_values !! row_idx with
  | None | Some PNone => PNone
  | Some (PList row) => default PNone (row !! col_idx)
  | Some row => if (col_idx =? 0)%nat then row else PNone
  end.

(** The cells the two [for] loops of lines 374-381 visit, in order. *)
Definition row_cells (row_idx : nat) (row : pyval) : list (nat * nat) :=
  match row with
  | PNone => []
  | PList l => map (fun col_idx => (row_idx, col_idx)) (seq 0 (length l))
  | _ => [(row_idx, 0%nat)]
  end.

Definition sheet_cells (all_values : list pyval) : list (nat * nat) :=
  concat (imap row_cells all_values).

(** [all_values[r][c] = txt] *)
Definition assign_cell (all_values : list pyval) (r c : nat) (txt : pyval)
  : M (list pyval) :=
  match all_values !! r with
  | Some (PList row) =>
      if (c <? length row)%nat
      then ret (<[r := PList (<[c := txt]> row)]> all_values)
      else raise (mkExn IndexError [])
  | Some _ => raise (mkExn TypeError [])
  | None => raise (mkExn IndexError [])
  end.

(** [for (r, c), txt in zip(batch_coords, translated): all_values[r][c] = txt] *)
Fixpoint write_back (pairs : list ((nat * nat) * pyval)) (all_values : list pyval)
  : M (list pyval) :=
  match pairs with
  | [] => ret all_values
  | ((r, c), txt) :: rest =>
      all_values' <- assign_cell all_values r c txt ;;
      write_back rest all_values'
  end.

Record Loop := mkLoop {
  all_values : list pyval;
  batch_coords : list (nat * nat);
  batch_texts : list pystr;
  total_translated_cells : nat;
  batch_cycle : nat;
  total_input_tokens : Z;
  total_output_tokens : Z
}.

Section WithJson.

Variable json_loads : pystr -> option pyval.
Variable work_path : pystr.
Variable context : pystr.
Variable sheets_manager : bool.
Variable row_index : option nat.
Variable all_formulas : list pyval.

(** Lines 404-440: the two queues reached [BATCH_SIZE_XLSX]. *)
Definition full_batch (s : Loop) : M Loop :=
  r <- translator.translate_batch json_loads (batch_texts s) context ;;
  let '(translated, input_tokens, output_tokens) := r in
  let total_in := total_input_tokens s + input_tokens in
  let total_out := total_output_tokens s + output_tokens in
  match py.len translated with
  | None => raise (mkExn TypeError [])
  | Some n =>
      values1 <-
        (if (n =? length (batch_coords s))%nat
         then write_back (zip (batch_coords s) (items translated)) (all_values s)
         else ret (all_values s)) ;;
      let cells := (total_translated_cells s + n)%nat in
      let cycle := S (batch_cycle s) in
      if (cycle mod config.AUTO_SAVE_INTERVAL =? 0)%nat then
        written <- write_range_safely values1 ;;
        let '(ok, values2) := written in
        if ok then
          save_workbook_simple work_path SAVE_MAX_RETRIES ;;
          s2 <-
            match tracking sheets_manager row_index with
            | Some row =>
                sheets_manager.update_tokens row total_in total_out ;;
                ret (mkLoop values2 (batch_coords s) (batch_texts s) cells cycle 0 0)
            | None =>
                ret (mkLoop values2 (batch_coords s) (batch_texts s) cells cycle
                       total_in total_out)
            end ;;
          sleep 200 ;;
          ret (mkLoop (all_values s2) [] [] cells cycle
                 (total_input_tokens s2) (total_output_tokens s2))
        else
          ret (mkLoop values2 (batch_coords s) (batch_texts s) cells cycle
                 total_in total_out)
      else
        sleep 200 ;;
        ret (mkLoop values1 [] [] cells cycle total_in total_out)
  end.

(** Lines 381-440, for one cell. *)
Definition cell_step (coord : nat * nat) (s : Loop) : M Loop :=
  let '(row_idx, col_idx) := coord in
  let val := value_at (all_values s) row_idx col_idx in
  let formula := formula_at all_formulas row_idx col_idx in
  if is_formula formula then ret s
  else
    match val with
    | PStr text =>
        if truthy val && utils.has_korean val then
          let s' := mkLoop (all_values s) (batch_coords s ++ [(row_idx, col_idx)])
                      (batch_texts s ++ [text]) (total_translated_cells s)
                      (batch_cycle s) (total_input_tokens s) (total_output_tokens s) in
          if (config.BATCH_SIZE_XLSX <=? length (batch_texts s'))%nat
          then full_batch s'
          else ret s'
        else ret s
    | _ => ret s
    end.

Fixpoint cell_loop (coords : list (nat * nat)) (s : Loop) : M Loop :=
  match coords with
  | [] => ret s
  | coord :: rest => s' <- cell_step coord s ;; cell_loop rest s'
  end.

(** Lines 443-455. *)
Definition trailing_batch (s : Loop) : M Loop :=
  match batch_texts s with
  | [] => ret s
  | _ =>
      r <- translator.translate_batch json_loads (batch_texts s) context ;;
      let '(translated, input_tokens, output_tokens) := r in
      let total_in := total_input_tokens s + input_tokens in
      let total_out := total_output_tokens s + output_tokens in
      match py.len translated with
      | None => raise (mkExn TypeError [])
      | Some n =>
          if (n =? length (batch_coords s))%nat then
            values1 <- write_back (zip (batch_coords s) (items translated)) (all_values s) ;;
            ret (mkLoop values1 (batch_coords s) (batch_texts s)
                   (total_translated_cells s + n) (S (batch_cycle s)) total_in total_out)
          else
            ret (mkLoop (all_values s) (batch_coords s) (batch_texts s)
                   (total_translated_cells s) (batch_cycle s) total_in total_out)
      end
  end.

(** Lines 370-459 for one worksheet.  The counters run on from sheet
    to sheet; the two queues start empty on each. *)
Definition process_sheet (values : list pyval) (cells cycle : nat)
  (total_in total_out : Z) : M Loop :=
  s <- cell_loop (sheet_cells values) (mkLoop values [] [] cells cycle total_in total_out) ;;
  s <- trailing_batch s ;;
  written <- write_range_safely (all_values s) ;;
  ret (mkLoop (snd written) (batch_coords s) (batch_texts s)
         (total_translated_cells s) (batch_cycle s)
         (total_input_tokens s) (total_output_tokens s)).

End WithJson.

End xlsx_handler.

(* ====================================================================== *)
(** * The disk and the path functions of the standard library              *)
(* ====================================================================== *)

(** [os.path.join], [os.path.basename] and [os.path.splitext] belong to
    the platform; the code below takes them as given. *)
Record OsPath := mkOsPath {
  os_path_join : pystr -> pystr -> pystr;
  os_path_basename : pystr -> pystr;
  os_path_splitext : pystr -> pystr * pystr
}.

Definition join3 (os : OsPath) (a b c : pystr) : pystr :=
  os_path_join os (os_path_join os a b) c.

Definition join4 (os : OsPath) (a b c d : pystr) : pystr :=
  os_path_join os (join3 os a b c) d.

(** [os.makedirs(path, exist_ok=True)] *)
Definition os_makedirs (path : pystr) : M unit :=
  emit (EvMakedirs path) ;;
  fun w =>
    match fs w !! path with
    | Some (NFile _) => (Raise (mkExn OtherException []), w)
    | _ => (Return tt, set_fs (<[path := NDir]> (fs w)) w)
    end.

(** [shutil.copy2(src, dst)] onto a file path. *)
Definition shutil_copy2 (src dst : pystr) : M unit :=
  emit (EvCopy src dst) ;;
  fun w =>
    match fs w !! src, fs w !! dst with
    | Some (NFile f), Some NDir => (Raise (mkExn OtherException []), w)
    | Some (NFile f), _ => (Return tt, set_fs (<[dst := NFile f]> (fs w)) w)
    | Some NDir, _ => (Raise (mkExn PermissionError []), w)
    | None, _ => (Raise (mkExn FileNotFoundError []), w)
    end.

(** [os.remove(path)] *)
Definition os_remove (path : pystr) : M unit :=
  emit (EvRemove path) ;;
  fun w =>
    match fs w !! path with
    | Some (NFile _) => (Return tt, set_fs (delete path (fs w)) w)
    | Some NDir => (Raise (mkExn PermissionError []), w)
    | None => (Raise (mkExn FileNotFoundError []), w)
    end.

(** [os.path.getsize(path)] *)
Definition os_path_getsize (path : pystr) : M Z :=
  fun w =>
    match fs w !! path with
    | Some (NFile f) => (Return (file_size f), w)
    | Some NDir => (Return 0, w)
    | None => (Raise (mkExn FileNotFoundError []), w)
    end.

(** Opening a file with python-docx, python-pptx or openpyxl: anything
    but a package of the right kind raises. *)
Definition open_content (path : pystr) : M Content :=
  fun w =>
    match fs w !! path with
    | Some (NFile f) => (Return (file_content f), w)
    | _ => (Raise (mkExn OtherException []), w)
    end.

(* ====================================================================== *)
(** * converter.py                                                         *)
(* ====================================================================== *)

Module converter.

Section WithWord.

(** What Word writes for [SaveAs2(docx_path, FileFormat=16)] of an
    opened file; [None] when Word fails. *)
Variable word_convert : File -> option File.

Definition convert_doc_to_docx (doc_path docx_path : pystr) : M pystr :=
  exists_ <- os_path_exists doc_path ;;
  if negb exists_ then raise (mkExn FileNotFoundError doc_path)
  else
    emit (EvConvert doc_path docx_path) ;;
    fun w =>
      match fs w !! doc_path with
      | Some (NFile f) =>
          match word_convert f with
          | Some g => (Return docx_path, set_fs (<[docx_path := NFile g]> (fs w)) w)
          | None => (Raise (mkExn OtherException []), w)
          end
      | _ => (Raise (mkExn OtherException []), w)
      end.

End WithWord.

End converter.

(* ====================================================================== *)
(** * slack_notifier.py, as far as the callers see it                      *)
(* ====================================================================== *)

Definition send_notification (message : pystr) : M unit := emit (EvSlack message).

(* ====================================================================== *)
(** * main.py                                                              *)
(* ====================================================================== *)

Module main.

Import sheets_manager.

Definition ALL_SUPPORTED_EXTENSIONS : list pystr :=
  [u ".docx"; u ".xlsx"; u ".pptx"; u ".doc"].

Section WithEnv.

Variable os : OsPath.
Variable ORIGIN_FOLDER COMPLETED_FOLDER : pystr.
Variable word_convert : File -> option File.
Variable json_loads : pystr -> option pyval.
(** [process_xlsx(file_path, context, sheets_manager, row_index)] *)
Variable process_xlsx : pystr -> pystr -> bool -> option nat -> M pystr.
(** [traceback.format_exc()] in a handler of the exception. *)
Variable format_exc : Exn -> pystr.

Definition normalize_extension (file_name : pystr) : pystr * bool :=
  let '(name, ext) := os_path_splitext os file_name in
  let ext_lower := lower ext in
  (name ++ ext_lower, negb (bool_decide (ext = ext_lower))).

Definition build_file_path (upper_path sub_path file_name : pystr)
  : pystr * pystr * pystr * pystr * pystr :=
  let origin_path := join4 os ORIGIN_FOLDER upper_path sub_path file_name in
  let completed_dir := join3 os COMPLETED_FOLDER upper_path sub_path in
  let normalized_file_name := fst (normalize_extension file_name) in
  let completed_original := os_path_join os completed_dir normalized_file_name in
  let '(name, ext) := os_path_splitext os normalized_file_name in
  let work_file_name :=
    if bool_decide (lower ext = u ".doc")
    then name ++ u " - en.docx"
    else name ++ u " - en" ++ ext in
  let work_file_path := os_path_join os completed_dir work_file_name in
  (origin_path, completed_dir, completed_original, work_file_path, normalized_file_name).

Definition prepare_work_files
  (origin_path completed_dir completed_original work_file_path : pystr)
  : M (option pystr) :=
  try_except
    (os_makedirs completed_dir ;;
     backed_up <- os_path_exists completed_original ;;
     (if negb backed_up then shutil_copy2 origin_path completed_original else ret tt) ;;
     let ext := lower (snd (os_path_splitext os origin_path)) in
     (if bool_decide (ext = u ".doc") then
        let temp_doc_path := os_path_join os completed_dir (os_path_basename os origin_path) in
        staged <- os_path_exists temp_doc_path ;;
        (if negb staged then shutil_copy2 origin_path temp_doc_path else ret tt) ;;
        converter.convert_doc_to_docx word_convert temp_doc_path work_file_path ;;
        (if negb (bool_decide (temp_doc_path = completed_original))
         then try_except (os_remove temp_doc_path) (fun e => ret tt)
         else ret tt)
      else shutil_copy2 origin_path work_file_path) ;;
     ret (Some work_file_path))
    (fun e => ret None).

Definition prepare_work_files_resume
  (work_file_path origin_path completed_dir completed_original : pystr)
  : M (option pystr) :=
  try_except
    (found <- os_path_exists work_file_path ;;
     if found then ret (Some work_file_path)
     else prepare_work_files origin_path completed_dir completed_original work_file_path)
    (fun e => ret None).

(** [shape.text] where a shape has the attribute. *)
Definition shape_text (st : list pptx.Paragraph) (shape : pptx.Shape) : option pystr :=
  match shape with
  | pptx.AutoShape ps =>
      Some (join [10%N]
              (map (fun p => pptx.text (pptx_handler.paragraph_at st p)) ps))
  | _ => None
  end.

Definition sample_of_content (c : Content) : pystr :=
  match c with
  | DocxDoc d =>
      join [10%N]
        (map (fun h => docx.text (docx_handler.paragraph_at (docx.store d) h))
           (take 300 (docx.paragraphs d)))
  | PptxDoc p =>
      concat (map (fun shape =>
                     match shape_text (pptx.store p) shape with
                     | Some t => t ++ [10%N]
                     | None => []
                     end)
                (concat (take 3 (pptx.slides p))))
  | _ => []
  end.

Definition extract_sample_text (file_path : pystr) : M pystr :=
  let file_path_lower := lower file_path in
  if endswith (u ".docx") file_path_lower then
    c <- open_content file_path ;;
    match c with
    | DocxDoc _ => ret (sample_of_content c)
    | _ => raise (mkExn OtherException [])
    end
  else if endswith (u ".pptx") file_path_lower then
    c <- open_content file_path ;;
    match c with
    | PptxDoc _ => ret (sample_of_content c)
    | _ => raise (mkExn OtherException [])
    end
  else if endswith (u ".xlsx") file_path_lower then ret (u "MES Excel Data")
  else ret [].

Definition process_single_file (work_file_path file_context : pystr)
  (sheets_manager : bool) (row_index : option nat) : M (option pystr) :=
  let file_path_lower := lower work_file_path in
  if endswith (u ".docx") file_path_lower then
    r <- docx_handler.process_docx json_loads work_file_path file_context
           sheets_manager row_index ;;
    ret (Some r)
  else if endswith (u ".pptx") file_path_lower then
    r <- pptx_handler.process_pptx json_loads work_file_path file_context
           sheets_manager row_index ;;
    ret (Some r)
  else if endswith (u ".xlsx") file_path_lower then
    r <- process_xlsx work_file_path file_context sheets_manager row_index ;;
    ret (Some r)
  else ret None.

Definition get_task_times (row_index : nat) : M (pystr * pystr) :=
  try_except
    (row_data <- sheet_row_values row_index ;;
     ret (field row_data SheetColumns.START_TIME, field row_data SheetColumns.END_TIME))
    (fun e => ret ([], [])).

(** Lines 266-273: the step into [IN_PROGRESS]. *)
Definition enter_in_progress (is_resume_mode : bool) (row_index : nat) : M unit :=
  if is_resume_mode
  then update_status row_index Status.IN_PROGRESS ;; ret tt
  else start_task row_index.

(** Lines 275-281: the work file of the task. *)
Definition prepare (is_resume_mode : bool)
  (origin_path completed_dir completed_original work_file_path : pystr)
  : M (option pystr) :=
  if is_resume_mode
  then prepare_work_files_resume work_file_path origin_path completed_dir completed_original
  else prepare_work_files origin_path completed_dir completed_original work_file_path.

Definition is_resume (current_status : pystr) : bool :=
  bool_decide (current_status ∈ [Status.IN_PROGRESS; Status.ERROR]).

Definition process_task (task : Task) : M bool :=
  let row_index := row_index task in
  let upper_path := upper_path task in
  let sub_path := sub_path task in
  let file_name := file_name task in
  let current_status := status task in
  let is_resume_mode := is_resume current_status in
  let '(origin_path, completed_dir, completed_original, work_file_path,
        normalized_file_name) := build_file_path upper_path sub_path file_name in
  let file_name' :=
    if bool_decide (file_name = normalized_file_name) then file_name
    else normalized_file_name in
  try_except
    ((if bool_decide (file_name = normalized_file_name) then ret tt
      else update_file_name row_index normalized_file_name) ;;
     found <- os_path_exists origin_path ;;
     (if found then ret tt else raise (mkExn FileNotFoundError origin_path)) ;;
     let ext := lower (snd (os_path_splitext os file_name')) in
     (if bool_decide (ext ∈ ALL_SUPPORTED_EXTENSIONS) then ret tt
      else raise (mkExn ValueError ext)) ;;
     enter_in_progress is_resume_mode row_index ;;
     actual_work_path <-
       prepare is_resume_mode origin_path completed_dir completed_original work_file_path ;;
     match actual_work_path with
     | Some ((_ :: _) as actual_work_path) =>
         sample_text <- extract_sample_text actual_work_path ;;
         file_context <- translator.generate_context sample_text ;;
         result <- process_single_file actual_work_path file_context true (Some row_index) ;;
         match result with
         | Some (_ :: _) =>
             mark_completed row_index ;;
             try_except
               (get_task_times row_index ;;
                try_except (sheet_get_all_values ;; ret tt) (fun e => ret tt) ;;
                send_notification file_name')
               (fun e => ret tt) ;;
             ret true
         | _ => raise (mkExn OtherException (u "번역 처리 실패"))
         end
     | _ => raise (mkExn OtherException (u "작업 파일 준비 실패"))
     end)
    (fun e =>
       let error_msg := exn_msg e in
       let detailed_error := error_msg ++ [10%N; 10%N] ++ u "상세:" ++ [10%N] ++ format_exc e in
       record_error row_index detailed_error (u "main.process_task") ;;
       try_except (send_notification error_msg) (fun e2 => ret tt) ;;
       ret false).

End WithEnv.

End main.

(* ====================================================================== *)
(** * verify.py                                                            *)
(* ====================================================================== *)

Module verify.

Import sheets_manager.

(** [text and has_korean(text.strip())] *)
Definition counts (text : pystr) : bool :=
  truthy (PStr text) && utils.has_korean (PStr (strip text)).

Definition count_korean (texts : list pystr) : nat :=
  length (filter (fun t => counts t = true) texts).

(** The texts [scan_korean_in_docx] looks at: body, tables, text boxes. *)
Definition docx_texts (d : docx.Document) : list pystr :=
  map (fun h => docx.text (docx_handler.paragraph_at (docx.store d) h))
    (docx_handler.iter_docx_paragraphs d).

Definition scan_korean_in_docx (file_path : pystr) : M (bool * nat) :=
  try_except
    (c <- open_content file_path ;;
     match c with
     | DocxDoc d =>
         let korean_count := count_korean (docx_texts d) in
         ret (bool_decide (0 < korean_count)%nat, korean_count)
     | _ => raise (mkExn OtherException [])
     end)
    (fun e => ret (false, 0%nat)).

(** The run texts of the paragraphs of a text frame. *)
Definition frame_runs (st : list pptx.Paragraph) (ps : list nat) : list pystr :=
  flat_map (fun p => map run_text (pptx.runs (pptx_handler.paragraph_at st p))) ps.

(** Lines 216-244 for one shape of a slide: the run texts examined,
    or the exception of reading [shape_type]. *)
Definition scan_shape (st : list pptx.Paragraph) (shape : pptx.Shape)
  : Outcome (list pystr) :=
  match shape with
  | pptx.AutoShape ps => Return (frame_runs st ps)
  | pptx.TableFrame rows => Return (flat_map (frame_runs st) (concat rows))
  | pptx.GroupShape shapes =>
      Return (flat_map (fun sub_shape =>
                          match sub_shape with
                          | pptx.AutoShape ps => frame_runs st ps
                          | _ => []
                          end) shapes)
  | pptx.OtherShape true => Return []
  | pptx.OtherShape false => Raise (mkExn NotImplementedError [])
  end.

Fixpoint scan_shapes (st : list pptx.Paragraph) (shapes : list pptx.Shape)
  (korean_count : nat) : Outcome nat :=
  match shapes with
  | [] => Return korean_count
  | shape :: rest =>
      match scan_shape st shape with
      | Return texts => scan_shapes st rest (korean_count + count_korean texts)
      | Raise e => Raise e
      end
  end.

Definition scan_korean_in_pptx (file_path : pystr) : M (bool * nat) :=
  try_except
    (c <- open_content file_path ;;
     match c with
     | PptxDoc p =>
         match scan_shapes (pptx.store p) (concat (pptx.slides p)) 0 with
         | Return korean_count => ret (bool_decide (0 < korean_count)%nat, korean_count)
         | Raise e => raise e
         end
     | _ => raise (mkExn OtherException [])
     end)
    (fun e => ret (false, 0%nat)).

(** [cell.value and isinstance(cell.value, str)] and
    [has_korean(cell.value.strip())] *)
Definition cell_counts (value : pyval) : bool :=
  match value with
  | PStr s => truthy value && utils.has_korean (PStr (strip s))
  | _ => false
  end.

Definition scan_korean_in_xlsx (file_path : pystr) : M (bool * nat) :=
  try_except
    (c <- open_content file_path ;;
     match c with
     | XlsxBook worksheets =>
         let korean_count :=
           length (filter (fun v => cell_counts v = true) (concat (concat worksheets))) in
         emit EvWorkbookClose ;;
         ret (bool_decide (0 < korean_count)%nat, korean_count)
     | _ => raise (mkExn OtherException [])
     end)
    (fun e => ret (false, 0%nat)).

Definition scan_korean_in_file (file_path : pystr) : M (bool * nat) :=
  let file_path_lower := lower file_path in
  if endswith (u ".docx") file_path_lower then scan_korean_in_docx file_path
  else if endswith (u ".pptx") file_path_lower then scan_korean_in_pptx file_path
  else if endswith (u ".xlsx") file_path_lower then scan_korean_in_xlsx file_path
  else ret (false, 0%nat).

Section WithEnv.

Variable os : OsPath.
Variable COMPLETED_FOLDER : pystr.
Variable json_loads : pystr -> option pyval.
Variable process_xlsx : pystr -> pystr -> bool -> option nat -> M pystr.
Variable format_exc : Exn -> pystr.

Definition build_work_file_path (upper_path sub_path file_name : pystr) : pystr :=
  let '(name, ext) := os_path_splitext os file_name in
  let ext_lower := lower ext in
  let work_file_name :=
    if bool_decide (ext_lower = u ".doc")
    then name ++ u " - en.docx"
    else name ++ u " - en" ++ ext_lower in
  join4 os COMPLETED_FOLDER upper_path sub_path work_file_name.

Definition verify_file_exists (file_path : pystr) : M bool :=
  os_path_exists file_path.

Definition verify_file_integrity (file_path : pystr) : M bool :=
  try_except
    (size <- os_path_getsize file_path ;;
     if size =? 0 then ret false
     else
       let ext := lower (snd (os_path_splitext os file_path)) in
       if bool_decide (ext = u ".docx") then
         c <- open_content file_path ;;
         match c with
         | DocxDoc _ => ret true
         | _ => raise (mkExn OtherException [])
         end
       else if bool_decide (ext = u ".pptx") then
         c <- open_content file_path ;;
         match c with
         | PptxDoc _ => ret true
         | _ => raise (mkExn OtherException [])
         end
       else if bool_decide (ext = u ".xlsx") then
         size2 <- os_path_getsize file_path ;;
         ret (1000 <? size2)
       else ret true)
    (fun e => ret false).

Definition extract_sample_text (file_path : pystr) : M pystr :=
  try_except
    (main.extract_sample_text file_path)
    (fun e => ret (u "MES Technical Document")).

Definition process_single_file :=
  main.process_single_file json_loads process_xlsx.

Definition verify_task (task : Task) : M (bool * pystr) :=
  let row_index := row_index task in
  let upper_path := upper_path task in
  let sub_path := sub_path task in
  let file_name := file_name task in
  try_except
    (let work_file_path := build_work_file_path upper_path sub_path file_name in
     found <- verify_file_exists work_file_path ;;
     (if found then ret tt else raise (mkExn FileNotFoundError work_file_path)) ;;
     sound <- verify_file_integrity work_file_path ;;
     (if sound then ret tt else raise (mkExn ValueError work_file_path)) ;;
     scanned <- scan_korean_in_file work_file_path ;;
     let '(has_korean_text, korean_count) := scanned in
     if negb has_korean_text then
       update_status row_index Status.REVIEW_1_COMPLETED ;;
       ret (true, u "no_korean")
     else
       update_status row_index Status.IN_PROGRESS ;;
       sample_text <- extract_sample_text work_file_path ;;
       file_context <- translator.generate_context sample_text ;;
       result <- process_single_file work_file_path file_context true (Some row_index) ;;
       match result with
       | Some (_ :: _) =>
           update_status row_index Status.REVIEW_1_COMPLETED ;;
           try_except
             (try_except (sheet_get_all_values ;; ret tt) (fun e => ret tt) ;;
              send_notification (os_path_basename os work_file_path))
             (fun e => ret tt) ;;
           ret (true, u "translated")
       | _ => raise (mkExn OtherException (u "검수 처리 실패"))
       end)
    (fun e =>
       let error_msg := exn_msg e in
       let detailed_error :=
         u "[검수오류] " ++ error_msg ++ [10%N; 10%N] ++ u "상세:" ++ [10%N] ++ format_exc e in
       update_status row_index Status.COMPLETED ;;
       try_except (sheet_update_cell row_index 11 (take 500 detailed_error))
         (fun e2 => ret tt) ;;
       try_except (send_notification error_msg) (fun e2 => ret tt) ;;
       ret (false, u "error")).

End WithEnv.

(** ** The loop of [main], lines 537-571 *)

Definition MAX_CONSECUTIVE_FAILS : nat := 3.

(** The counters of the loop, [fail_count_by_file] and [skipped_files]. *)
Record Tally := mkTally {
  success_count : nat;
  fail_count : nat;
  skip_count : nat;
  no_korean_count : nat;
  fail_count_by_file : gmap pystr nat;
  skipped_files : gset pystr
}.

Definition initial_tally : Tally := mkTally 0 0 0 0 ∅ ∅.

Section Main.

(** [verify_task(sheets_manager, task)] *)
Variable verify_task : Task -> M (bool * pystr).

(** The body of the [for] loop for one task. *)
Definition main_step (task : Task) (t : Tally) : M Tally :=
  let file_name := file_name task in
  if bool_decide (file_name ∈ skipped_files t) then
    ret (mkTally (success_count t) (fail_count t) (S (skip_count t)) (no_korean_count t)
           (fail_count_by_file t) (skipped_files t))
  else
    let current_fail_count := default 0%nat (fail_count_by_file t !! file_name) in
    if (MAX_CONSECUTIVE_FAILS <=? current_fail_count)%nat then
      ret (mkTally (success_count t) (fail_count t) (S (skip_count t)) (no_korean_count t)
             (fail_count_by_file t) ({[file_name]} ∪ skipped_files t))
    else
      try_except
        (r <- verify_task task ;;
         let '(success, result_type) := r in
         if success then
           let fails := delete file_name (fail_count_by_file t) in
           if bool_decide (result_type = u "no_korean") then
             ret (mkTally (success_count t) (fail_count t) (skip_count t)
                    (S (no_korean_count t)) fails (skipped_files t))
           else
             ret (mkTally (S (success_count t)) (fail_count t) (skip_count t)
                    (no_korean_count t) fails (skipped_files t))
         else
           ret (mkTally (success_count t) (S (fail_count t)) (skip_count t)
                  (no_korean_count t)
                  (<[file_name := S current_fail_count]> (fail_count_by_file t))
                  (skipped_files t)))
        (fun e =>
           ret (mkTally (success_count t) (S (fail_count t)) (skip_count t)
                  (no_korean_count t) (fail_count_by_file t) (skipped_files t))).

Fixpoint main_loop (completed_tasks : list Task) (t : Tally) : M Tally :=
  match completed_tasks with
  | [] => ret t
  | task :: rest => t' <- main_step task t ;; main_loop rest t'
  end.

End Main.

End verify.

(* ====================================================================== *)
(** * final_review.py                                                      *)
(* ====================================================================== *)

(** The final review works on the worksheet [최종검수] of the same
    spreadsheet; in this module the worksheet of the world is that one. *)
Module final_review.

Definition SHEETS_API_RETRY_COUNT : nat := 3.

Module FinalReviewColumns.
Definition ROW_NUM : nat := 1.
Definition UPPER_PATH : nat := 2.
Definition SUB_PATH : nat := 3.
Definition ORIGINAL_FILE : nat := 4.
Definition TRANSLATED_FILE : nat := 5.
Definition ORIGINAL_EXISTS : nat := 6.
Definition TRANSLATED_EXISTS : nat := 7.
Definition ORIGINAL_OPENS : nat := 8.
Definition TRANSLATED_OPENS : nat := 9.
Definition TRANSLATION_DONE : nat := 10.
Definition REVIEW_DATETIME : nat := 11.
End FinalReviewColumns.

(** An entry of [pending_rows]. *)
Record PendingRow := mkPendingRow {
  row_index : nat;
  upper_path : pystr;
  sub_path : pystr;
  file_name : pystr
}.

(** The [for] loop of [get_pending_rows], lines 466-486; [idx] is the
    sheet row number of the head of [rows]. *)
Fixpoint pending_loop (idx : nat) (rows : list (list pystr))
  (pending_rows : list PendingRow) (already_done_count : nat)
  : list PendingRow * nat :=
  match rows with
  | [] => (pending_rows, already_done_count)
  | row :: rest =>
      let file_name := sheets_manager.field row FinalReviewColumns.ORIGINAL_FILE in
      if negb (truthy (PStr (strip file_name))) then
        pending_loop (S idx) rest pending_rows already_done_count
      else
        let review_datetime :=
          sheets_manager.field row FinalReviewColumns.REVIEW_DATETIME in
        if truthy (PStr (strip review_datetime)) then
          pending_loop (S idx) rest pending_rows (S already_done_count)
        else
          let upper_path := sheets_manager.field row FinalReviewColumns.UPPER_PATH in
          let sub_path := sheets_manager.field row FinalReviewColumns.SUB_PATH in
          pending_loop (S idx) rest
            (pending_rows
               ++ [mkPendingRow idx (strip upper_path) (strip sub_path) (strip file_name)])
            already_done_count
  end.

Definition get_pending_rows (all_values : list (list pystr)) : list PendingRow * nat :=
  pending_loop 2 (drop 1 all_values) [] 0.

(** The [results] dictionary of a row. *)
Record Results := mkResults {
  translated_file_name : pystr;
  original_exists : bool;
  translated_exists : bool;
  original_opens : bool;
  translated_opens : bool;
  translation_done : bool;
  review_datetime : pystr
}.

(** [str(b)] for a [bool]. *)
Definition str_of_bool (b : bool) : pystr := if b then u "True" else u "False".

(** The one row of [values] in [update_row_result], lines 339-347. *)
Definition result_values (results : Results) : list pystr :=
  [translated_file_name results;
   str_of_bool (original_exists results);
   str_of_bool (translated_exists results);
   str_of_bool (original_opens results);
   str_of_bool (translated_opens results);
   str_of_bool (translation_done results);
   review_datetime results].

(** The cells of row [row] from column [col] on, after the values are
    written one to a cell. *)
Fixpoint range_update (row col : nat) (values : list pystr)
  (g : list (list pystr)) : list (list pystr) :=
  match values with
  | [] => g
  | v :: rest => range_update row (S col) rest (sheets_manager.grid_update row col v g)
  end.

(** [sheet.update(values, range_name)] for one row of values starting at
    [(row, col)]: one worksheet call, which the next scripted outcome
    decides.  The log keeps no entry for it. *)
Definition sheet_update (row col : nat) (values : list pystr) : M unit :=
  fun w =>
    match gspread w with
    | ApiError msg :: rest =>
        (Raise (mkExn OtherException msg), set_gspread rest w)
    | ApiOk :: rest =>
        (Return tt, set_sheet (range_update row col values (sheet w)) (set_gspread rest w))
    | [] => (Return tt, set_sheet (range_update row col values (sheet w)) w)
    end.

(** [api_call_with_retry], lines 105-136: the loop is that of
    [SheetsManager._api_call_with_retry], with the constants of this
    module, which have the same values. *)
Definition api_call_with_retry {A} (func : M A) : M A :=
  sheets_manager.api_retry_loop (seq 0 SHEETS_API_RETRY_COUNT) func None.

(** The range is [E{row_index}:K{row_index}]. *)
Definition update_row_result (row_index : nat) (results : Results) : M unit :=
  api_call_with_retry
    (sheet_update row_index FinalReviewColumns.TRANSLATED_FILE (result_values results)).

End final_review.

(* ====================================================================== *)
(** * Concrete surroundings for running the program                        *)
(* ====================================================================== *)

(** Instances of the library functions the code takes as given, enough to
    run it on the inputs of the examples below. *)
Module sample.

(** The characters of a JSON string up to its closing quote; no escapes. *)
Fixpoint read_string (s acc : pystr) : option (pystr * pystr) :=
  match s with
  | [] => None
  | c :: r =>
      if (c =? 34)%N then Some (rev acc, r)
      else if (c =? 92)%N then None
      else read_string r (c :: acc)
  end.

Fixpoint parse_items (fuel : nat) (s : pystr) (acc : list pyval) : option pyval :=
  match fuel with
  | O => None
  | S fuel' =>
      match lstrip s with
      | 34%N :: r =>
          match read_string r [] with
          | Some (str, r') =>
              match lstrip r' with
              | 44%N :: r'' => parse_items fuel' r'' (PStr str :: acc)
              | 93%N :: r'' =>
                  match lstrip r'' with
                  | [] => Some (PList (rev (PStr str :: acc)))
                  | _ => None
                  end
              | _ => None
              end
          | None => None
          end
      | _ => None
      end
  end.

(** [json.loads] on arrays of plain strings; anything else is a decode
    error here. *)
Definition json_loads (s : pystr) : option pyval :=
  match lstrip s with
  | 91%N :: r =>
      match lstrip r with
      | 93%N :: r' => match lstrip r' with [] => Some (PList []) | _ => None end
      | _ => parse_items (length s) r []
      end
  | _ => None
  end.

(** Paths with [/] as the only separator. *)
Fixpoint after_last (sep : N) (s acc : pystr) : pystr :=
  match s with
  | [] => acc
  | c :: r => if (c =? sep)%N then after_last sep r r else after_last sep r acc
  end.

Definition basename (p : pystr) : pystr := after_last 47 p p.

Definition splitext (p : pystr) : pystr * pystr :=
  let b := basename p in
  let e := after_last 46 b [] in
  if bool_decide (e = []) && negb (endswith [46%N] b) then (p, [])
  else if bool_decide (length e + 1 = length b)%nat then (p, [])
  else (take (length p - (length e + 1)) p, 46%N :: e).

Definition os : OsPath :=
  mkOsPath (fun a b => a ++ [47%N] ++ b) basename splitext.

Definition COMPLETED_FOLDER : pystr := Eval vm_compute in u "data/completed_folder".
Definition ORIGIN_FOLDER : pystr := Eval vm_compute in u "data/origin_data_folder".

Definition format_exc (e : Exn) : pystr := exn_msg e.

(** A stand-in for the Excel handler where a run never reaches it. *)
Definition process_xlsx (file_path file_context : pystr) (sheets_manager : bool)
  (row_index : option nat) : M pystr :=
  ret file_path.

Definition empty_world : World :=
  mkWorld [] [] [] [] (u "2025-01-01 09:00:00") [] [] [] ∅.

(** [n] copies of the syllable U+AC00. *)
Definition hangul (n : Z) : pystr := replicate (Z.to_nat n) 44032%N.

End sample.

(* ====================================================================== *)
(** * Vocabulary of the statements                                         *)
(* ====================================================================== *)

Module spec.

(** A reply that makes an attempt of [translate_batch] fail: the call or
    the read of the text raises, or the text does not parse. *)
Definition attempt_fails (json_loads : pystr -> option pyval) (r : RemoteReply) : bool :=
  match r with
  | RemoteRaises _ => true
  | RemoteResponse text _ =>
      match json_loads (translator.strip_fence (strip text)) with
      | None => true
      | Some _ => false
      end
  end.

(** Every attempt [translate_batch] can make in [w] fails. *)
Definition retries_exhausted (json_loads : pystr -> option pyval) (w : World) : bool :=
  forallb (attempt_fails json_loads) (take translator.MAX_RETRIES (remote w)).

(** None of the next [n] worksheet calls raises. *)
Definition api_ok (n : nat) (w : World) : bool :=
  forallb (fun r => match r with ApiOk => true | ApiError _ => false end)
    (take n (gspread w)).


Definition is_taskkill (e : Event) : bool :=
  match e with EvTaskkill => true | _ => false end.

(** How often Word was killed in a stretch of the log. *)
Definition taskkill_count (l : list Event) : nat :=
  length (filter (fun e => is_taskkill e = true) l).



(** The returned value has a length, and not that of the queue. *)
Definition mis_sized (translated : pyval) (queue_length : nat) : Prop :=
  exists n, py.len translated = Some n /\ n <> queue_length.

(** A cell value, or what the length cap makes of it. *)
Definition capped (v0 v : pyval) : Prop :=
  v = v0 \/ v = xlsx_handler.truncate_cell_value v0.

Definition capped_rows (rows0 rows : list pyval) : Prop :=
  rows = rows0 \/ rows = xlsx_handler.truncate_rows rows0.



Definition is_translate_call (e : Event) : bool :=
  match e with EvTranslateCall _ _ => true | _ => false end.

(** How often the translation service was called in a stretch of the log. *)
Definition translate_calls (l : list Event) : nat :=
  length (filter (fun e => is_translate_call e = true) l).

(** The time slept in a stretch of the log, in milliseconds. *)
Definition sleep_total (l : list Event) : Z := foldr Z.add 0 (sleeps l).

(** The call of the service raises. *)
Definition call_raises (r : RemoteReply) : bool :=
  match r with RemoteRaises _ => true | RemoteResponse _ _ => false end.

(** The service answers, and the answer does not parse. *)
Definition malformed (json_loads : pystr -> option pyval) (r : RemoteReply) : bool :=
  match r with
  | RemoteRaises _ => false
  | RemoteResponse text _ =>
      match json_loads (translator.strip_fence (strip text)) with
      | None => true
      | Some _ => false
      end
  end.

(** The longest wait [translate_batch] can add after a failed attempt. *)
Definition backoff_bound (attempts : list nat) : Z :=
  foldr (fun attempt acc =>
           (if (attempt <? translator.MAX_RETRIES)%nat
            then Z.max (1000 * translator.RETRY_DELAY_SECONDS)
                   (1000 * (translator.RETRY_DELAY_SECONDS * Z.of_nat attempt))
            else 0) + acc) 0 attempts.

(** The cell writes asked of the worksheet in a stretch of the log. *)
Definition cell_writes (l : list Event) : list (nat * nat * pystr) :=
  omap (fun e => match e with EvUpdateCell row col v => Some (row, col, v) | _ => None end) l.


(** The size of the file the next save writes, when that save succeeds. *)
Definition next_save_size (w : World) : option Z :=
  match saves w with
  | [] => Some 1
  | SaveOk size :: _ => Some size
  | _ => None
  end.

(** A cell value the Excel handler collects for translation: a string,
    not empty, with a Hangul syllable. *)
Definition korean_text (v : pyval) : bool :=
  match v with
  | PStr _ => truthy v && utils.has_korean v
  | _ => false
  end.

(** What holds of the loop state of a worksheet at every step, for the
    cells that held no Korean text at the start: none of them is queued,
    and each holds its first value up to the length cap. *)
Record untouched_invariant (values0 : list pyval) (s : xlsx_handler.Loop) : Prop :=
  mkUntouched {
  untouched_coords : forall coord,
    coord ∈ xlsx_handler.batch_coords s ->
    korean_text (xlsx_handler.value_at values0 coord.1 coord.2) = true;
  untouched_values : forall r c,
    korean_text (xlsx_handler.value_at values0 r c) = false ->
    capped (xlsx_handler.value_at values0 r c)
      (xlsx_handler.value_at (xlsx_handler.all_values s) r c)
}.

(** The row by row writes of [write_range_safely], lines 188-198. *)
Definition row_writes (all_values : list pyval) : list Event :=
  concat (imap (fun row_idx row =>
                  match row with
                  | PNone => []
                  | PList l => [EvRowWrite row_idx l]
                  | _ => [EvRowWrite row_idx [row]]
                  end) all_values).


(** A row of the final review sheet that has a file name in column D. *)
Definition named (row : list pystr) : bool :=
  py.truthy (PStr (py.strip
    (sheets_manager.field row final_review.FinalReviewColumns.ORIGINAL_FILE))).

(** A row with a review date in column K. *)
Definition reviewed (row : list pystr) : bool :=
  py.truthy (PStr (py.strip
    (sheets_manager.field row final_review.FinalReviewColumns.REVIEW_DATETIME))).

(** The entry of [pending_rows] for sheet row [idx]. *)
Definition pending_entry (idx : nat) (row : list pystr) : final_review.PendingRow :=
  final_review.mkPendingRow idx
    (py.strip (sheets_manager.field row final_review.FinalReviewColumns.UPPER_PATH))
    (py.strip (sheets_manager.field row final_review.FinalReviewColumns.SUB_PATH))
    (py.strip (sheets_manager.field row final_review.FinalReviewColumns.ORIGINAL_FILE)).

End spec.

(* ====================================================================== *)
(** * Concrete runs                                                        *)
(* ====================================================================== *)

Module scenario.

Import sheets_manager.

Definition ga : pystr := Eval vm_compute in u "가".
Definition na : pystr := Eval vm_compute in u "나".
Definition ctx : pystr := Eval vm_compute in u "MES manual".

(** A JSON array of the given plain strings. *)
Definition json_array (items : list pystr) : pystr :=
  u "[" ++ join (u ", ") (map (fun s => dquote ++ s ++ dquote) items) ++ u "]".

(** ** The translation service answers with one string for two *)

Definition one_for_two : World :=
  set_remote [RemoteResponse (json_array [u "A"]) (Some (Some 12, Some 3))]
    sample.empty_world.

(** ** The translation service fails three times *)

Definition service_down : World :=
  set_remote [RemoteRaises (u "504 Deadline Exceeded");
              RemoteResponse (u "Sorry, I cannot do that.") None;
              RemoteRaises (u "429 quota")]
    sample.empty_world.

(** ** A ledger of four rows under a header *)

Definition ledger_row (n name status : pystr) : list pystr :=
  [n; u "MC"; u "10.analysis"; name; u "12KB"; u "xlsx"; status].

Definition ledger : list (list pystr) :=
  [ [u "no"; u "upper"; u "sub"; u "file"; u "size"; u "type"; u "status"];
    ledger_row (u "1") (u "a.xlsx") Status.COMPLETED;
    ledger_row (u "2") (u "b.xlsx") Status.REVIEW_1_COMPLETED;
    ledger_row (u "3") (u "c.xlsx") Status.ERROR;
    ledger_row (u "4") (u "d.xlsx") Status.WAITING ].

Definition with_ledger : World := set_sheet ledger sample.empty_world.

(** ** The worksheet answers every call with a rate limit error *)

Definition quota_error : pystr :=
  Eval vm_compute in u "APIError: [429]: Quota exceeded for quota metric".

Definition rate_limited : World :=
  set_gspread (replicate 4 (ApiError quota_error)) with_ledger.

(** ** A work file that is there already *)

Definition work_file : pystr :=
  Eval vm_compute in u "data/completed_folder/MC/10.analysis/c - en.xlsx".
Definition origin_file : pystr :=
  Eval vm_compute in u "data/origin_data_folder/MC/10.analysis/c.xlsx".
Definition completed_dir : pystr :=
  Eval vm_compute in u "data/completed_folder/MC/10.analysis".
Definition completed_original : pystr :=
  Eval vm_compute in u "data/completed_folder/MC/10.analysis/c.xlsx".

Definition half_done : File := mkFile 20480 (XlsxBook [[[PStr (u "done"); PStr ga]]]).

Definition resumed : World :=
  set_fs (<[work_file := NFile half_done]>
            (<[origin_file := NFile (mkFile 20480 (XlsxBook [[[PStr na; PStr ga]]]))]> ∅))
    with_ledger.

Definition no_word (f : File) : option File := None.

(** ** A work file that openpyxl cannot read *)

Definition damaged_work_file : pystr :=
  Eval vm_compute in u "data/completed_folder/MC/10.analysis/a - en.xlsx".

Definition unreadable : World :=
  set_fs (<[damaged_work_file := NFile (mkFile 20480 Blob)]> ∅) with_ledger.

(** The task of sheet row 2, as [get_completed_tasks] hands it over. *)
Definition task_a : Task :=
  mkTask 2 (u "1") (u "MC") (u "10.analysis") (u "a.xlsx") (u "xlsx") Status.COMPLETED.

(** ** Saves that meet a lock twice *)

Definition a_document : docx.Document := docx.mkDocument [] [] [] [].

Definition locked_twice : World :=
  set_saves [SaveLocked (u "Permission denied"); SaveLocked (u "Permission denied");
             SaveOk 4096]
    sample.empty_world.


(** ** A worksheet with a formula cell *)


Definition small_values : list pyval := [PList [PStr ga; PStr na]].

Definition answers_one : World :=
  set_remote [RemoteResponse (json_array [u "A"]) None] sample.empty_world.

(** A cell text one character over the length cap. *)
Definition long_text : pystr := sample.hangul 32001.

Definition long_values : list pyval := [PList [PStr long_text]].

Definition answers_two : World :=
  set_remote [RemoteResponse (json_array [u "A"; u "B"]) None] sample.empty_world.

(** ** Queues of one paragraph *)

Definition one_paragraph_docx : docx_handler.Loop :=
  docx_handler.mkLoop
    (docx.mkDocument [docx.mkParagraph [mkRun ga default_run_style]
                        (docx.paragraph_format docx_handler.empty_paragraph)]
       [0%nat] [] [])
    [0%nat] 0 0 0 0.

Definition one_paragraph_pptx : pptx_handler.Loop :=
  pptx_handler.mkLoop
    (pptx.mkPresentation [pptx.mkParagraph [mkRun ga default_run_style] None]
       [[pptx.AutoShape [0%nat]]])
    [0%nat] 0 0 0 0.

Definition one_cell_xlsx : xlsx_handler.Loop :=
  xlsx_handler.mkLoop [PList [PStr ga]] [(0%nat, 0%nat)] [ga] 0 0 0 0.

(** ** The translation service refuses three times *)

Definition three_refusals : World :=
  set_remote (replicate 3 (RemoteResponse (u "I cannot help with that.") None))
    sample.empty_world.
(** ** The worksheet answers twice with a rate limit error, then accepts *)

Definition limited_twice : World :=
  set_gspread [ApiError quota_error; ApiError quota_error; ApiOk] with_ledger.
(** ** A row whose input counter shows 1,200 and whose output counter is empty *)

(** ** A Word file whose paragraphs are all translated *)

Definition work_docx : pystr :=
  Eval vm_compute in u "data/completed_folder/MC/10.analysis/spec - en.docx".

Definition translated_docx : docx.Document :=
  docx.mkDocument
    [docx.mkParagraph [mkRun (u "Overview") default_run_style]
       (docx.paragraph_format docx_handler.empty_paragraph);
     docx.mkParagraph [mkRun (u "  ") default_run_style]
       (docx.paragraph_format docx_handler.empty_paragraph);
     docx.mkParagraph [mkRun (u "Line 1") default_run_style]
       (docx.paragraph_format docx_handler.empty_paragraph)]
    [0%nat; 1%nat] [[[[2%nat]]]] [].

Definition translated_docx_on_disk : World :=
  set_fs (<[work_docx := NFile (mkFile 4096 (DocxDoc translated_docx))]> ∅)
    sample.empty_world.
(** ** Excel fails every save *)

Definition excel_busy : World :=
  set_saves (replicate 3 (SaveFails (u "RPC server is unavailable"))) sample.empty_world.

(** ** Excel refuses the write of a whole range *)

Definition excel_refuses : World := set_range_writes [false] sample.empty_world.
(** ** A worksheet row with a Korean text, a number and an English text *)

Definition mixed_values : list pyval := [PList [PStr ga; PNum 42; PStr (u "total")]].

(** ** A backup copy that is there already, next to a changed origin *)

Definition first_backup : File := mkFile 10240 (XlsxBook [[[PStr ga]]]).

Definition backed_up : World :=
  set_fs (<[completed_original := NFile first_backup]>
            (<[origin_file := NFile (mkFile 20480 (XlsxBook [[[PStr na; PStr ga]]]))]> ∅))
    with_ledger.

(** ** A final review sheet with two rows to review *)

Definition review_sheet : list (list pystr) :=
  [ [u "no"; u "upper"; u "sub"; u "file"];
    [u "1"; u "MC"; u "10.analysis"; u "a.xlsx"];
    [u "2"; u "MC"; u "10.analysis"; u "b.xlsx"; u "b - en.xlsx"; u "True"; u "True";
     u "True"; u "True"; u "True"; u "2025-01-01 08:00:00"];
    [u "3"; u ""; u ""; u " "];
    [u "4"; u "MC"; u "20.design"; u "d.docx"] ].

Definition under_review : World := set_sheet review_sheet sample.empty_world.

Definition review_result : final_review.Results :=
  final_review.mkResults (u "a - en.xlsx") true true true true false
    (u "2025-01-01 09:00:00").

End scenario.

(* ====================================================================== *)
(** * translate_batch: what comes back                                     *)
(* ====================================================================== *)

Lemma translate_try_fails json_loads text_list file_context w :
  forallb (spec.attempt_fails json_loads) (take 1 (remote w)) = true ->
  exists e w1,
    translator.translate_try json_loads text_list file_context w = (Raise e, w1)
    /\ remote w1 = drop 1 (remote w).
Proof.
  intros H. unfold translator.translate_try, translator.generate_content, bind, emit.
  simpl. destruct (remote w) as [|[msg|text usage] rest] eqn:E; simpl.
  - eexists _, _. split; [reflexivity|]. simpl. rewrite E. reflexivity.
  - eexists _, _. split; reflexivity.
  - simpl in H. destruct (json_loads _); [discriminate|].
    unfold raise. eexists _, _. split; reflexivity.
Qed.

Lemma translate_attempts_total json_loads attempts text_list file_context w :
  exists r w',
    translator.translate_attempts json_loads attempts text_list file_context w
    = (Return r, w').
Proof.
  revert w. induction attempts as [|attempt rest IH]; intros w.
  - eexists _, _. reflexivity.
  - cbn [translator.translate_attempts]. unfold try_except.
    destruct (translator.translate_try json_loads text_list file_context w)
      as [[a|e] w1].
    + eexists _, _. reflexivity.
    + destruct (exn_class e), (attempt <? translator.MAX_RETRIES)%nat;
        try (eexists _, _; reflexivity);
        unfold bind, sleep, emit; apply IH.
Qed.

Lemma translate_attempts_exhausted json_loads attempts text_list file_context w :
  forallb (spec.attempt_fails json_loads) (take (length attempts) (remote w)) = true ->
  exists w',
    translator.translate_attempts json_loads attempts text_list file_context w
    = (Return (str_list text_list, 0, 0), w').
Proof.
  revert w. induction attempts as [|attempt rest IH]; intros w H.
  - eexists. reflexivity.
  - cbn [translator.translate_attempts].
    destruct (translate_try_fails json_loads text_list file_context w)
      as (e & w1 & Htry & Hrem).
    { destruct (remote w); [reflexivity|]. simpl in H |- *.
      apply andb_true_iff in H as [-> _]. reflexivity. }
    unfold try_except. rewrite Htry.
    assert (Hnext : forall w2, remote w2 = remote w1 ->
              exists w', translator.translate_attempts json_loads rest text_list
                           file_context w2
                         = (Return (str_list text_list, 0, 0), w')).
    { intros w2 Hw2. apply IH. rewrite Hw2, Hrem.
      destruct (remote w) as [|r l]; [simpl; rewrite take_nil; reflexivity|].
      simpl in H |- *. rewrite drop_0. apply andb_true_iff in H as [_ H]. exact H. }
    destruct (exn_class e), (attempt <? translator.MAX_RETRIES)%nat;
      try (eexists; reflexivity);
      unfold bind, sleep, emit; apply Hnext; reflexivity.
Qed.

Lemma translate_batch_total json_loads text_list file_context w :
  exists r w',
    translator.translate_batch json_loads text_list file_context w = (Return r, w').
Proof.
  unfold translator.translate_batch. destruct text_list.
  - eexists _, _. reflexivity.
  - apply translate_attempts_total.
Qed.

(** C4: [translate_batch] never raises, whatever the service does; and
    when every attempt it can make fails (the call raises, on a timeout,
    a rate limit or anything else, or the answer does not parse), it
    returns the list it was given, unchanged, with both token counts 0. *)
Theorem translate_batch_degrades_to_original json_loads text_list file_context w :
  (exists r w',
     translator.translate_batch json_loads text_list file_context w = (Return r, w'))
  /\ (spec.retries_exhausted json_loads w = true ->
      exists w',
        translator.translate_batch json_loads text_list file_context w
        = (Return (str_list text_list, 0, 0), w')).
Proof.
  split; [apply translate_batch_total|].
  intros H. unfold translator.translate_batch. destruct text_list as [|t tl].
  - eexists. reflexivity.
  - apply translate_attempts_exhausted. exact H.
Qed.

Lemma translate_batch_degrades_witness :
  spec.retries_exhausted sample.json_loads scenario.service_down = true
  /\ exists w',
       translator.translate_batch sample.json_loads [scenario.ga; scenario.na]
         scenario.ctx scenario.service_down
       = (Return (PList [PStr scenario.ga; PStr scenario.na], 0, 0), w').
Proof.
  split; [reflexivity|].
  apply (proj2 (translate_batch_degrades_to_original sample.json_loads
                  [scenario.ga; scenario.na] scenario.ctx scenario.service_down)).
  reflexivity.
Defined.

(** C1, on the code: a well-formed answer of another length than the
    input is not a failed attempt.  The service is asked once, nothing is
    slept and nothing retried, and the one string it sent comes back for
    the two that were given. *)
Theorem translate_batch_returns_mis_sized_answer :
  exists w',
    translator.translate_batch sample.json_loads [scenario.ga; scenario.na]
      scenario.ctx scenario.one_for_two
    = (Return (PList [PStr (u "A")], 12, 3), w')
    /\ log w' = [EvTranslateCall [scenario.ga; scenario.na] scenario.ctx]
    /\ py.len (PList [PStr (u "A")]) <> Some (length [scenario.ga; scenario.na]).
Proof.
  eexists. split; [vm_compute; reflexivity|]. split; [reflexivity | discriminate].
Qed.

(* ====================================================================== *)
(** * The ledger: selection of the next task                               *)
(* ====================================================================== *)

Section Selection.

Import sheets_manager.


Lemma first_processable_some idx rows t :
  first_processable idx rows = Some t ->
  exists i row,
    rows !! i = Some row /\ t = task_of_row (idx + i) row (status t)
    /\ row_status row = Some (status t)
    /\ status t ∈ processable_statuses
    /\ forall j row' st, (j < i)%nat -> rows !! j = Some row' ->
                         row_status row' = Some st -> st ∉ processable_statuses.
Proof.
  revert idx. induction rows as [|row0 rest IH]; intros idx Hsome.
  - discriminate.
  - cbn [first_processable] in Hsome.
    destruct (row_status row0) as [st0|] eqn:Hst0.
    + case_bool_decide as Hin.
      * injection Hsome as <-. exists 0%nat, row0. simpl.
        rewrite Nat.add_0_r. repeat split; try assumption.
        intros j row' st Hj. lia.
      * destruct (IH _ Hsome) as (i & row & Hi & Ht & Hst & Hp & Hbefore).
        exists (S i), row. simpl. repeat split; try assumption.
        -- rewrite Ht. f_equal. lia.
        -- intros [|j] row' st Hj Hrow' Hst'; simpl in Hrow'.
           ++ injection Hrow' as <-. rewrite Hst0 in Hst'. injection Hst' as <-.
              exact Hin.
           ++ eapply Hbefore; [|eassumption..]. lia.
    + destruct (IH _ Hsome) as (i & row & Hi & Ht & Hst & Hp & Hbefore).
      exists (S i), row. simpl. repeat split; try assumption.
      * rewrite Ht. f_equal. lia.
      * intros [|j] row' st Hj Hrow' Hst'; simpl in Hrow'.
        -- injection Hrow' as <-. rewrite Hst0 in Hst'. discriminate.
        -- eapply Hbefore; [|eassumption..]. lia.
Qed.




End Selection.


(* ====================================================================== *)
(** * The ledger: retries of a worksheet call                              *)
(* ====================================================================== *)

(** C3, on the code: under a persistent rate limit the wrapped call is
    made three times in all.  Each failure is followed by its wait (5 s,
    10 s, 15 s, each attempt preceded by the minimum delay of 0.5 s), and
    after the third wait the last error is raised without a fourth
    attempt: the fourth scripted outcome is still unconsumed. *)
Theorem api_call_with_retry_gives_up_after_three_calls :
  exists w',
    sheets_manager._api_call_with_retry
      (sheets_manager.sheet_update_cell 4 sheets_manager.SheetColumns.STATUS
         sheets_manager.Status.IN_PROGRESS)
      scenario.rate_limited
    = (Raise (mkExn OtherException scenario.quota_error), w')
    /\ log w' =
         [EvSleep 500; EvUpdateCell 4 7 sheets_manager.Status.IN_PROGRESS; EvSleep 5000;
          EvSleep 500; EvUpdateCell 4 7 sheets_manager.Status.IN_PROGRESS; EvSleep 10000;
          EvSleep 500; EvUpdateCell 4 7 sheets_manager.Status.IN_PROGRESS; EvSleep 15000]
    /\ gspread w' = [ApiError scenario.quota_error]
    /\ sheet w' = sheet scenario.rate_limited.
Proof.
  eexists. split; [vm_compute; reflexivity|]. repeat split.
Qed.

(** An error that is not a rate limit leaves the wrapper at once. *)
Lemma api_call_with_retry_other_error row col v w msg rest :
  gspread w = ApiError msg :: rest ->
  sheets_manager.is_rate_limit (mkExn OtherException msg) = false ->
  exists w',
    sheets_manager._api_call_with_retry (sheets_manager.sheet_update_cell row col v) w
    = (Raise (mkExn OtherException msg), w')
    /\ log w' = log w ++ [EvSleep 500; EvUpdateCell row col v]
    /\ gspread w' = rest /\ sheet w' = sheet w.
Proof.
  intros Hg Hrl.
  unfold sheets_manager._api_call_with_retry. cbn [seq sheets_manager.SHEETS_API_RETRY_COUNT
    sheets_manager.api_retry_loop].
  unfold try_except, bind, sleep, emit, sheets_manager.sheet_update_cell,
    sheets_manager.api_call, bind, emit. simpl. rewrite Hg. rewrite Hrl.
  unfold raise. eexists. split; [reflexivity|]. simpl.
  rewrite <- app_assoc. auto.
Qed.

(* ====================================================================== *)
(** * The ledger: the step into IN_PROGRESS                                *)
(* ====================================================================== *)

Section Grid.

Import sheets_manager.

Lemma lookup_pad_default {A} (n : nat) (d : A) (l : list A) (i : nat) :
  default d (pad n d l !! i) = default d (l !! i).
Proof.
  unfold pad. destruct (decide (i < length l)%nat) as [Hlt|Hge].
  - rewrite lookup_app_l by assumption. reflexivity.
  - rewrite lookup_app_r by lia. rewrite (lookup_ge_None_2 l i) by lia.
    destruct (replicate (n - length l) d !! (i - length l)%nat) as [x|] eqn:E.
    + apply lookup_replicate in E as [-> _]. reflexivity.
    + reflexivity.
Qed.

Lemma lt_pad {A} (n : nat) (d : A) (l : list A) :
  (1 <= n)%nat -> (n - 1 < length (pad n d l))%nat.
Proof. intros H. unfold pad. rewrite length_app, length_replicate. lia. Qed.

Lemma cell_grid_update_eq row col v g :
  (1 <= row)%nat -> (1 <= col)%nat -> cell (grid_update row col v g) row col = v.
Proof.
  intros Hr Hc. unfold cell, grid_update.
  rewrite list_lookup_insert_eq by (apply lt_pad; assumption).
  cbn [from_option id].
  rewrite list_lookup_insert_eq by (apply lt_pad; assumption).
  reflexivity.
Qed.

Lemma cell_grid_update_ne row col v g row' col' :
  (row - 1 <> row' - 1 \/ col - 1 <> col' - 1)%nat ->
  cell (grid_update row col v g) row' col' = cell g row' col'.
Proof.
  intros Hne. unfold cell, grid_update.
  destruct (decide (row - 1 = row' - 1)%nat) as [Heq|Hrow].
  - rewrite <- Heq. destruct Hne as [Hne|Hne]; [contradiction|].
    destruct (decide (row - 1 < length (pad row ([] : list pystr) g))%nat) as [Hlt|Hge].
    + rewrite list_lookup_insert_eq by assumption. cbn [from_option id].
      rewrite list_lookup_insert_ne by assumption.
      rewrite lookup_pad_default. rewrite lookup_pad_default. reflexivity.
    + rewrite list_insert_ge by (apply Nat.nlt_ge; exact Hge).
      rewrite lookup_pad_default. reflexivity.
  - rewrite list_lookup_insert_ne by assumption.
    rewrite lookup_pad_default. reflexivity.
Qed.

(** ** Worksheet calls that succeed *)

Lemma update_cell_ok n row col v w :
  spec.api_ok (S n) w = true ->
  exists w', sheet_update_cell row col v w = (Return tt, w')
             /\ sheet w' = grid_update row col v (sheet w)
             /\ now w' = now w /\ spec.api_ok n w' = true.
Proof.
  unfold spec.api_ok, sheet_update_cell, api_call, bind, emit. simpl.
  destruct (gspread w) as [|[|msg] rest] eqn:E; simpl; intros H; try discriminate.
  - eexists. split; [reflexivity|]. simpl. rewrite E. rewrite take_nil. auto.
  - eexists. split; [reflexivity|]. simpl. auto.
Qed.

Lemma update_status_ok n row st w :
  spec.api_ok (S n) w = true ->
  exists w', update_status row st w = (Return true, w')
             /\ sheet w' = grid_update row SheetColumns.STATUS st (sheet w)
             /\ now w' = now w /\ spec.api_ok n w' = true.
Proof.
  intros H. unfold update_status, _api_call_with_retry. simpl.
  unfold try_except at 2. unfold bind at 2. unfold sleep, emit at 1.
  unfold bind, try_except.
  destruct (update_cell_ok n row SheetColumns.STATUS st
              (set_log (log w ++ [EvSleep SHEETS_API_MIN_DELAY_ms]) w) H)
    as (w' & Hrun & Hs & Hn & Hok).
  rewrite Hrun. eexists. split; [reflexivity|]. auto.
Qed.




(** ** A status update under any behaviour of the worksheet *)





End Grid.


(* ====================================================================== *)
(** * Resume: the work file that is there already                          *)
(* ====================================================================== *)

Lemma resume_found os word_convert work origin cdir corig w node :
  fs w !! work = Some node ->
  main.prepare_work_files_resume os word_convert work origin cdir corig w
  = (Return (Some work), w).
Proof.
  intros H. unfold main.prepare_work_files_resume, try_except, bind, os_path_exists.
  rewrite H. rewrite bool_decide_eq_true_2 by (eexists; reflexivity). reflexivity.
Qed.

(** C7: for a resumed task whose work file exists, the preparation step
    of [process_task] returns the path of that file and leaves the whole
    world as it was: no copy of the origin file, no conversion, no write
    to the work file.  And whenever the preparation of a resumed task
    changes anything at all, the work file did not exist. *)
Theorem resume_reuses_existing_work_file
  os word_convert origin_path completed_dir completed_original work_file_path w :
  (forall node, fs w !! work_file_path = Some node ->
     main.prepare os word_convert true origin_path completed_dir completed_original
       work_file_path w = (Return (Some work_file_path), w)
     /\ main.prepare_work_files_resume os word_convert work_file_path origin_path
          completed_dir completed_original w = (Return (Some work_file_path), w))
  /\ (forall r w',
        main.prepare os word_convert true origin_path completed_dir completed_original
          work_file_path w = (r, w') ->
        w' <> w -> fs w !! work_file_path = None).
Proof.
  split.
  - intros node H. cbn [main.prepare]. split; eapply resume_found; exact H.
  - intros r w' Hrun Hne.
    destruct (fs w !! work_file_path) as [node|] eqn:E; [|reflexivity].
    cbn [main.prepare] in Hrun. rewrite (resume_found _ _ _ _ _ _ _ _ E) in Hrun.
    injection Hrun as _ <-. contradiction.
Qed.

Lemma resume_reuses_witness :
  fs scenario.resumed !! scenario.work_file = Some (NFile scenario.half_done)
  /\ main.prepare sample.os scenario.no_word true scenario.origin_file
       scenario.completed_dir scenario.completed_original scenario.work_file
       scenario.resumed
     = (Return (Some scenario.work_file), scenario.resumed).
Proof.
  split; [vm_compute; reflexivity|].
  apply (proj1 (resume_reuses_existing_work_file sample.os scenario.no_word
                  scenario.origin_file scenario.completed_dir
                  scenario.completed_original scenario.work_file scenario.resumed)
           (NFile scenario.half_done)).
  vm_compute. reflexivity.
Defined.

(* ====================================================================== *)
(** * Saving a Word document                                               *)
(* ====================================================================== *)




(* ====================================================================== *)
(** * Verification: a scan that fails                                      *)
(* ====================================================================== *)

(** A work file that openpyxl cannot load scans as free of Korean. *)
Lemma scan_korean_in_xlsx_unreadable file_path size w :
  fs w !! file_path = Some (NFile (mkFile size Blob)) ->
  verify.scan_korean_in_xlsx file_path w = (Return (false, 0%nat), w).
Proof.
  intros H. unfold verify.scan_korean_in_xlsx, try_except, bind, open_content.
  rewrite H. reflexivity.
Qed.

(** C2, on the code: the work file of a COMPLETED row is an [.xlsx] file
    that cannot be read.  The scan raises inside, reports no Korean, and
    [verify_task] promotes the row to REVIEW_1_COMPLETED and returns
    success with the result type of a file without Korean. *)
Theorem verify_task_promotes_after_failed_scan :
  verify.scan_korean_in_file scenario.damaged_work_file scenario.unreadable
  = (Return (false, 0%nat), scenario.unreadable)
  /\ exists w',
       verify.verify_task sample.os sample.COMPLETED_FOLDER sample.json_loads
         sample.process_xlsx sample.format_exc scenario.task_a scenario.unreadable
       = (Return (true, u "no_korean"), w')
       /\ sheets_manager.cell (sheet scenario.unreadable) 2
            sheets_manager.SheetColumns.STATUS = sheets_manager.Status.COMPLETED
       /\ sheets_manager.cell (sheet w') 2 sheets_manager.SheetColumns.STATUS
          = sheets_manager.Status.REVIEW_1_COMPLETED.
Proof.
  split; [vm_compute; reflexivity|].
  eexists. split; [vm_compute; reflexivity|]. split; reflexivity.
Qed.

(* ====================================================================== *)
(** * The handlers: a batch whose answer has another length                *)
(* ====================================================================== *)

Section DocxBatch.

Import docx_handler.

Variable json_loads : pystr -> option pyval.
Variables (file_path context : pystr) (sheets_manager : bool) (row_index : option nat).

Lemma docx_full_batch_mis_sized s w translated i o w1 :
  translator.translate_batch json_loads (queue_texts s) context w
  = (Return (translated, i, o), w1) ->
  spec.mis_sized translated (length (batch_queue s)) ->
  exists s' w',
    full_batch json_loads file_path context sheets_manager row_index s w = (Return s', w')
    /\ doc s' = doc s /\ batch_queue s' = [] /\ fs w' = fs w1.
Proof.
  intros Htr (n & Hlen & Hne).
  unfold full_batch. unfold bind at 1. rewrite Htr. cbn [fst snd]. rewrite Hlen.
  rewrite (proj2 (Nat.eqb_neq _ _) Hne).
  unfold bind, ret, sleep, emit. eexists _, _. split; [reflexivity|].
  simpl. auto.
Qed.

Lemma docx_trailing_batch_mis_sized s w translated i o w1 :
  translator.translate_batch json_loads (queue_texts s) context w
  = (Return (translated, i, o), w1) ->
  spec.mis_sized translated (length (batch_queue s)) ->
  exists s', trailing_batch json_loads context s w = (Return s', w1) /\ doc s' = doc s.
Proof.
  intros Htr (n & Hlen & Hne).
  unfold trailing_batch. destruct (batch_queue s) as [|q qs] eqn:Eq.
  - exfalso. unfold queue_texts in Htr. rewrite Eq in Htr. simpl in Htr.
    injection Htr as <- _ _ <-. simpl in Hlen. injection Hlen as <-. contradiction.
  - unfold bind at 1. rewrite Htr. cbn [fst snd]. rewrite Hlen.
    rewrite (proj2 (Nat.eqb_neq _ _) Hne).
    unfold ret. eexists. split; reflexivity.
Qed.

Lemma docx_full_batch_writes_same_size s w s' w' :
  full_batch json_loads file_path context sheets_manager row_index s w = (Return s', w') ->
  doc s' <> doc s ->
  exists translated i o w1,
    translator.translate_batch json_loads (queue_texts s) context w
    = (Return (translated, i, o), w1)
    /\ py.len translated = Some (length (batch_queue s)).
Proof.
  intros Hrun Hne.
  destruct (translate_batch_total json_loads (queue_texts s) context w)
    as ([[translated i] o] & w1 & Htr).
  exists translated, i, o, w1. split; [exact Htr|].
  destruct (py.len translated) as [n|] eqn:Hlen.
  - destruct (decide (n = length (batch_queue s))) as [->|Hn]; [reflexivity|].
    destruct (docx_full_batch_mis_sized s w translated i o w1 Htr)
      as (s2 & w2 & Hrun2 & Hd & _).
    { exists n. split; assumption. }
    rewrite Hrun in Hrun2. injection Hrun2 as <- _. contradiction.
  - unfold full_batch in Hrun. unfold bind at 1 in Hrun. rewrite Htr in Hrun.
    cbn [fst snd] in Hrun. rewrite Hlen in Hrun. discriminate.
Qed.

Lemma docx_trailing_batch_writes_same_size s w s' w' :
  trailing_batch json_loads context s w = (Return s', w') ->
  doc s' <> doc s ->
  exists translated i o w1,
    translator.translate_batch json_loads (queue_texts s) context w
    = (Return (translated, i, o), w1)
    /\ py.len translated = Some (length (batch_queue s)).
Proof.
  intros Hrun Hne.
  destruct (translate_batch_total json_loads (queue_texts s) context w)
    as ([[translated i] o] & w1 & Htr).
  exists translated, i, o, w1. split; [exact Htr|].
  destruct (py.len translated) as [n|] eqn:Hlen.
  - destruct (decide (n = length (batch_queue s))) as [->|Hn]; [reflexivity|].
    destruct (docx_trailing_batch_mis_sized s w translated i o w1 Htr)
      as (s2 & Hrun2 & Hd).
    { exists n. split; assumption. }
    rewrite Hrun in Hrun2. injection Hrun2 as <- _. contradiction.
  - unfold trailing_batch in Hrun. destruct (batch_queue s) as [|q qs] eqn:Eq.
    + injection Hrun as <- _. contradiction.
    + unfold bind at 1 in Hrun. rewrite Htr in Hrun.
      cbn [fst snd] in Hrun. rewrite Hlen in Hrun. discriminate.
Qed.

End DocxBatch.

Section PptxBatch.

Import pptx_handler.

Variable json_loads : pystr -> option pyval.
Variables (file_path context : pystr) (sheets_manager : bool) (row_index : option nat).

Lemma pptx_full_batch_mis_sized s w translated i o w1 :
  translator.translate_batch json_loads (queue_texts s) context w
  = (Return (translated, i, o), w1) ->
  spec.mis_sized translated (length (batch_queue s)) ->
  exists s' w',
    full_batch json_loads file_path context sheets_manager row_index s w = (Return s', w')
    /\ prs s' = prs s /\ batch_queue s' = [] /\ fs w' = fs w1.
Proof.
  intros Htr (n & Hlen & Hne).
  unfold full_batch. unfold bind at 1. rewrite Htr. cbn [fst snd]. rewrite Hlen.
  rewrite (proj2 (Nat.eqb_neq _ _) Hne).
  unfold bind, ret, sleep, emit. eexists _, _. split; [reflexivity|].
  simpl. auto.
Qed.

Lemma pptx_trailing_batch_mis_sized s w translated i o w1 :
  translator.translate_batch json_loads (queue_texts s) context w
  = (Return (translated, i, o), w1) ->
  spec.mis_sized translated (length (batch_queue s)) ->
  exists s', trailing_batch json_loads context s w = (Return s', w1) /\ prs s' = prs s.
Proof.
  intros Htr (n & Hlen & Hne).
  unfold trailing_batch. destruct (batch_queue s) as [|q qs] eqn:Eq.
  - exfalso. unfold queue_texts in Htr. rewrite Eq in Htr. simpl in Htr.
    injection Htr as <- _ _ <-. simpl in Hlen. injection Hlen as <-. contradiction.
  - unfold bind at 1. rewrite Htr. cbn [fst snd]. rewrite Hlen.
    rewrite (proj2 (Nat.eqb_neq _ _) Hne).
    unfold ret. eexists. split; reflexivity.
Qed.

Lemma pptx_full_batch_writes_same_size s w s' w' :
  full_batch json_loads file_path context sheets_manager row_index s w = (Return s', w') ->
  prs s' <> prs s ->
  exists translated i o w1,
    translator.translate_batch json_loads (queue_texts s) context w
    = (Return (translated, i, o), w1)
    /\ py.len translated = Some (length (batch_queue s)).
Proof.
  intros Hrun Hne.
  destruct (translate_batch_total json_loads (queue_texts s) context w)
    as ([[translated i] o] & w1 & Htr).
  exists translated, i, o, w1. split; [exact Htr|].
  destruct (py.len translated) as [n|] eqn:Hlen.
  - destruct (decide (n = length (batch_queue s))) as [->|Hn]; [reflexivity|].
    destruct (pptx_full_batch_mis_sized s w translated i o w1 Htr)
      as (s2 & w2 & Hrun2 & Hd & _).
    { exists n. split; assumption. }
    rewrite Hrun in Hrun2. injection Hrun2 as <- _. contradiction.
  - unfold full_batch in Hrun. unfold bind at 1 in Hrun. rewrite Htr in Hrun.
    cbn [fst snd] in Hrun. rewrite Hlen in Hrun. discriminate.
Qed.

Lemma pptx_trailing_batch_writes_same_size s w s' w' :
  trailing_batch json_loads context s w = (Return s', w') ->
  prs s' <> prs s ->
  exists translated i o w1,
    translator.translate_batch json_loads (queue_texts s) context w
    = (Return (translated, i, o), w1)
    /\ py.len translated = Some (length (batch_queue s)).
Proof.
  intros Hrun Hne.
  destruct (translate_batch_total json_loads (queue_texts s) context w)
    as ([[translated i] o] & w1 & Htr).
  exists translated, i, o, w1. split; [exact Htr|].
  destruct (py.len translated) as [n|] eqn:Hlen.
  - destruct (decide (n = length (batch_queue s))) as [->|Hn]; [reflexivity|].
    destruct (pptx_trailing_batch_mis_sized s w translated i o w1 Htr)
      as (s2 & Hrun2 & Hd).
    { exists n. split; assumption. }
    rewrite Hrun in Hrun2. injection Hrun2 as <- _. contradiction.
  - unfold trailing_batch in Hrun. destruct (batch_queue s) as [|q qs] eqn:Eq.
    + injection Hrun as <- _. contradiction.
    + unfold bind at 1 in Hrun. rewrite Htr in Hrun.
      cbn [fst snd] in Hrun. rewrite Hlen in Hrun. discriminate.
Qed.

End PptxBatch.

(* ====================================================================== *)
(** * The Excel handler: the length cap, the write-back, the queues        *)
(* ====================================================================== *)

Section XlsxValues.

Import xlsx_handler.

Lemma truncate_cell_value_idem v :
  truncate_cell_value (truncate_cell_value v) = truncate_cell_value v.
Proof.
  destruct v as [| | |s| | |]; try reflexivity.
  cbn [truncate_cell_value].
  destruct (MAX_CELL_LENGTH <? Z.of_nat (length s)) eqn:E.
  - cbn [truncate_cell_value].
    replace (MAX_CELL_LENGTH <? _) with false; [reflexivity|].
    symmetry. apply Z.ltb_ge. apply Z.ltb_lt in E.
    rewrite length_app, length_take. unfold MAX_CELL_LENGTH in *.
    change (length (u "...")) with 3%nat. lia.
  - cbn [truncate_cell_value]. rewrite E. reflexivity.
Qed.

Lemma capped_truncate v0 v :
  spec.capped v0 v -> spec.capped v0 (truncate_cell_value v).
Proof.
  intros [-> | ->]; right; [reflexivity | apply truncate_cell_value_idem].
Qed.

Lemma capped_trans v0 v v' : spec.capped v0 v -> spec.capped v v' -> spec.capped v0 v'.
Proof.
  intros H [-> | ->]; [assumption | apply capped_truncate; assumption].
Qed.

Lemma value_at_truncate_rows V r c :
  spec.capped (value_at V r c) (value_at (truncate_rows V) r c).
Proof.
  unfold value_at, truncate_rows. rewrite list_lookup_fmap.
  destruct (V !! r) as [row|]; [|left; reflexivity].
  cbn [fmap option_fmap option_map].
  destruct row as [| | | |l| |]; try (left; reflexivity).
  rewrite list_lookup_fmap. destruct (l !! c) as [x|]; [|left; reflexivity].
  right. reflexivity.
Qed.

Lemma assign_cell_other V r c txt w V' w' r' c' :
  assign_cell V r c txt w = (Return V', w') ->
  (r, c) <> (r', c') ->
  value_at V' r' c' = value_at V r' c' /\ w' = w.
Proof.
  unfold assign_cell. intros H Hne.
  destruct (V !! r) as [row|] eqn:Er; [|discriminate].
  destruct row as [| | | |l| |]; try discriminate.
  destruct (c <? length l)%nat; [|discriminate].
  injection H as <- <-. split; [|reflexivity].
  unfold value_at. destruct (decide (r = r')) as [<-|Hr].
  - rewrite list_lookup_insert_eq by (eapply lookup_lt_Some; eassumption).
    rewrite Er. rewrite list_lookup_insert_ne by congruence. reflexivity.
  - rewrite list_lookup_insert_ne by assumption. reflexivity.
Qed.

Lemma write_back_other pairs V w V' w' r' c' :
  write_back pairs V w = (Return V', w') ->
  (r', c') ∉ pairs.*1 ->
  value_at V' r' c' = value_at V r' c' /\ w' = w.
Proof.
  revert V w. induction pairs as [|[[r c] txt] rest IH]; intros V w H Hnot.
  - injection H as <- <-. auto.
  - cbn [write_back] in H. unfold bind in H.
    destruct (assign_cell V r c txt w) as [[V1|e] w1] eqn:E1; [|discriminate].
    cbn [fmap list_fmap fst] in Hnot. apply not_elem_of_cons in Hnot as [Hne Hrest].
    destruct (assign_cell_other _ _ _ _ _ _ _ r' c' E1) as [Hv ->]; [congruence|].
    destruct (IH _ _ H Hrest) as [Hv2 ->]. split; [congruence | reflexivity].
Qed.

Lemma write_rows_total rows idx n w :
  exists m w', write_rows idx rows n w = (Return m, w').
Proof.
  revert idx n w. induction rows as [|row rest IH]; intros idx n w.
  - eexists _, _. reflexivity.
  - assert (Hgen : forall cells,
      exists m w', (n' <- try_except (range_assign (EvRowWrite idx cells) ;; ret n)
                          (fun e => ret (S n)) ;;
                    write_rows (S idx) rest n') w = (Return m, w')).
    { intros cells. unfold bind at 1, try_except.
      destruct ((range_assign (EvRowWrite idx cells) ;; ret n) w) as [[a|e] w1];
        [apply IH | unfold ret; apply IH]. }
    destruct row; cbn [write_rows]; try apply Hgen. apply IH.
Qed.

(** [write_range_safely] answers [True] each time: its bulk write either
    goes through or is replaced by the row-wise fallback, whose failures
    are counted and passed over. *)
Lemma write_range_safely_total V w :
  exists w', write_range_safely V w = (Return (true, truncate_rows V), w').
Proof.
  unfold write_range_safely, try_except.
  destruct ((range_assign (EvRangeWrite (truncate_rows V)) ;; ret (true, truncate_rows V)) w)
    as [[a|e] w1] eqn:E.
  - unfold bind in E. destruct (range_assign _ w) as [[[]|e] w2]; [|discriminate].
    injection E as <- <-. eexists. reflexivity.
  - unfold bind at 1.
    destruct (write_rows_total (truncate_rows V) 0 0 w1) as (m & w2 & Hw).
    rewrite Hw. eexists. reflexivity.
Qed.

Lemma xlsx_save_attempts_total attempts max_retries p w :
  exists b w', save_attempts attempts max_retries p w = (Return b, w').
Proof.
  revert w. induction attempts as [|a rest IH]; intros w.
  - eexists _, _. reflexivity.
  - cbn [save_attempts]. unfold try_except.
    destruct ((workbook_save p ;; ret true) w) as [[b|e] w1].
    + eexists _, _. reflexivity.
    + destruct (a <? max_retries - 1)%nat; [|eexists _, _; reflexivity].
      unfold bind, sleep, emit. apply IH.
Qed.

Lemma update_tokens_total row i o w :
  exists w', sheets_manager.update_tokens row i o w = (Return tt, w').
Proof.
  unfold sheets_manager.update_tokens, try_except.
  match goal with
  | |- context [match ?m w with _ => _ end] => destruct (m w) as [[[]|e] w1]
  end; eexists; reflexivity.
Qed.

End XlsxValues.

Section XlsxSheet.

Import xlsx_handler.

Variable json_loads : pystr -> option pyval.
Variables (work_path context : pystr) (sheets_manager : bool) (row_index : option nat).
Variable all_formulas : list pyval.
Variable values0 : list pyval.








Lemma xlsx_full_batch_mis_sized s w translated i o w1 :
  translator.translate_batch json_loads (batch_texts s) context w
  = (Return (translated, i, o), w1) ->
  spec.mis_sized translated (length (batch_coords s)) ->
  exists s' w',
    full_batch json_loads work_path context sheets_manager row_index s w = (Return s', w')
    /\ spec.capped_rows (all_values s) (all_values s')
    /\ batch_coords s' = [] /\ batch_texts s' = [].
Proof.
  intros Htr (n & Hlen & Hne).
  unfold full_batch. unfold bind at 1. rewrite Htr. cbn [fst snd]. rewrite Hlen.
  rewrite (proj2 (Nat.eqb_neq _ _) Hne). unfold bind at 1. unfold ret at 1.
  destruct (S (batch_cycle s) mod config.AUTO_SAVE_INTERVAL =? 0)%nat.
  - unfold bind at 1.
    destruct (write_range_safely_total (all_values s) w1) as (w3 & Hw). rewrite Hw.
    cbn iota. unfold bind at 1.
    destruct (xlsx_save_attempts_total (seq 0 SAVE_MAX_RETRIES) SAVE_MAX_RETRIES
                work_path w3) as (b & w4 & Hs).
    unfold save_workbook_simple. rewrite Hs. unfold bind at 1.
    destruct (tracking sheets_manager row_index) as [row|].
    + unfold bind at 1.
      destruct (update_tokens_total row (total_input_tokens s + i)
                  (total_output_tokens s + o) w4) as (w5 & Hu).
      rewrite Hu. unfold ret, bind, sleep, emit.
      eexists _, _. split; [reflexivity|]. simpl. split; [right; reflexivity | auto].
    + unfold ret, bind, sleep, emit.
      eexists _, _. split; [reflexivity|]. simpl. split; [right; reflexivity | auto].
  - unfold ret, bind, sleep, emit.
    eexists _, _. split; [reflexivity|]. simpl. split; [left; reflexivity | auto].
Qed.

Lemma xlsx_trailing_batch_mis_sized s w translated i o w1 :
  translator.translate_batch json_loads (batch_texts s) context w
  = (Return (translated, i, o), w1) ->
  spec.mis_sized translated (length (batch_coords s)) ->
  exists s', trailing_batch json_loads context s w = (Return s', w1)
             /\ all_values s' = all_values s.
Proof.
  intros Htr (n & Hlen & Hne).
  unfold trailing_batch. destruct (batch_texts s) as [|t ts] eqn:Et.
  - simpl in Htr. injection Htr as _ _ _ <-. eexists. split; reflexivity.
  - unfold bind at 1. rewrite Htr. cbn [fst snd]. rewrite Hlen.
    rewrite (proj2 (Nat.eqb_neq _ _) Hne).
    unfold ret. eexists. split; reflexivity.
Qed.

End XlsxSheet.

Lemma xlsx_full_batch_writes_same_size
  json_loads work_path context sheets_manager row_index s w s' w' :
  xlsx_handler.full_batch json_loads work_path context sheets_manager row_index s w
  = (Return s', w') ->
  ~ spec.capped_rows (xlsx_handler.all_values s) (xlsx_handler.all_values s') ->
  exists translated i o w1,
    translator.translate_batch json_loads (xlsx_handler.batch_texts s) context w
    = (Return (translated, i, o), w1)
    /\ py.len translated = Some (length (xlsx_handler.batch_coords s)).
Proof.
  intros Hrun Hne.
  destruct (translate_batch_total json_loads (xlsx_handler.batch_texts s) context w)
    as ([[translated i] o] & w1 & Htr).
  exists translated, i, o, w1. split; [exact Htr|].
  destruct (py.len translated) as [n|] eqn:Hlen.
  - destruct (decide (n = length (xlsx_handler.batch_coords s))) as [->|Hn];
      [reflexivity|].
    destruct (xlsx_full_batch_mis_sized json_loads work_path context sheets_manager
                row_index s w translated i o w1 Htr) as (s2 & w2 & Hrun2 & Hd & _).
    { exists n. split; assumption. }
    rewrite Hrun in Hrun2. injection Hrun2 as <- _. contradiction.
  - unfold xlsx_handler.full_batch in Hrun. unfold bind at 1 in Hrun.
    rewrite Htr in Hrun. cbn [fst snd] in Hrun. rewrite Hlen in Hrun. discriminate.
Qed.

(** C10, as the code has it: in each of the three handlers, when
    [translate_batch] returns a value whose length is not that of the
    queue, no unit of the batch is rewritten from it and the handler goes
    on: the full batch of the loop returns with the queue emptied, the
    trailing batch returns, and the document is the one before the call;
    in [process_xlsx] the cell values are the ones before the call up to
    the length cap, which the write-back of an autosave applies to every
    cell of the sheet.  And a batch step that returns with the document
    changed (in [process_xlsx]: changed by more than the cap) had an
    answer of exactly the length of the queue. *)
Theorem mis_sized_batch_is_not_written
  json_loads file_path context sheets_manager row_index :
  (forall s w translated i o w1,
     translator.translate_batch json_loads (docx_handler.queue_texts s) context w
     = (Return (translated, i, o), w1) ->
     spec.mis_sized translated (length (docx_handler.batch_queue s)) ->
     (exists s' w',
        docx_handler.full_batch json_loads file_path context sheets_manager row_index s w
        = (Return s', w')
        /\ docx_handler.doc s' = docx_handler.doc s
        /\ docx_handler.batch_queue s' = [] /\ fs w' = fs w1)
     /\ (exists s',
           docx_handler.trailing_batch json_loads context s w = (Return s', w1)
           /\ docx_handler.doc s' = docx_handler.doc s))
  /\ (forall s w translated i o w1,
        translator.translate_batch json_loads (pptx_handler.queue_texts s) context w
        = (Return (translated, i, o), w1) ->
        spec.mis_sized translated (length (pptx_handler.batch_queue s)) ->
        (exists s' w',
           pptx_handler.full_batch json_loads file_path context sheets_manager row_index s w
           = (Return s', w')
           /\ pptx_handler.prs s' = pptx_handler.prs s
           /\ pptx_handler.batch_queue s' = [] /\ fs w' = fs w1)
        /\ (exists s',
              pptx_handler.trailing_batch json_loads context s w = (Return s', w1)
              /\ pptx_handler.prs s' = pptx_handler.prs s))
  /\ (forall s w translated i o w1,
        translator.translate_batch json_loads (xlsx_handler.batch_texts s) context w
        = (Return (translated, i, o), w1) ->
        spec.mis_sized translated (length (xlsx_handler.batch_coords s)) ->
        (exists s' w',
           xlsx_handler.full_batch json_loads file_path context sheets_manager row_index s w
           = (Return s', w')
           /\ spec.capped_rows (xlsx_handler.all_values s) (xlsx_handler.all_values s')
           /\ xlsx_handler.batch_coords s' = [] /\ xlsx_handler.batch_texts s' = [])
        /\ (exists s',
              xlsx_handler.trailing_batch json_loads context s w = (Return s', w1)
              /\ xlsx_handler.all_values s' = xlsx_handler.all_values s))
  /\ (forall s w s' w',
        (docx_handler.full_batch json_loads file_path context sheets_manager row_index s w
         = (Return s', w')
         \/ docx_handler.trailing_batch json_loads context s w = (Return s', w')) ->
        docx_handler.doc s' <> docx_handler.doc s ->
        exists translated i o w1,
          translator.translate_batch json_loads (docx_handler.queue_texts s) context w
          = (Return (translated, i, o), w1)
          /\ py.len translated = Some (length (docx_handler.batch_queue s)))
  /\ (forall s w s' w',
        (pptx_handler.full_batch json_loads file_path context sheets_manager row_index s w
         = (Return s', w')
         \/ pptx_handler.trailing_batch json_loads context s w = (Return s', w')) ->
        pptx_handler.prs s' <> pptx_handler.prs s ->
        exists translated i o w1,
          translator.translate_batch json_loads (pptx_handler.queue_texts s) context w
          = (Return (translated, i, o), w1)
          /\ py.len translated = Some (length (pptx_handler.batch_queue s)))
  /\ (forall s w s' w',
        xlsx_handler.full_batch json_loads file_path context sheets_manager row_index s w
        = (Return s', w') ->
        ~ spec.capped_rows (xlsx_handler.all_values s) (xlsx_handler.all_values s') ->
        exists translated i o w1,
          translator.translate_batch json_loads (xlsx_handler.batch_texts s) context w
          = (Return (translated, i, o), w1)
          /\ py.len translated = Some (length (xlsx_handler.batch_coords s))).
Proof.
  repeat apply conj.
  - intros s w translated i o w1 Htr Hm. split.
    + eapply docx_full_batch_mis_sized; eassumption.
    + eapply docx_trailing_batch_mis_sized; eassumption.
  - intros s w translated i o w1 Htr Hm. split.
    + eapply pptx_full_batch_mis_sized; eassumption.
    + eapply pptx_trailing_batch_mis_sized; eassumption.
  - intros s w translated i o w1 Htr Hm. split.
    + eapply xlsx_full_batch_mis_sized; eassumption.
    + eapply xlsx_trailing_batch_mis_sized; eassumption.
  - intros s w s' w' [Hrun|Hrun] Hne.
    + eapply docx_full_batch_writes_same_size; eassumption.
    + eapply docx_trailing_batch_writes_same_size; eassumption.
  - intros s w s' w' [Hrun|Hrun] Hne.
    + eapply pptx_full_batch_writes_same_size; eassumption.
    + eapply pptx_trailing_batch_writes_same_size; eassumption.
  - intros s w s' w' Hrun Hne.
    eapply xlsx_full_batch_writes_same_size; eassumption.
Qed.

Lemma mis_sized_batch_witness :
  let w1 := set_log [EvTranslateCall [scenario.ga] scenario.ctx]
              (set_remote [] scenario.answers_two) in
  let translated := PList [PStr (u "A"); PStr (u "B")] in
  translator.translate_batch sample.json_loads
    (docx_handler.queue_texts scenario.one_paragraph_docx) scenario.ctx
    scenario.answers_two
  = (Return (translated, 0, 0), w1)
  /\ spec.mis_sized translated
       (length (docx_handler.batch_queue scenario.one_paragraph_docx))
  /\ exists s' w',
       docx_handler.full_batch sample.json_loads scenario.work_file scenario.ctx
         true (Some 4%nat) scenario.one_paragraph_docx scenario.answers_two
       = (Return s', w')
       /\ docx_handler.doc s' = docx_handler.doc scenario.one_paragraph_docx
       /\ docx_handler.batch_queue s' = [] /\ fs w' = fs w1.
Proof.
  cbv zeta.
  assert (Htr :
    translator.translate_batch sample.json_loads
      (docx_handler.queue_texts scenario.one_paragraph_docx) scenario.ctx
      scenario.answers_two
    = (Return (PList [PStr (u "A"); PStr (u "B")], 0, 0),
       set_log [EvTranslateCall [scenario.ga] scenario.ctx]
         (set_remote [] scenario.answers_two))) by (vm_compute; reflexivity).
  assert (Hm : spec.mis_sized (PList [PStr (u "A"); PStr (u "B")])
                 (length (docx_handler.batch_queue scenario.one_paragraph_docx))).
  { exists 2%nat. split; [reflexivity | simpl; lia]. }
  split; [exact Htr|]. split; [exact Hm|].
  exact (proj1 (proj1 (mis_sized_batch_is_not_written sample.json_loads
                         scenario.work_file scenario.ctx true (Some 4%nat))
                  scenario.one_paragraph_docx scenario.answers_two _ _ _ _ Htr Hm)).
Defined.

(** C10 as stated does not hold of [process_xlsx]: the one Korean cell of
    a sheet is queued, the answer has two strings for it, nothing is
    written from the answer, and yet the cell does not keep its text: it
    is one character over the length cap, and the write-back of the
    sheet cuts it. *)
Lemma xlsx_unit_is_cut_after_mis_sized_answer :
  exists s w' w1,
    translator.translate_batch sample.json_loads [scenario.long_text] scenario.ctx
      scenario.answers_two
    = (Return (PList [PStr (u "A"); PStr (u "B")], 0, 0), w1)
    /\ xlsx_handler.process_sheet sample.json_loads scenario.work_file scenario.ctx
         false None [] scenario.long_values 0 0 0 0 scenario.answers_two
       = (Return s, w')
    /\ xlsx_handler.batch_coords s = [(0%nat, 0%nat)]
    /\ xlsx_handler.value_at (xlsx_handler.all_values s) 0 0
       <> xlsx_handler.value_at scenario.long_values 0 0.
Proof.
  assert (Ht : fst (translator.translate_batch sample.json_loads [scenario.long_text]
                      scenario.ctx scenario.answers_two)
               = Return (PList [PStr (u "A"); PStr (u "B")], 0, 0))
    by (vm_compute; reflexivity).
  assert (Hb :
    match xlsx_handler.process_sheet sample.json_loads scenario.work_file scenario.ctx
            false None [] scenario.long_values 0 0 0 0 scenario.answers_two with
    | (Return s, _) =>
        (match xlsx_handler.value_at (xlsx_handler.all_values s) 0 0 with
         | PStr t => Z.of_nat (length t)
         | _ => 0
         end, xlsx_handler.batch_coords s)
    | _ => (0, [])
    end = (32000, [(0%nat, 0%nat)])) by (vm_compute; reflexivity).
  assert (Hl : match xlsx_handler.value_at scenario.long_values 0 0 with
               | PStr t => Z.of_nat (length t)
               | _ => 0
               end = 32001) by (vm_compute; reflexivity).
  destruct (xlsx_handler.process_sheet _ _ _ _ _ _ _ _ _ _ _ _) as [[s | e] w'];
    [| discriminate Hb].
  destruct (translator.translate_batch _ _ _ _) as [o w1]. simpl in Ht. subst o.
  injection Hb as Hv Hc.
  exists s, w', w1. split; [reflexivity|]. split; [reflexivity|]. split; [exact Hc|].
  intros H. rewrite H, Hl in Hv. discriminate Hv.
Qed.

(* ====================================================================== *)
(** * The Excel handler: formula cells                                     *)
(* ====================================================================== *)




(* ====================================================================== *)
(** * translator.py: what a batch costs, and the two back-off schedules    *)
(* ====================================================================== *)

Lemma translate_calls_app l1 l2 :
  spec.translate_calls (l1 ++ l2) = (spec.translate_calls l1 + spec.translate_calls l2)%nat.
Proof. unfold spec.translate_calls. rewrite filter_app, length_app. reflexivity. Qed.

Lemma sleep_total_app l1 l2 :
  spec.sleep_total (l1 ++ l2) = spec.sleep_total l1 + spec.sleep_total l2.
Proof.
  unfold spec.sleep_total, sleeps. rewrite omap_app, foldr_app.
  induction (omap _ l1) as [|x xs IH]; simpl; [reflexivity | rewrite IH; lia].
Qed.

Lemma backoff_bound_cons attempt rest :
  spec.backoff_bound (attempt :: rest)
  = (if (attempt <? translator.MAX_RETRIES)%nat
     then Z.max 5000 (5000 * Z.of_nat attempt) else 0) + spec.backoff_bound rest.
Proof.
  unfold spec.backoff_bound. cbn [foldr]. unfold translator.RETRY_DELAY_SECONDS.
  destruct (attempt <? translator.MAX_RETRIES)%nat; lia.
Qed.

Lemma backoff_bound_nonneg attempts : 0 <= spec.backoff_bound attempts.
Proof.
  induction attempts as [|a l IH]; [cbv; discriminate|].
  rewrite backoff_bound_cons. destruct (a <? translator.MAX_RETRIES)%nat; lia.
Qed.

(** One attempt: one call is logged and one reply consumed, whatever
    comes of it; nothing else changes. *)
Lemma translate_try_effect json_loads text_list file_context w :
  exists r w1,
    translator.translate_try json_loads text_list file_context w = (r, w1)
    /\ log w1 = log w ++ [EvTranslateCall text_list file_context]
    /\ remote w1 = drop 1 (remote w)
    /\ sheet w1 = sheet w /\ fs w1 = fs w /\ gspread w1 = gspread w.
Proof.
  unfold translator.translate_try, translator.generate_content, bind, emit. simpl.
  destruct (remote w) as [|[msg|text usage] rest] eqn:E; simpl.
  - eexists _, _. split; [reflexivity|]. simpl. rewrite E. auto.
  - eexists _, _. split; [reflexivity|]. simpl. auto.
  - destruct (json_loads _); unfold ret, raise; eexists _, _;
      (split; [reflexivity|]); simpl; auto.
Qed.

Lemma translate_attempts_effort json_loads attempts text_list file_context w :
  exists r w' evs,
    translator.translate_attempts json_loads attempts text_list file_context w
    = (Return r, w')
    /\ log w' = log w ++ evs
    /\ Forall (fun e => e = EvTranslateCall text_list file_context
                        \/ exists ms, e = EvSleep ms) evs
    /\ (spec.translate_calls evs <= length attempts)%nat
    /\ spec.sleep_total evs <= spec.backoff_bound attempts
    /\ 0 <= spec.sleep_total evs
    /\ remote w' = drop (spec.translate_calls evs) (remote w)
    /\ sheet w' = sheet w /\ fs w' = fs w /\ gspread w' = gspread w.
Proof.
  revert w. induction attempts as [|attempt rest IH]; intros w.
  - exists (str_list text_list, 0, 0), w, []. rewrite app_nil_r.
    repeat split; try reflexivity; try constructor;
      try (unfold spec.backoff_bound; simpl; lia).
  - cbn [translator.translate_attempts]. unfold try_except.
    destruct (translate_try_effect json_loads text_list file_context w)
      as (r1 & w1 & Htry & Hlog & Hrem & Hsh & Hfs & Hgs).
    rewrite Htry.
    pose proof (backoff_bound_nonneg rest) as Hbound.
    assert (Hstop : forall r : pyval * Z * Z, exists w' evs,
              (Return r, w1) = (Return r, w')
              /\ log w' = log w ++ evs
              /\ Forall (fun e => e = EvTranslateCall text_list file_context
                                  \/ exists ms, e = EvSleep ms) evs
              /\ (spec.translate_calls evs <= length (attempt :: rest))%nat
              /\ spec.sleep_total evs <= spec.backoff_bound (attempt :: rest)
              /\ 0 <= spec.sleep_total evs
              /\ remote w' = drop (spec.translate_calls evs) (remote w)
              /\ sheet w' = sheet w /\ fs w' = fs w /\ gspread w' = gspread w).
    { intros r. exists w1, [EvTranslateCall text_list file_context].
      split; [reflexivity|]. split; [exact Hlog|].
      split; [repeat constructor|].
      change (spec.translate_calls [EvTranslateCall text_list file_context]) with 1%nat.
      split; [simpl; lia|].
      split; [|split; [cbv; discriminate | auto]].
      change (spec.sleep_total [EvTranslateCall text_list file_context]) with 0.
      rewrite backoff_bound_cons.
      destruct (attempt <? translator.MAX_RETRIES)%nat. all: lia. }
    assert (Hnext : forall ms, 0 <= ms ->
              (attempt <? translator.MAX_RETRIES)%nat = true ->
              ms <= Z.max (1000 * translator.RETRY_DELAY_SECONDS)
                      (1000 * (translator.RETRY_DELAY_SECONDS * Z.of_nat attempt)) ->
              exists r w' evs,
                (sleep ms ;; translator.translate_attempts json_loads rest text_list
                               file_context) w1 = (Return r, w')
                /\ log w' = log w ++ evs
                /\ Forall (fun e => e = EvTranslateCall text_list file_context
                                    \/ exists ms, e = EvSleep ms) evs
                /\ (spec.translate_calls evs <= length (attempt :: rest))%nat
                /\ spec.sleep_total evs <= spec.backoff_bound (attempt :: rest)
                /\ 0 <= spec.sleep_total evs
                /\ remote w' = drop (spec.translate_calls evs) (remote w)
                /\ sheet w' = sheet w /\ fs w' = fs w /\ gspread w' = gspread w).
    { intros ms Hms Hlt Hle. unfold bind, sleep, emit.
      destruct (IH (set_log (log w1 ++ [EvSleep ms]) w1))
        as (r & w' & evs & Hrun & Hl & Hall & Hc & Hs & Hs0 & Hr & Hsh' & Hfs' & Hgs').
      exists r, w', ([EvTranslateCall text_list file_context; EvSleep ms] ++ evs).
      split; [exact Hrun|]. simpl in Hl, Hr, Hsh', Hfs', Hgs'.
      split; [rewrite Hl, Hlog, <- !app_assoc; reflexivity|].
      split; [constructor; [left; reflexivity|]; constructor; [right; eauto | exact Hall]|].
      rewrite translate_calls_app, sleep_total_app.
      change (spec.translate_calls [EvTranslateCall text_list file_context; EvSleep ms])
        with 1%nat.
      change (spec.sleep_total [EvTranslateCall text_list file_context; EvSleep ms])
        with (ms + 0).
      split; [simpl; lia|].
      split; [rewrite backoff_bound_cons, Hlt;
              unfold translator.RETRY_DELAY_SECONDS in Hle; lia|].
      split; [lia|].
      split; [rewrite Hr, Hrem, drop_drop; reflexivity|].
      split; [congruence|]. split; congruence. }
    destruct r1 as [a|e]; [destruct (Hstop a) as (w' & evs & H); eauto|].
    destruct (attempt <? translator.MAX_RETRIES)%nat eqn:Hlt.
    + destruct (exn_class e);
        apply Hnext; try reflexivity; unfold translator.RETRY_DELAY_SECONDS; lia.
    + destruct (exn_class e);
        destruct (Hstop (str_list text_list, 0, 0)) as (w' & evs & H); eauto.
Qed.

(** X1: a call of [translate_batch] always returns, after at most
    [MAX_RETRIES] calls of the service, each for the list it was given,
    and at most 15 s of waiting; it consumes one scripted reply for each
    call and leaves the worksheet and the disk alone.  For the empty list
    nothing happens at all. *)
Theorem translate_batch_bounded_effort json_loads text_list file_context w :
  exists r w' evs,
    translator.translate_batch json_loads text_list file_context w = (Return r, w')
    /\ log w' = log w ++ evs
    /\ Forall (fun e => e = EvTranslateCall text_list file_context
                        \/ exists ms, e = EvSleep ms) evs
    /\ (spec.translate_calls evs <= translator.MAX_RETRIES)%nat
    /\ spec.sleep_total evs <= 15000
    /\ remote w' = drop (spec.translate_calls evs) (remote w)
    /\ sheet w' = sheet w /\ fs w' = fs w /\ gspread w' = gspread w
    /\ (text_list = [] -> evs = [] /\ r = (PList [], 0, 0))
    /\ (text_list <> [] -> (1 <= spec.translate_calls evs)%nat).
Proof.
  unfold translator.translate_batch. destruct text_list as [|t tl].
  - exists (PList [], 0, 0), w, []. rewrite app_nil_r.
    split; [reflexivity|]. split; [reflexivity|]. split; [constructor|].
    split; [cbv; lia|]. split; [cbv; discriminate|].
    repeat (split; [reflexivity|]). split; [auto | congruence].
  - destruct (translate_attempts_effort json_loads (seq 1 translator.MAX_RETRIES)
                (t :: tl) file_context w)
      as (r & w' & evs & Hrun & Hl & Hall & Hc & Hs & Hs0 & Hr & Hsh & Hfs & Hgs).
    exists r, w', evs. split; [exact Hrun|]. split; [exact Hl|]. split; [exact Hall|].
    split; [exact Hc|]. split; [exact Hs|]. split; [exact Hr|].
    split; [exact Hsh|]. split; [exact Hfs|]. split; [exact Hgs|].
    split; [discriminate|]. intros _.
    (* the first attempt always calls *)
    revert Hrun Hl. cbn [seq translator.MAX_RETRIES translator.translate_attempts].
    unfold try_except.
    destruct (translate_try_effect json_loads (t :: tl) file_context w)
      as (r1 & w1 & Htry & Hlog & _). rewrite Htry.
    intros Hrun Hl.
    assert (Hpre : exists evs', evs = EvTranslateCall (t :: tl) file_context :: evs').
    { assert (Hge : exists tail, log w' = log w1 ++ tail).
      { destruct r1 as [a|e].
        - injection Hrun as _ <-. exists []. rewrite app_nil_r. reflexivity.
        - clear Hl.
          assert (Hmono : forall w2 r2 w3,
                    (exists tl2, log w2 = log w1 ++ tl2) ->
                    translator.translate_attempts json_loads [2%nat; 3%nat] (t :: tl)
                      file_context w2 = (r2, w3) ->
                    exists tail, log w3 = log w1 ++ tail).
          { intros w2 r2 w3 (tl2 & H2) Hrun2.
            destruct (translate_attempts_effort json_loads [2%nat; 3%nat] (t :: tl)
                        file_context w2) as (r4 & w4 & evs4 & Hrun4 & Hl4 & _).
            rewrite Hrun4 in Hrun2. injection Hrun2 as _ <-.
            exists (tl2 ++ evs4). rewrite Hl4, H2, app_assoc. reflexivity. }
          destruct (exn_class e); cbn [Nat.ltb Nat.leb] in Hrun;
            unfold bind, sleep, emit in Hrun;
            (eapply Hmono; [|exact Hrun]); simpl; eexists; reflexivity. }
      destruct Hge as (tail & Ht). rewrite Ht, Hlog, <- app_assoc in Hl.
      apply app_inv_head in Hl. subst evs. eexists. reflexivity. }
    destruct Hpre as (evs' & ->). cbv [spec.translate_calls]. rewrite filter_cons.
    simpl. lia.
Qed.

(** X2: the two back-off schedules of [translate_batch].  When the
    service answers three times with a text that does not parse, the
    batch waits 5 s after the first and after the second answer; when
    the call itself raises three times, it waits 5 s and then 10 s.
    Either way the third failure is followed by no wait, three replies
    are consumed and the texts come back untranslated with token counts
    0 and 0. *)
Theorem translate_batch_backoff_schedules
  json_loads text_list file_context w r1 r2 r3 rest :
  text_list <> [] ->
  remote w = r1 :: r2 :: r3 :: rest ->
  let call := EvTranslateCall text_list file_context in
  (forallb (spec.malformed json_loads) [r1; r2; r3] = true ->
   exists w',
     translator.translate_batch json_loads text_list file_context w
     = (Return (str_list text_list, 0, 0), w')
     /\ log w' = log w ++ [call; EvSleep 5000; call; EvSleep 5000; call]
     /\ remote w' = rest)
  /\ (forallb spec.call_raises [r1; r2; r3] = true ->
      exists w',
        translator.translate_batch json_loads text_list file_context w
        = (Return (str_list text_list, 0, 0), w')
        /\ log w' = log w ++ [call; EvSleep 5000; call; EvSleep 10000; call]
        /\ remote w' = rest).
Proof.
  intros Hne Hrem call. subst call.
  destruct w as [lg rm gs sh nw sv tk rw f]. simpl in Hrem. subst rm.
  destruct text_list as [|t tl]; [congruence|]. clear Hne.
  split; intros H.
  - destruct r1 as [m1|t1 u1]; [discriminate|].
    destruct r2 as [m2|t2 u2]; [simpl in H; rewrite andb_false_r in H; discriminate|].
    destruct r3 as [m3|t3 u3];
      [simpl in H; rewrite !andb_false_r in H; discriminate|].
    simpl in H.
    destruct (json_loads (translator.strip_fence (strip t1))) eqn:E1; [discriminate|].
    destruct (json_loads (translator.strip_fence (strip t2))) eqn:E2; [discriminate|].
    destruct (json_loads (translator.strip_fence (strip t3))) eqn:E3; [discriminate|].
    cbv -[app strip translator.strip_fence str_list]. rewrite E1.
    cbv -[app strip translator.strip_fence str_list]. rewrite E2.
    cbv -[app strip translator.strip_fence str_list]. rewrite E3.
    eexists. split; [reflexivity|]. cbn [log remote].
    rewrite <- !app_assoc. split; reflexivity.
  - destruct r1 as [m1|t1 u1]; [|discriminate].
    destruct r2 as [m2|t2 u2]; [|discriminate].
    destruct r3 as [m3|t3 u3]; [|discriminate].
    cbv -[app str_list].
    eexists. split; [reflexivity|]. cbn [log remote].
    rewrite <- !app_assoc. split; reflexivity.
Qed.

Lemma translate_batch_backoff_witness :
  [scenario.ga] <> []
  /\ remote scenario.three_refusals
     = [RemoteResponse (u "I cannot help with that.") None;
        RemoteResponse (u "I cannot help with that.") None;
        RemoteResponse (u "I cannot help with that.") None]
  /\ exists w',
       translator.translate_batch sample.json_loads [scenario.ga] scenario.ctx
         scenario.three_refusals
       = (Return (str_list [scenario.ga], 0, 0), w')
       /\ log w' = log scenario.three_refusals
                   ++ [EvTranslateCall [scenario.ga] scenario.ctx; EvSleep 5000;
                       EvTranslateCall [scenario.ga] scenario.ctx; EvSleep 5000;
                       EvTranslateCall [scenario.ga] scenario.ctx]
       /\ remote w' = [].
Proof.
  assert (Hne : [scenario.ga] <> []) by discriminate.
  split; [exact Hne|]. split; [reflexivity|].
  exact (proj1 (translate_batch_backoff_schedules sample.json_loads [scenario.ga]
                  scenario.ctx scenario.three_refusals _ _ _ [] Hne eq_refl)
           eq_refl).
Defined.

(* ====================================================================== *)
(** * translator.py: the context of a file, and fenced answers             *)
(* ====================================================================== *)

Lemma generate_context_attempts_total attempts text_sample w :
  exists r w', translator.generate_context_attempts attempts text_sample w = (Return r, w').
Proof.
  revert w. induction attempts as [|attempt rest IH]; intros w.
  - eexists _, _. reflexivity.
  - cbn [translator.generate_context_attempts]. unfold try_except.
    match goal with
    | |- context [match ?m w with _ => _ end] => destruct (m w) as [[a|e] w1]
    end.
    + eexists _, _. reflexivity.
    + destruct (attempt <? translator.MAX_RETRIES)%nat; [|eexists _, _; reflexivity].
      unfold bind, sleep, emit. apply IH.
Qed.

(** X3: [generate_context] never raises.  An answer of the service is
    returned stripped, after one call that carries the first 10000
    characters of the sample; when the call raises three times the
    default context is returned, after waits of 5 s and 10 s and no wait
    after the third failure. *)
Theorem generate_context_falls_back_to_default text_sample w :
  let call := EvContextCall (take (Z.to_nat 10000) text_sample) in
  (exists r w', translator.generate_context text_sample w = (Return r, w'))
  /\ (forall text usage rest,
        remote w = RemoteResponse text usage :: rest ->
        translator.generate_context text_sample w
        = (Return (strip text), set_remote rest (set_log (log w ++ [call]) w)))
  /\ (forallb spec.call_raises (take translator.MAX_RETRIES (remote w)) = true ->
      exists w',
        translator.generate_context text_sample w
        = (Return translator.DEFAULT_CONTEXT, w')
        /\ log w' = log w ++ [call; EvSleep 5000; call; EvSleep 10000; call]
        /\ remote w' = drop translator.MAX_RETRIES (remote w)).
Proof.
  intros call. subst call.
  split; [apply generate_context_attempts_total|]. split.
  - intros text usage rest Hrem.
    destruct w as [lg rm gs sh nw sv tk rw f]. simpl in Hrem. subst rm.
    cbv -[app strip take Z.to_nat]. reflexivity.
  - intros H. destruct w as [lg rm gs sh nw sv tk rw f]. cbn [remote] in H |- *.
    destruct rm as [|[m1|t1 u1] rm]; [| |discriminate].
    { cbv -[app take Z.to_nat translator.DEFAULT_CONTEXT].
      eexists. split; [reflexivity|]. cbn [log remote].
      rewrite <- !app_assoc. split; reflexivity. }
    destruct rm as [|[m2|t2 u2] rm]; [| |discriminate].
    { cbv -[app take Z.to_nat translator.DEFAULT_CONTEXT].
      eexists. split; [reflexivity|]. cbn [log remote].
      rewrite <- !app_assoc. split; reflexivity. }
    destruct rm as [|[m3|t3 u3] rm]; [| |discriminate].
    { cbv -[app take Z.to_nat translator.DEFAULT_CONTEXT].
      eexists. split; [reflexivity|]. cbn [log remote].
      rewrite <- !app_assoc. split; reflexivity. }
    cbv -[app take Z.to_nat translator.DEFAULT_CONTEXT].
    eexists. split; [reflexivity|]. cbn [log remote].
    rewrite <- !app_assoc. split; reflexivity.
Qed.

Lemma replace_fuel_no_match fuel old new s :
  (forall i, startswith old (drop i s) = false) ->
  py.replace_fuel fuel old new s = s.
Proof.
  revert s. induction fuel as [|fuel IH]; intros s H; [reflexivity|].
  destruct s as [|c s']; [reflexivity|]. cbn [py.replace_fuel].
  pose proof (H 0%nat) as H0. cbn [drop] in H0. rewrite H0.
  f_equal. apply IH. intros i. apply (H (S i)).
Qed.

Lemma startswith_app p s : startswith p (p ++ s) = true.
Proof.
  induction p as [|c p IH]; [reflexivity|]. cbn [app startswith].
  rewrite N.eqb_refl. exact IH.
Qed.

Lemma replace_prefix c old new rest :
  py.replace (c :: old) new ((c :: old) ++ rest)
  = new ++ py.replace_fuel (length ((c :: old) ++ rest)) (c :: old) new rest.
Proof.
  unfold py.replace. cbn [app]. cbn [py.replace_fuel].
  change (c :: old ++ rest) with ((c :: old) ++ rest).
  rewrite startswith_app, drop_app_length. reflexivity.
Qed.

Lemma fence_json_not_in_tail body i :
  96%N ∉ body ->
  startswith translator.fence_json (drop i (body ++ translator.fence)) = false.
Proof.
  revert i. induction body as [|c body IH]; intros i Hnot.
  - do 4 (destruct i as [|i]; [reflexivity|]). reflexivity.
  - apply not_elem_of_cons in Hnot as [Hc Hrest].
    destruct i as [|i]; [|apply IH; exact Hrest].
    cbn [app drop]. change translator.fence_json with [96; 96; 96; 106; 115; 111; 110]%N.
    cbn [startswith]. destruct (N.eqb_spec 96 c) as [Heq|_]; [exfalso; exact (Hc Heq) | reflexivity].
Qed.

Lemma replace_fence_at_end fuel body :
  96%N ∉ body -> (length body < fuel)%nat ->
  py.replace_fuel fuel translator.fence [] (body ++ translator.fence) = body.
Proof.
  revert fuel. induction body as [|c body IH]; intros fuel Hnot Hlen.
  - destruct fuel as [|fuel]; [simpl in Hlen; lia|]. simpl.
    destruct fuel; reflexivity.
  - apply not_elem_of_cons in Hnot as [Hc Hrest].
    destruct fuel as [|fuel]; [simpl in Hlen; lia|].
    cbn [app py.replace_fuel].
    replace (startswith translator.fence (c :: body ++ translator.fence)) with false.
    + f_equal. apply IH; [exact Hrest | simpl in Hlen; lia].
    + change translator.fence with [96; 96; 96]%N at 1. cbn [startswith].
      destruct (N.eqb_spec 96 c) as [Heq|_]; [exfalso; exact (Hc Heq) | reflexivity].
Qed.

(** X4: what [translate_batch] does to a fenced answer before parsing
    it.  A text wrapped as [```json ... ```] whose body holds no backtick
    is reduced to the body; a text that does not start with the fence is
    left as it is. *)
Theorem strip_fence_unwraps_fenced_json :
  (forall body,
     96%N ∉ body ->
     translator.strip_fence (translator.fence_json ++ body ++ translator.fence) = body)
  /\ (forall result_text,
        startswith translator.fence result_text = false ->
        translator.strip_fence result_text = result_text).
Proof.
  split.
  - intros body Hnot. unfold translator.strip_fence.
    change (startswith translator.fence (translator.fence_json ++ body ++ translator.fence))
      with true. cbn iota.
    assert (H1 : py.replace translator.fence_json []
                   (translator.fence_json ++ body ++ translator.fence)
                 = body ++ translator.fence).
    { change translator.fence_json with (96 :: [96; 96; 106; 115; 111; 110])%N at 1 2.
      rewrite replace_prefix. cbn [app].
      apply replace_fuel_no_match. intros i. apply fence_json_not_in_tail. exact Hnot. }
    rewrite H1. unfold py.replace.
    change translator.fence with [96; 96; 96]%N at 1.
    apply replace_fence_at_end; [exact Hnot|]. rewrite length_app. simpl. lia.
  - intros result_text H. unfold translator.strip_fence. rewrite H. reflexivity.
Qed.

(* ====================================================================== *)
(** * sheets_manager.py: the completed rows, and a retry that succeeds     *)
(* ====================================================================== *)

Lemma get_all_values_ok n w :
  spec.api_ok (S n) w = true ->
  exists w', sheets_manager.sheet_get_all_values w = (Return (sheet w), w')
             /\ sheet w' = sheet w /\ now w' = now w /\ fs w' = fs w
             /\ spec.api_ok n w' = true.
Proof.
  intros H. unfold sheets_manager.sheet_get_all_values, sheets_manager.api_call, bind, emit.
  unfold spec.api_ok in *. cbn [gspread set_log].
  destruct (gspread w) as [|[|msg] rest] eqn:E.
  - cbn [sheet set_log]. eexists. split; [reflexivity|]. cbn. rewrite E.
    rewrite take_nil. auto.
  - cbn [sheet set_log set_gspread]. eexists. split; [reflexivity|]. cbn.
    simpl in H. auto.
  - simpl in H. discriminate.
Qed.

Lemma completed_rows_elem idx rows t :
  t ∈ sheets_manager.completed_rows idx rows <->
  exists i row,
    rows !! i = Some row
    /\ sheets_manager.row_status row = Some sheets_manager.Status.COMPLETED
    /\ t = sheets_manager.task_of_row (idx + i) row sheets_manager.Status.COMPLETED.
Proof.
  revert idx. induction rows as [|row rest IH]; intros idx.
  - split; [intros H; inversion H | intros (i & r & H & _); rewrite lookup_nil in H; discriminate].
  - cbn [sheets_manager.completed_rows].
    assert (Hskip :
      sheets_manager.row_status row <> Some sheets_manager.Status.COMPLETED ->
      (t ∈ sheets_manager.completed_rows (S idx) rest <->
       exists i r, (row :: rest) !! i = Some r
                   /\ sheets_manager.row_status r = Some sheets_manager.Status.COMPLETED
                   /\ t = sheets_manager.task_of_row (idx + i) r
                            sheets_manager.Status.COMPLETED)).
    { intros Hne. rewrite IH. split.
      - intros (i & r & Hi & Hs & Ht). exists (S i), r. repeat split; try assumption.
        rewrite Ht. f_equal. lia.
      - intros (i & r & Hi & Hs & Ht). destruct i as [|i].
        + simpl in Hi. injection Hi as ->. contradiction.
        + exists i, r. repeat split; try assumption. rewrite Ht. f_equal. lia. }
    destruct (sheets_manager.row_status row) as [st|] eqn:Est; [|apply Hskip; discriminate].
    destruct (bool_decide (st = sheets_manager.Status.COMPLETED)) eqn:Eb.
    + apply bool_decide_eq_true in Eb. subst st. rewrite elem_of_cons, IH. split.
      * intros [-> | (i & r & Hi & Hs & Ht)].
        -- exists 0%nat, row. repeat split; try assumption. f_equal. lia.
        -- exists (S i), r. repeat split; try assumption. rewrite Ht. f_equal. lia.
      * intros (i & r & Hi & Hs & Ht). destruct i as [|i].
        -- left. simpl in Hi. injection Hi as ->. rewrite Ht. f_equal. lia.
        -- right. exists i, r. repeat split; try assumption. rewrite Ht. f_equal. lia.
    + apply bool_decide_eq_false in Eb. apply Hskip. congruence.
Qed.

Lemma completed_rows_ge idx rows t :
  t ∈ sheets_manager.completed_rows idx rows -> (idx <= sheets_manager.row_index t)%nat.
Proof.
  intros H. apply completed_rows_elem in H as (i & row & _ & _ & ->). simpl. lia.
Qed.

Lemma completed_rows_increasing idx rows j k t1 t2 :
  (j < k)%nat ->
  sheets_manager.completed_rows idx rows !! j = Some t1 ->
  sheets_manager.completed_rows idx rows !! k = Some t2 ->
  (sheets_manager.row_index t1 < sheets_manager.row_index t2)%nat.
Proof.
  revert idx j k. induction rows as [|row rest IH]; intros idx j k Hjk H1 H2.
  - simpl in H1. rewrite lookup_nil in H1. discriminate.
  - cbn [sheets_manager.completed_rows] in H1, H2.
    destruct (sheets_manager.row_status row) as [st|]; [|eapply IH; eassumption].
    destruct (bool_decide (st = sheets_manager.Status.COMPLETED));
      [|eapply IH; eassumption].
    destruct k as [|k]; [lia|]. simpl in H2.
    destruct j as [|j].
    + simpl in H1. injection H1 as <-. simpl.
      apply list_elem_of_lookup_2 in H2. apply completed_rows_ge in H2. lia.
    + simpl in H1. eapply (IH (S idx) j k); [lia | eassumption | eassumption].
Qed.

(** X5: [get_completed_tasks] returns, in sheet order and with their
    sheet row numbers, exactly the rows under the header whose status is
    COMPLETED; none of them is a row [get_next_waiting_task] would pick.
    When the worksheet cannot be read it returns the empty list instead of
    raising. *)
Theorem get_completed_tasks_lists_completed_rows w :
  (spec.api_ok 1 w = true ->
   exists ts w',
     sheets_manager.get_completed_tasks w = (Return ts, w')
     /\ sheet w' = sheet w
     /\ (forall t, t ∈ ts <->
           exists i row,
             drop 1 (sheet w) !! i = Some row
             /\ sheets_manager.row_status row = Some sheets_manager.Status.COMPLETED
             /\ t = sheets_manager.task_of_row (i + 2) row sheets_manager.Status.COMPLETED)
     /\ (forall j k t1 t2, (j < k)%nat -> ts !! j = Some t1 -> ts !! k = Some t2 ->
           (sheets_manager.row_index t1 < sheets_manager.row_index t2)%nat)
     /\ (forall t, t ∈ ts ->
           sheets_manager.status t ∉ sheets_manager.processable_statuses))
  /\ (forall msg rest,
        gspread w = ApiError msg :: rest ->
        exists w', sheets_manager.get_completed_tasks w = (Return [], w')
                   /\ sheet w' = sheet w).
Proof.
  split.
  - intros Hok. destruct (get_all_values_ok 0 w Hok) as (w' & Hrun & Hsh & _).
    exists (sheets_manager.completed_rows 2 (drop 1 (sheet w))), w'.
    split.
    { unfold sheets_manager.get_completed_tasks, try_except, bind. rewrite Hrun.
      reflexivity. }
    split; [exact Hsh|]. split.
    { intros t. rewrite completed_rows_elem. split.
      - intros (i & row & Hi & Hs & Ht). exists i, row. repeat split; try assumption.
        rewrite Ht. f_equal. lia.
      - intros (i & row & Hi & Hs & Ht). exists i, row. repeat split; try assumption.
        rewrite Ht. f_equal. lia. }
    split; [apply completed_rows_increasing|].
    intros t Hin. apply completed_rows_elem in Hin as (i & row & _ & _ & ->).
    cbn [sheets_manager.status sheets_manager.task_of_row].
    intros Hp. apply list_elem_of_In in Hp. vm_compute in Hp. intuition discriminate.
  - intros msg rest Hg.
    unfold sheets_manager.get_completed_tasks, try_except, bind,
      sheets_manager.sheet_get_all_values, sheets_manager.api_call, bind, emit.
    cbn [gspread set_log]. rewrite Hg. eexists. split; reflexivity.
Qed.

Lemma get_completed_tasks_witness :
  spec.api_ok 1 scenario.with_ledger = true
  /\ exists w',
       sheets_manager.get_completed_tasks scenario.with_ledger
       = (Return [scenario.task_a], w')
       /\ sheet w' = sheet scenario.with_ledger.
Proof.
  split; [reflexivity|].
  destruct (proj1 (get_completed_tasks_lists_completed_rows scenario.with_ledger) eq_refl)
    as (ts & w' & Hrun & Hsh & _).
  exists w'. split; [|exact Hsh].
  rewrite Hrun. f_equal. f_equal.
  apply (f_equal fst) in Hrun. vm_compute in Hrun. injection Hrun as <-. reflexivity.
Defined.

(** X6: [_api_call_with_retry] gets a write through after fewer than
    three rate limit errors in a row: each error costs the minimum delay
    of 0.5 s and a wait of 5 s times the number of the attempt, the write
    is then made once, and the errors and the success are the only
    outcomes consumed. *)
Theorem api_call_with_retry_recovers row col v w msgs rest :
  Forall (fun msg => sheets_manager.is_rate_limit (mkExn OtherException msg) = true) msgs ->
  (length msgs < sheets_manager.SHEETS_API_RETRY_COUNT)%nat ->
  gspread w = map ApiError msgs ++ ApiOk :: rest ->
  exists w',
    sheets_manager._api_call_with_retry (sheets_manager.sheet_update_cell row col v) w
    = (Return tt, w')
    /\ sheet w' = sheets_manager.grid_update row col v (sheet w)
    /\ gspread w' = rest
    /\ sleeps (drop (length (log w)) (log w'))
       = flat_map (fun attempt => [500; 5000 * (Z.of_nat attempt + 1)])
           (seq 0 (length msgs)) ++ [500]
    /\ spec.cell_writes (drop (length (log w)) (log w'))
       = replicate (S (length msgs)) (row, col, v).
Proof.
  intros Hall Hlen Hg.
  destruct w as [lg rm gs sh nw sv tk rw f]. cbn [gspread] in Hg. subst gs.
  unfold sheets_manager.SHEETS_API_RETRY_COUNT in Hlen.
  destruct msgs as [|m1 msgs].
  { cbv -[app drop length sheets_manager.grid_update filter sleeps].
    eexists. split; [reflexivity|]. cbn [sheet gspread log].
    split; [reflexivity|]. split; [reflexivity|].
    rewrite <- !app_assoc, drop_app_length. split; reflexivity. }
  apply Forall_cons in Hall as [H1 Hall].
  destruct msgs as [|m2 msgs].
  { unfold sheets_manager._api_call_with_retry, sheets_manager.SHEETS_API_RETRY_COUNT.
    cbn [seq sheets_manager.api_retry_loop map app length].
    unfold try_except, bind, sleep, emit, sheets_manager.sheet_update_cell,
      sheets_manager.api_call, bind, emit.
    cbn [gspread set_log set_gspread log]. rewrite H1.
    cbn [gspread set_log set_gspread log sheet set_sheet].
    eexists. split; [reflexivity|].
    cbn [sheet gspread log set_log set_sheet set_gspread].
    split; [reflexivity|]. split; [reflexivity|].
    rewrite <- !app_assoc, drop_app_length. split; reflexivity. }
  apply Forall_cons in Hall as [H2 Hall].
  destruct msgs as [|m3 msgs]; [|simpl in Hlen; lia].
  unfold sheets_manager._api_call_with_retry, sheets_manager.SHEETS_API_RETRY_COUNT.
  cbn [seq sheets_manager.api_retry_loop map app length].
  unfold try_except, bind, sleep, emit, sheets_manager.sheet_update_cell,
    sheets_manager.api_call, bind, emit.
  cbn [gspread set_log set_gspread log]. rewrite H1.
  cbn [gspread set_log set_gspread log sheet set_sheet]. rewrite H2.
  cbn [gspread set_log set_gspread log sheet set_sheet].
  eexists. split; [reflexivity|].
  cbn [sheet gspread log set_log set_sheet set_gspread].
  split; [reflexivity|]. split; [reflexivity|].
  rewrite <- !app_assoc, drop_app_length. split; reflexivity.
Qed.

Lemma api_call_with_retry_recovers_witness :
  Forall (fun msg => sheets_manager.is_rate_limit (mkExn OtherException msg) = true)
    [scenario.quota_error; scenario.quota_error]
  /\ (2 < sheets_manager.SHEETS_API_RETRY_COUNT)%nat
  /\ gspread scenario.limited_twice
     = map ApiError [scenario.quota_error; scenario.quota_error] ++ [ApiOk]
  /\ exists w',
       sheets_manager._api_call_with_retry
         (sheets_manager.sheet_update_cell 5 7 sheets_manager.Status.IN_PROGRESS)
         scenario.limited_twice
       = (Return tt, w')
       /\ sheets_manager.cell (sheet w') 5 7 = sheets_manager.Status.IN_PROGRESS
       /\ sleeps (log w') = [500; 5000; 500; 10000; 500].
Proof.
  assert (H1 : Forall (fun msg => sheets_manager.is_rate_limit (mkExn OtherException msg)
                                  = true) [scenario.quota_error; scenario.quota_error])
    by (repeat constructor).
  assert (H2 : (2 < sheets_manager.SHEETS_API_RETRY_COUNT)%nat)
    by (unfold sheets_manager.SHEETS_API_RETRY_COUNT; lia).
  split; [exact H1|]. split; [exact H2|]. split; [reflexivity|].
  destruct (api_call_with_retry_recovers 5 7 sheets_manager.Status.IN_PROGRESS
              scenario.limited_twice [scenario.quota_error; scenario.quota_error] []
              H1 H2 eq_refl) as (w' & Hrun & Hsh & _ & Hsl & _).
  exists w'. split; [exact Hrun|]. split.
  - rewrite Hsh. reflexivity.
  - exact Hsl.
Defined.

(* ====================================================================== *)
(** * sheets_manager.py: the token counters                                *)
(* ====================================================================== *)


















(* ====================================================================== *)
(** * sheets_manager.py: which row comes next after a task ends            *)
(* ====================================================================== *)

Ltac plia := try unfold pystr in *; lia.

Section NextTask.

Import sheets_manager.

Lemma pad_enough {A} (n : nat) (d : A) (l : list A) :
  (n <= length l)%nat -> pad n d l = l.
Proof.
  intros H. unfold pad. replace (n - length l)%nat with 0%nat by plia.
  apply app_nil_r.
Qed.

Lemma grid_update_lookup_eq r c v (g : list (list pystr)) row :
  (1 <= r)%nat -> g !! (r - 1)%nat = Some row ->
  grid_update r c v g !! (r - 1)%nat = Some (<[(c - 1)%nat := v]> (pad c [] row))
  /\ length (grid_update r c v g) = length g.
Proof.
  intros Hr Hrow. unfold grid_update.
  assert (Hlen : (r <= length g)%nat).
  { apply lookup_lt_Some in Hrow. plia. }
  rewrite (pad_enough r [] g Hlen). rewrite Hrow. cbn [default from_option id].
  rewrite length_insert. split; [|reflexivity].
  apply list_lookup_insert_eq. plia.
Qed.

Lemma grid_update_lookup_ne r c v (g : list (list pystr)) j :
  j <> (r - 1)%nat -> (j < length g)%nat ->
  grid_update r c v g !! j = g !! j.
Proof.
  intros Hne Hlt. unfold grid_update.
  rewrite list_lookup_insert_ne by congruence.
  unfold pad. apply lookup_app_l. exact Hlt.
Qed.

(** The row after a write to one of its cells, as the selection reads
    it: the status changes only by a write to column G, the fields of
    the task not at all. *)
Lemma row_status_update (row : list pystr) c v st :
  row_status row = Some st -> (1 <= c)%nat ->
  row_status (<[(c - 1)%nat := v]> (pad c [] row))
  = if decide (c = SheetColumns.STATUS) then Some v else Some st.
Proof.
  unfold row_status. intros Hst Hc.
  assert (Hlen : (SheetColumns.STATUS - 1 < length row)%nat)
    by (eapply lookup_lt_Some; exact Hst).
  destruct (decide (c = SheetColumns.STATUS)) as [->|Hne].
  - apply list_lookup_insert_eq. unfold pad. rewrite length_app. plia.
  - rewrite list_lookup_insert_ne
      by (unfold SheetColumns.STATUS in *; plia).
    unfold pad. rewrite lookup_app_l by exact Hlen. exact Hst.
Qed.

Lemma field_update (row : list pystr) c v col :
  (1 <= col)%nat -> (col <= length row)%nat -> (col < c)%nat ->
  field (<[(c - 1)%nat := v]> (pad c [] row)) col = field row col.
Proof.
  intros H1 H2 Hne. unfold field.
  rewrite length_insert. unfold pad at 1. rewrite length_app.
  replace (col <=? length row + length (replicate (c - length row) []))%nat with true
    by (symmetry; apply Nat.leb_le; plia).
  replace (col <=? length row)%nat with true by (symmetry; apply Nat.leb_le; plia).
  rewrite list_lookup_insert_ne by plia.
  unfold pad. rewrite lookup_app_l by plia. reflexivity.
Qed.

Lemma task_of_row_update idx (row : list pystr) c v st st' :
  row_status row = Some st -> (SheetColumns.STATUS <= c)%nat ->
  task_of_row idx (<[(c - 1)%nat := v]> (pad c [] row)) st' = task_of_row idx row st'.
Proof.
  intros Hst Hc. unfold task_of_row.
  assert (Hlen : (SheetColumns.STATUS - 1 < length row)%nat)
    by (eapply lookup_lt_Some; exact Hst).
  unfold SheetColumns.STATUS in *. cbn in Hlen.
  rewrite !field_update; try reflexivity;
    unfold SheetColumns.ROW_NUM, SheetColumns.UPPER_PATH, SheetColumns.SUB_PATH,
      SheetColumns.FILE_NAME, SheetColumns.FILE_TYPE; plia.
Qed.

Lemma first_processable_intro idx rows i row st :
  rows !! i = Some row -> row_status row = Some st -> st ∈ processable_statuses ->
  (forall j row' st', (j < i)%nat -> rows !! j = Some row' ->
                      row_status row' = Some st' -> st' ∉ processable_statuses) ->
  first_processable idx rows = Some (task_of_row (idx + i) row st).
Proof.
  revert idx i. induction rows as [|row0 rest IH]; intros idx i Hi Hst Hp Hbefore.
  - rewrite lookup_nil in Hi. discriminate.
  - cbn [first_processable]. destruct i as [|i].
    + simpl in Hi. injection Hi as ->. rewrite Hst.
      rewrite bool_decide_eq_true_2 by exact Hp. f_equal. f_equal. plia.
    + simpl in Hi.
      assert (Hnext : first_processable (S idx) rest
                      = Some (task_of_row (idx + S i) row st)).
      { replace (idx + S i)%nat with (S idx + i)%nat by plia.
        apply IH; try assumption.
        intros j row' st' Hj Hl Hs. apply (Hbefore (S j) row' st'); [plia | exact Hl | exact Hs]. }
      destruct (row_status row0) as [st0|] eqn:E0; [|exact Hnext].
      rewrite bool_decide_eq_false_2; [exact Hnext|].
      apply (Hbefore 0%nat row0 st0); [plia | reflexivity | exact E0].
Qed.

Lemma first_processable_after idx rows i t :
  (forall j row' st', (j <= i)%nat -> rows !! j = Some row' ->
                      row_status row' = Some st' -> st' ∉ processable_statuses) ->
  first_processable idx rows = Some t ->
  (idx + i < row_index t)%nat.
Proof.
  intros Hbefore Hf.
  destruct (first_processable_some _ _ _ Hf) as (k & row & Hk & Ht & Hst & Hp & _).
  destruct (le_lt_dec k i) as [Hle|Hgt].
  - exfalso. exact (Hbefore k row (status t) Hle Hk Hst Hp).
  - rewrite Ht. cbn [row_index task_of_row]. plia.
Qed.

Lemma get_next_waiting_task_run n w r w1 :
  spec.api_ok (S n) w = true ->
  get_next_waiting_task w = (Return r, w1) ->
  r = first_processable 2 (drop 1 (sheet w))
  /\ sheet w1 = sheet w /\ now w1 = now w /\ fs w1 = fs w /\ spec.api_ok n w1 = true.
Proof.
  intros Hok Hrun. destruct (get_all_values_ok n w Hok) as (w' & Hread & Hs & Hn & Hf & Hok').
  unfold get_next_waiting_task, try_except, bind in Hrun. rewrite Hread in Hrun.
  injection Hrun as <- <-. auto.
Qed.

Lemma record_error_ok n row error_message module_name w :
  spec.api_ok (S (S n)) w = true ->
  exists w' detail,
    record_error row error_message module_name w = (Return tt, w')
    /\ sheet w' = grid_update row SheetColumns.ERROR detail
                    (grid_update row SheetColumns.STATUS Status.ERROR (sheet w))
    /\ now w' = now w /\ spec.api_ok n w' = true.
Proof.
  intros Hok. unfold record_error, try_except. unfold bind at 1.
  destruct (update_status_ok (S n) row Status.ERROR w Hok) as (w1 & Hu & Hs1 & Hn1 & Hok1).
  rewrite Hu. unfold bind at 1, get_world.
  match goal with
  | |- context [sheet_update_cell row SheetColumns.ERROR ?v] =>
      destruct (update_cell_ok n row SheetColumns.ERROR v w1 Hok1)
        as (w2 & Hu2 & Hs2 & Hn2 & Hok2);
      exists w2, v
  end.
  rewrite Hu2. split; [reflexivity|]. rewrite Hs2, Hs1. split; [reflexivity|].
  split; [congruence | exact Hok2].
Qed.

Lemma mark_completed_ok n row w :
  spec.api_ok (S (S n)) w = true ->
  exists w',
    mark_completed row w = (Return tt, w')
    /\ sheet w' = grid_update row SheetColumns.END_TIME (now w)
                    (grid_update row SheetColumns.STATUS Status.COMPLETED (sheet w))
    /\ now w' = now w /\ spec.api_ok n w' = true.
Proof.
  intros Hok. unfold mark_completed, try_except. unfold bind at 1.
  destruct (update_status_ok (S n) row Status.COMPLETED w Hok)
    as (w1 & Hu & Hs1 & Hn1 & Hok1).
  rewrite Hu. unfold set_end_time, try_except. unfold bind at 1, get_world.
  destruct (update_cell_ok n row SheetColumns.END_TIME (now w1) w1 Hok1)
    as (w2 & Hu2 & Hs2 & Hn2 & Hok2).
  rewrite Hu2. exists w2. split; [reflexivity|]. rewrite Hs2, Hs1, Hn1.
  split; [reflexivity|]. split; [congruence | exact Hok2].
Qed.

(** The rows of the worksheet after two writes to cells of sheet row
    [2 + i], the first to the status column. *)
Lemma rows_after_two_writes (g : list (list pystr)) i row st v1 c2 v2 :
  drop 1 g !! i = Some row -> row_status row = Some st ->
  (SheetColumns.STATUS < c2)%nat ->
  let g' := grid_update (2 + i) c2 v2 (grid_update (2 + i) SheetColumns.STATUS v1 g) in
  (exists row', drop 1 g' !! i = Some row'
                /\ row_status row' = Some v1
                /\ forall idx st', task_of_row idx row' st' = task_of_row idx row st')
  /\ (forall j, j <> i -> drop 1 g' !! j = drop 1 g !! j).
Proof.
  intros Hi Hst Hc g'. subst g'.
  rewrite lookup_drop in Hi.
  assert (H1 : grid_update (2 + i) SheetColumns.STATUS v1 g !! (1 + i)%nat
               = Some (<[(SheetColumns.STATUS - 1)%nat := v1]> (pad SheetColumns.STATUS [] row))
               /\ length (grid_update (2 + i) SheetColumns.STATUS v1 g) = length g).
  { replace (1 + i)%nat with (2 + i - 1)%nat by plia.
    apply grid_update_lookup_eq; [plia|]. replace (2 + i - 1)%nat with (1 + i)%nat by plia.
    exact Hi. }
  destruct H1 as [H1 Hl1].
  set (row1 := <[(SheetColumns.STATUS - 1)%nat := v1]> (pad SheetColumns.STATUS [] row)) in *.
  set (g1 := grid_update (2 + i) SheetColumns.STATUS v1 g) in *.
  assert (Hst1 : row_status row1 = Some v1).
  { subst row1. rewrite (row_status_update row _ v1 st Hst) by (vm_compute; plia).
    rewrite decide_True by reflexivity. reflexivity. }
  assert (H2 : grid_update (2 + i) c2 v2 g1 !! (1 + i)%nat
               = Some (<[(c2 - 1)%nat := v2]> (pad c2 [] row1))
               /\ length (grid_update (2 + i) c2 v2 g1) = length g1).
  { replace (1 + i)%nat with (2 + i - 1)%nat by plia.
    apply grid_update_lookup_eq; [plia|]. replace (2 + i - 1)%nat with (1 + i)%nat by plia.
    exact H1. }
  destruct H2 as [H2 Hl2].
  split.
  - exists (<[(c2 - 1)%nat := v2]> (pad c2 [] row1)).
    rewrite lookup_drop. split; [exact H2|]. split.
    + rewrite (row_status_update row1 _ v2 v1 Hst1) by plia.
      rewrite decide_False by plia. reflexivity.
    + intros idx st'.
      etransitivity; [apply (task_of_row_update idx row1 c2 v2 v1 st' Hst1); plia|].
      subst row1. apply (task_of_row_update idx row _ v1 st st' Hst). plia.
  - intros j Hj. rewrite !lookup_drop.
    destruct (decide (1 + j < length g)%nat) as [Hlt|Hge].
    + rewrite grid_update_lookup_ne by plia.
      subst g1. apply grid_update_lookup_ne; plia.
    + rewrite !lookup_ge_None_2; [reflexivity | plia | plia].
Qed.

End NextTask.

(** X8: a task that fails is the next task again.  When
    [get_next_waiting_task] has returned a row and [record_error] has
    marked it (status ERROR, the error text in column J), the next call
    of [get_next_waiting_task] returns the same row, now with status
    ERROR: rows above it are still not eligible and ERROR is an eligible
    status. *)
Theorem failed_task_is_selected_again w t w1 error_message module_name :
  spec.api_ok 4 w = true ->
  sheets_manager.get_next_waiting_task w = (Return (Some t), w1) ->
  exists w2 w3,
    sheets_manager.record_error (sheets_manager.row_index t) error_message module_name w1
    = (Return tt, w2)
    /\ sheets_manager.get_next_waiting_task w2
       = (Return (Some (sheets_manager.mkTask
                          (sheets_manager.row_index t) (sheets_manager.row_num t)
                          (sheets_manager.upper_path t) (sheets_manager.sub_path t)
                          (sheets_manager.file_name t) (sheets_manager.file_type t)
                          sheets_manager.Status.ERROR)), w3).
Proof.
  intros Hok Hrun.
  destruct (get_next_waiting_task_run 3 w _ w1 Hok Hrun) as (Ht & Hs1 & Hn1 & _ & Hok1).
  symmetry in Ht.
  destruct (first_processable_some _ _ _ Ht) as (i & row & Hi & Htask & Hst & Hp & Hbefore).
  destruct (record_error_ok 1 (sheets_manager.row_index t) error_message module_name w1 Hok1)
    as (w2 & detail & Hrec & Hs2 & Hn2 & Hok2).
  assert (Hidx : sheets_manager.row_index t = (2 + i)%nat) by (rewrite Htask; reflexivity).
  rewrite Hidx in Hs2. rewrite Hs1 in Hs2.
  destruct (rows_after_two_writes (sheet w) i row (sheets_manager.status t)
              sheets_manager.Status.ERROR sheets_manager.SheetColumns.ERROR detail Hi Hst)
    as [(row' & Hi' & Hst' & Htask') Hother]; [vm_compute; plia|].
  rewrite <- Hs2 in Hi', Hother.
  destruct (get_all_values_ok 0 w2 Hok2) as (w3 & Hread & _).
  exists w2, w3. split; [exact Hrec|].
  unfold sheets_manager.get_next_waiting_task, try_except, bind. rewrite Hread.
  unfold ret. f_equal. f_equal.
  rewrite (first_processable_intro 2 _ i row' sheets_manager.Status.ERROR Hi' Hst').
  - rewrite Htask'. unfold sheets_manager.task_of_row.
    f_equal. f_equal; rewrite Htask; reflexivity.
  - apply list_elem_of_In. vm_compute. tauto.
  - intros j rowj stj Hj Hl Hs. rewrite Hother in Hl by plia.
    exact (Hbefore j rowj stj Hj Hl Hs).
Qed.

Lemma failed_task_witness :
  spec.api_ok 4 scenario.with_ledger = true
  /\ exists w1 w2 w3,
       sheets_manager.get_next_waiting_task scenario.with_ledger
       = (Return (Some (sheets_manager.mkTask 4 (u "3") (u "MC") (u "10.analysis")
                          (u "c.xlsx") (u "xlsx") sheets_manager.Status.ERROR)), w1)
       /\ sheets_manager.record_error 4 (u "boom") (u "main.process_task") w1
          = (Return tt, w2)
       /\ sheets_manager.get_next_waiting_task w2
          = (Return (Some (sheets_manager.mkTask 4 (u "3") (u "MC") (u "10.analysis")
                             (u "c.xlsx") (u "xlsx") sheets_manager.Status.ERROR)), w3).
Proof.
  split; [reflexivity|].
  eexists. 
  assert (Hrun : sheets_manager.get_next_waiting_task scenario.with_ledger
                 = (Return (Some (sheets_manager.mkTask 4 (u "3") (u "MC") (u "10.analysis")
                                    (u "c.xlsx") (u "xlsx") sheets_manager.Status.ERROR)),
                    snd (sheets_manager.get_next_waiting_task scenario.with_ledger)))
    by (vm_compute; reflexivity).
  destruct (failed_task_is_selected_again scenario.with_ledger _ _ (u "boom")
              (u "main.process_task") eq_refl Hrun) as (w2 & w3 & Hrec & Hnext).
  exists w2, w3. split; [exact Hrun|]. split; [exact Hrec | exact Hnext].
Defined.

(** X9: a task that succeeds is not the next task.  When
    [get_next_waiting_task] has returned a row and [mark_completed] has
    marked it (status COMPLETED, the end time in column I), the next call
    of [get_next_waiting_task] returns a row further down, or none. *)
Theorem completed_task_is_not_selected_again w t w1 :
  spec.api_ok 4 w = true ->
  sheets_manager.get_next_waiting_task w = (Return (Some t), w1) ->
  exists w2 w3 next,
    sheets_manager.mark_completed (sheets_manager.row_index t) w1 = (Return tt, w2)
    /\ sheets_manager.cell (sheet w2) (sheets_manager.row_index t)
         sheets_manager.SheetColumns.STATUS = sheets_manager.Status.COMPLETED
    /\ sheets_manager.cell (sheet w2) (sheets_manager.row_index t)
         sheets_manager.SheetColumns.END_TIME = now w
    /\ sheets_manager.get_next_waiting_task w2 = (Return next, w3)
    /\ forall t', next = Some t' ->
         (sheets_manager.row_index t < sheets_manager.row_index t')%nat.
Proof.
  intros Hok Hrun.
  destruct (get_next_waiting_task_run 3 w _ w1 Hok Hrun) as (Ht & Hs1 & Hn1 & _ & Hok1).
  symmetry in Ht.
  destruct (first_processable_some _ _ _ Ht) as (i & row & Hi & Htask & Hst & Hp & Hbefore).
  destruct (mark_completed_ok 1 (sheets_manager.row_index t) w1 Hok1)
    as (w2 & Hmark & Hs2 & Hn2 & Hok2).
  assert (Hidx : sheets_manager.row_index t = (2 + i)%nat) by (rewrite Htask; reflexivity).
  destruct (get_all_values_ok 0 w2 Hok2) as (w3 & Hread & _).
  exists w2, w3, (sheets_manager.first_processable 2 (drop 1 (sheet w2))).
  split; [exact Hmark|]. split.
  { rewrite Hs2. rewrite cell_grid_update_ne by (right; vm_compute; plia).
    apply cell_grid_update_eq; [rewrite Hidx; plia | vm_compute; plia]. }
  split.
  { rewrite Hs2. rewrite <- Hn1.
    apply cell_grid_update_eq; [rewrite Hidx; plia | vm_compute; plia]. }
  split.
  { unfold sheets_manager.get_next_waiting_task, try_except, bind. rewrite Hread.
    reflexivity. }
  intros t' Hnext.
  rewrite Hidx in Hs2. rewrite Hs1 in Hs2.
  destruct (rows_after_two_writes (sheet w) i row (sheets_manager.status t)
              sheets_manager.Status.COMPLETED sheets_manager.SheetColumns.END_TIME
              (now w1) Hi Hst)
    as [(row' & Hi' & Hst' & Htask') Hother]; [vm_compute; plia|].
  rewrite <- Hs2 in Hi', Hother.
  rewrite Hidx. apply (first_processable_after 2 (drop 1 (sheet w2)) i t'); [|exact Hnext].
  intros j rowj stj Hj Hl Hs.
  destruct (decide (j = i)) as [->|Hne].
  - rewrite Hi' in Hl. injection Hl as <-. rewrite Hst' in Hs. injection Hs as <-.
    intros Hin. apply list_elem_of_In in Hin. vm_compute in Hin. intuition discriminate.
  - rewrite Hother in Hl by exact Hne.
    apply (Hbefore j rowj stj); [plia | exact Hl | exact Hs].
Qed.

Lemma completed_task_witness :
  spec.api_ok 4 scenario.with_ledger = true
  /\ exists w1 w2 w3,
       sheets_manager.get_next_waiting_task scenario.with_ledger
       = (Return (Some (sheets_manager.mkTask 4 (u "3") (u "MC") (u "10.analysis")
                          (u "c.xlsx") (u "xlsx") sheets_manager.Status.ERROR)), w1)
       /\ sheets_manager.mark_completed 4 w1 = (Return tt, w2)
       /\ sheets_manager.get_next_waiting_task w2
          = (Return (Some (sheets_manager.mkTask 5 (u "4") (u "MC") (u "10.analysis")
                             (u "d.xlsx") (u "xlsx") sheets_manager.Status.WAITING)), w3).
Proof.
  split; [reflexivity|].
  eexists.
  assert (Hrun : sheets_manager.get_next_waiting_task scenario.with_ledger
                 = (Return (Some (sheets_manager.mkTask 4 (u "3") (u "MC") (u "10.analysis")
                                    (u "c.xlsx") (u "xlsx") sheets_manager.Status.ERROR)),
                    snd (sheets_manager.get_next_waiting_task scenario.with_ledger)))
    by (vm_compute; reflexivity).
  destruct (completed_task_is_not_selected_again scenario.with_ledger _ _ eq_refl Hrun)
    as (w2 & w3 & next & Hmark & _ & _ & Hnext & _).
  cbn [sheets_manager.row_index] in Hmark.
  exists w2, w3. split; [exact Hrun|]. split; [exact Hmark|].
  rewrite Hnext. f_equal. f_equal.
  apply (f_equal fst) in Hnext.
  assert (Hw2 : w2 = snd (sheets_manager.mark_completed 4
                            (snd (sheets_manager.get_next_waiting_task scenario.with_ledger))))
    by (rewrite Hmark; reflexivity).
  rewrite Hw2 in Hnext. vm_compute in Hnext. injection Hnext as <-. reflexivity.
Defined.

(* ====================================================================== *)
(** * handlers/docx_handler.py: saving, writing back, leaving alone        *)
(* ====================================================================== *)

Section DocxSave.

Import docx_handler.

Lemma library_save_effect c p w :
  (exists size w1, library_save c p w = (Return tt, w1)
                   /\ fs w1 = <[p := NFile (mkFile size c)]> (fs w))
  \/ (exists e w1, library_save c p w = (Raise e, w1) /\ fs w1 = fs w).
Proof.
  unfold library_save, bind, emit. cbn [saves set_log].
  destruct (saves w) as [|[size|msg|msg] rest].
  - left. eexists _, _. split; reflexivity.
  - left. eexists _, _. split; reflexivity.
  - right. eexists _, _. split; reflexivity.
  - right. eexists _, _. split; reflexivity.
Qed.

Lemma kill_word_processes_effect w :
  exists w1, kill_word_processes w = (Return tt, w1) /\ fs w1 = fs w.
Proof.
  unfold kill_word_processes, try_except, bind, emit, sleep, emit. cbn [taskkills set_log].
  destruct (taskkills w) as [|[|] rest]; eexists; split; reflexivity.
Qed.

Lemma save_attempts_seq n :
  forall k max_retries doc p w r w',
    (k + n = S max_retries)%nat -> (1 <= n)%nat ->
    save_attempts (seq k n) max_retries doc p w = (r, w') ->
    match r with
    | Return b =>
        b = true /\ exists size, fs w' !! p = Some (NFile (mkFile size (DocxDoc doc)))
    | Raise e => fs w' = fs w
    end.
Proof.
  induction n as [|n IH]; intros k max_retries doc p w r w' Hsum Hn Hrun; [lia|].
  cbn [seq save_attempts] in Hrun. unfold try_except in Hrun. unfold bind at 1 in Hrun.
  destruct (library_save_effect (DocxDoc doc) p w)
    as [(size & w1 & Hs & Hfs) | (e & w1 & Hs & Hfs)]; rewrite Hs in Hrun.
  - injection Hrun as <- <-. split; [reflexivity|]. exists size.
    rewrite Hfs. apply lookup_insert_eq.
  - assert (Hnext : forall w2, fs w2 = fs w -> (k < max_retries)%nat ->
              save_attempts (seq (S k) n) max_retries doc p w2 = (r, w') ->
              match r with
              | Return b =>
                  b = true
                  /\ exists size, fs w' !! p = Some (NFile (mkFile size (DocxDoc doc)))
              | Raise e => fs w' = fs w
              end).
    { intros w2 Hw2 Hlt Hrun2.
      pose proof (IH (S k) max_retries doc p w2 r w') as H.
      rewrite Hw2 in H. apply H; [lia | lia | exact Hrun2]. }
    destruct (exn_class e) eqn:Ec;
      destruct (Nat.ltb_spec k max_retries) as [Hlt|Hge];
      try (unfold raise in Hrun; injection Hrun as <- <-; exact Hfs);
      try (unfold bind, sleep, emit in Hrun; eapply Hnext; [|exact Hlt|exact Hrun];
           cbn; exact Hfs).
    unfold bind at 1 in Hrun. destruct (2 <=? k)%nat.
    + destruct (kill_word_processes_effect w1) as (w2 & Hk & Hfs2). rewrite Hk in Hrun.
      eapply Hnext; [|exact Hlt|exact Hrun]. congruence.
    + unfold sleep, emit in Hrun. eapply Hnext; [|exact Hlt|exact Hrun]. cbn. exact Hfs.
Qed.

End DocxSave.

(** X10: [save_document_with_retry] with at least one attempt allowed
    never answers [False]: it returns [True], and then the file at the
    path holds the document, or it raises, and then the disk is as it
    was.  Under a lock that outlasts the five attempts of the default it
    raises the exception of its own with the text of the last lock error,
    having killed Word three times. *)
Theorem save_document_with_retry_true_or_raises doc file_path max_retries w :
  (1 <= max_retries)%nat ->
  (forall r w',
     docx_handler.save_document_with_retry doc file_path max_retries w = (r, w') ->
     match r with
     | Return b =>
         b = true
         /\ exists size, fs w' !! file_path = Some (NFile (mkFile size (DocxDoc doc)))
     | Raise e => fs w' = fs w
     end)
  /\ (forall m1 m2 m3 m4 m5 rest,
        saves w = SaveLocked m1 :: SaveLocked m2 :: SaveLocked m3 :: SaveLocked m4
                    :: SaveLocked m5 :: rest ->
        exists w',
          docx_handler.save_document_with_retry doc file_path
            docx_handler.SAVE_MAX_RETRIES w
          = (Raise (mkExn OtherException
                      (u "파일 저장 실패 (모든 재시도 실패): " ++ m5)), w')
          /\ spec.taskkill_count (drop (length (log w)) (log w')) = 3%nat
          /\ saves w' = rest).
Proof.
  intros Hmax. split.
  - intros r w' Hrun. unfold docx_handler.save_document_with_retry in Hrun.
    apply (save_attempts_seq max_retries 1 max_retries doc file_path w r w');
      [reflexivity | exact Hmax | exact Hrun].
  - intros m1 m2 m3 m4 m5 rest E.
    destruct w as [lg rm gs sh nw sv tk rw f]. simpl in E. subst sv.
    cbn [log].
    destruct tk as [|[|] [|[|] [|[|] tk]]];
      cbv -[app drop length spec.taskkill_count];
      (eexists; split; [reflexivity|]; cbn [log saves]; rewrite <- !app_assoc;
       rewrite drop_app_length; split; reflexivity).
Qed.

Lemma save_document_with_retry_witness :
  (1 <= docx_handler.SAVE_MAX_RETRIES)%nat
  /\ exists w',
       docx_handler.save_document_with_retry scenario.a_document scenario.work_file
         docx_handler.SAVE_MAX_RETRIES scenario.locked_twice = (Return true, w')
       /\ exists size,
            fs w' !! scenario.work_file
            = Some (NFile (mkFile size (DocxDoc scenario.a_document))).
Proof.
  assert (H : (1 <= docx_handler.SAVE_MAX_RETRIES)%nat)
    by (unfold docx_handler.SAVE_MAX_RETRIES; lia).
  split; [exact H|].
  destruct (docx_handler.save_document_with_retry scenario.a_document scenario.work_file
              docx_handler.SAVE_MAX_RETRIES scenario.locked_twice) as [r w'] eqn:E.
  pose proof (proj1 (save_document_with_retry_true_or_raises scenario.a_document
                       scenario.work_file docx_handler.SAVE_MAX_RETRIES
                       scenario.locked_twice H) r w' E) as Hres.
  assert (Hr : r = Return true).
  { apply (f_equal fst) in E. vm_compute in E. symmetry. exact E. }
  subst r. exists w'. split; [reflexivity|]. exact (proj2 Hres).
Defined.

Section DocxWriteBack.

Import docx docx_handler.

Lemma docx_write_back_strings hs ts st w :
  exists st',
    write_back (zip hs (map PStr ts)) st w = (Return st', w)
    /\ length st' = length st
    /\ (forall h, h ∉ take (length ts) hs -> paragraph_at st' h = paragraph_at st h)
    /\ (NoDup hs -> (forall h, h ∈ hs -> (h < length st)%nat) ->
        forall k h t, hs !! k = Some h -> ts !! k = Some t ->
          paragraph_at st' h = copy_docx_style_and_replace (paragraph_at st h) t).
Proof.
  revert ts st. induction hs as [|h0 hs IH]; intros ts st.
  - exists st. split; [reflexivity|]. split; [reflexivity|]. split; [reflexivity|].
    intros _ _ k h t Hk. rewrite lookup_nil in Hk. discriminate.
  - destruct ts as [|t0 ts].
    + exists st. split; [reflexivity|]. split; [reflexivity|]. split; [reflexivity|].
      intros _ _ k h t _ Hk. rewrite lookup_nil in Hk. discriminate.
    + cbn [map zip zip_with write_back].
      destruct (IH ts (<[h0 := copy_docx_style_and_replace (paragraph_at st h0) t0]> st))
        as (st' & Hrun & Hlen & Hother & Hplace).
      exists st'. split; [exact Hrun|]. rewrite length_insert in Hlen.
      split; [exact Hlen|]. split.
      * intros h Hnot. cbn [length take] in Hnot.
        apply not_elem_of_cons in Hnot as [Hne Hnot].
        rewrite (Hother h Hnot). unfold paragraph_at.
        rewrite list_lookup_insert_ne by congruence. reflexivity.
      * intros Hnd Hrange k h t Hk Ht.
        apply NoDup_cons in Hnd as [Hnotin Hnd].
        assert (Hrange' : forall h, h ∈ hs ->
                  (h < length (<[h0 := copy_docx_style_and_replace (paragraph_at st h0) t0]> st))%nat).
        { intros h' Hin. rewrite length_insert. apply Hrange. right. exact Hin. }
        destruct k as [|k].
        -- simpl in Hk, Ht. injection Hk as <-. injection Ht as <-.
           rewrite Hother.
           ++ unfold paragraph_at at 1. rewrite list_lookup_insert_eq; [reflexivity|].
              apply Hrange. left.
           ++ intros Hin. apply Hnotin.
              apply elem_of_take in Hin as (i & Hi & _).
              eapply list_elem_of_lookup_2. exact Hi.
        -- simpl in Hk, Ht. rewrite (Hplace Hnd Hrange' k h t Hk Ht).
           f_equal. unfold paragraph_at. rewrite list_lookup_insert_ne; [reflexivity|].
           intros ->. apply Hnotin. eapply list_elem_of_lookup_2. exact Hk.
Qed.

Lemma copy_docx_style_and_replace_text p t :
  text (copy_docx_style_and_replace p t) = t
  /\ paragraph_format (copy_docx_style_and_replace p t) = paragraph_format p
  /\ length (runs (copy_docx_style_and_replace p t)) = 1%nat.
Proof.
  unfold copy_docx_style_and_replace, text. cbn. rewrite app_nil_r. auto.
Qed.

End DocxWriteBack.

(** X11: where the trailing batch of [process_docx] puts an answer of the
    right length.  With a queue that names no paragraph twice, each
    queued paragraph ends as one run holding the string at its position
    in the answer, with the paragraph format it had; paragraphs that are
    not in the queue are as before, and so are the lists of body, table
    and text box paragraphs. *)
Theorem docx_trailing_batch_places_translations
  json_loads context s w ts input_tokens output_tokens w1 :
  NoDup (docx_handler.batch_queue s) ->
  (forall h, h ∈ docx_handler.batch_queue s ->
             (h < length (docx.store (docx_handler.doc s)))%nat) ->
  length ts = length (docx_handler.batch_queue s) ->
  translator.translate_batch json_loads (docx_handler.queue_texts s) context w
  = (Return (str_list ts, input_tokens, output_tokens), w1) ->
  exists s',
    docx_handler.trailing_batch json_loads context s w = (Return s', w1)
    /\ (forall k h t,
          docx_handler.batch_queue s !! k = Some h -> ts !! k = Some t ->
          let p := docx_handler.paragraph_at (docx.store (docx_handler.doc s)) h in
          let p' := docx_handler.paragraph_at (docx.store (docx_handler.doc s')) h in
          docx.text p' = t
          /\ docx.paragraph_format p' = docx.paragraph_format p
          /\ length (docx.runs p') = 1%nat)
    /\ (forall h, h ∉ docx_handler.batch_queue s ->
          docx_handler.paragraph_at (docx.store (docx_handler.doc s')) h
          = docx_handler.paragraph_at (docx.store (docx_handler.doc s)) h)
    /\ docx.paragraphs (docx_handler.doc s') = docx.paragraphs (docx_handler.doc s)
    /\ docx.tables (docx_handler.doc s') = docx.tables (docx_handler.doc s)
    /\ docx.textboxes (docx_handler.doc s') = docx.textboxes (docx_handler.doc s)
    /\ docx_handler.total_count s'
       = (docx_handler.total_count s + length ts)%nat.
Proof.
  intros Hnd Hrange Hlen Htr. unfold docx_handler.trailing_batch.
  destruct (docx_handler.batch_queue s) as [|h0 q] eqn:Eq.
  - destruct ts; [|discriminate].
    unfold docx_handler.queue_texts in Htr. rewrite Eq in Htr. simpl in Htr.
    injection Htr as _ _ <-. exists s. split; [reflexivity|].
    split; [intros k h t Hk; rewrite lookup_nil in Hk; discriminate|].
    split; [reflexivity|]. repeat (split; [reflexivity|]). simpl. lia.
  - rewrite <- Eq in *. unfold bind at 1. rewrite Htr. cbn [fst snd].
    unfold str_list. cbn [py.len py.items]. rewrite length_map, Hlen, Nat.eqb_refl.
    destruct (docx_write_back_strings (docx_handler.batch_queue s) ts
                (docx.store (docx_handler.doc s)) w1)
      as (st' & Hrun & Hl & Hother & Hplace).
    unfold bind. rewrite Hrun. unfold ret. eexists. split; [reflexivity|].
    cbn [docx_handler.doc docx_handler.with_store docx.store docx.paragraphs docx.tables
         docx.textboxes docx_handler.total_count].
    split.
    + intros k h t Hk Ht. cbv zeta. rewrite (Hplace Hnd Hrange k h t Hk Ht).
      apply copy_docx_style_and_replace_text.
    + split.
      * intros h Hnot. apply Hother. intros Hin. apply Hnot.
        apply elem_of_take in Hin as (i & Hi & _). eapply list_elem_of_lookup_2. exact Hi.
      * repeat (split; [reflexivity|]). reflexivity.
Qed.

Lemma docx_trailing_batch_witness :
  NoDup (docx_handler.batch_queue scenario.one_paragraph_docx)
  /\ exists s' w1,
       docx_handler.trailing_batch sample.json_loads scenario.ctx
         scenario.one_paragraph_docx scenario.answers_one = (Return s', w1)
       /\ docx.text (docx_handler.paragraph_at (docx.store (docx_handler.doc s')) 0) = u "A".
Proof.
  assert (Hnd : NoDup (docx_handler.batch_queue scenario.one_paragraph_docx)).
  { apply NoDup_singleton. }
  split; [exact Hnd|].
  assert (Hrange : forall h, h ∈ docx_handler.batch_queue scenario.one_paragraph_docx ->
            (h < length (docx.store (docx_handler.doc scenario.one_paragraph_docx)))%nat).
  { intros h Hin. apply list_elem_of_singleton in Hin as ->. simpl. lia. }
  destruct (docx_trailing_batch_places_translations sample.json_loads scenario.ctx
              scenario.one_paragraph_docx scenario.answers_one [u "A"] 0 0
              (snd (translator.translate_batch sample.json_loads
                      (docx_handler.queue_texts scenario.one_paragraph_docx) scenario.ctx
                      scenario.answers_one))
              Hnd Hrange eq_refl)
    as (s' & Hrun & Hplace & _).
  { vm_compute. reflexivity. }
  eexists s', _. split; [exact Hrun|].
  exact (proj1 (Hplace 0%nat 0%nat (u "A") eq_refl eq_refl)).
Defined.

(* ====================================================================== *)
(** * utils.py: has_korean                                                 *)
(* ====================================================================== *)

Lemma isspace_not_hangul c : py.isspace c = true -> utils.is_hangul_syllable c = false.
Proof.
  unfold py.isspace, utils.is_hangul_syllable. intros H.
  destruct (N.leb_spec 44032 c) as [Hge|Hlt]; [|reflexivity]. exfalso.
  repeat match type of H with
         | context [(?a <=? ?b)%N] => destruct (N.leb_spec a b); try lia
         | context [(?a =? ?b)%N] => destruct (N.eqb_spec a b); try lia
         end; discriminate.
Qed.

Lemma existsb_hangul_lstrip s :
  existsb utils.is_hangul_syllable (py.lstrip s) = existsb utils.is_hangul_syllable s.
Proof.
  induction s as [|c s IH]; [reflexivity|]. cbn [py.lstrip].
  destruct (py.isspace c) eqn:E; [|reflexivity].
  cbn [existsb]. rewrite (isspace_not_hangul c E). exact IH.
Qed.

Lemma existsb_reverse {A} (f : A -> bool) l : existsb f (rev l) = existsb f l.
Proof.
  induction l as [|x l IH]; [reflexivity|]. cbn [rev existsb].
  rewrite existsb_app, IH. cbn [existsb]. rewrite orb_false_r. apply orb_comm.
Qed.

(** X12: [has_korean] does not depend on white space around the text,
    holds of a concatenation exactly when it holds of a part, and never
    holds of a value that is not a string. *)
Theorem has_korean_ignores_surrounding_space :
  (forall s, utils.has_korean (PStr (py.strip s)) = utils.has_korean (PStr s))
  /\ (forall s1 s2, utils.has_korean (PStr (s1 ++ s2))
                    = utils.has_korean (PStr s1) || utils.has_korean (PStr s2))
  /\ (forall v, (forall s, v <> PStr s) -> utils.has_korean v = false)
  /\ (forall s, utils.has_korean (PStr s) = true ->
                exists c, c ∈ s /\ (44032 <= c <= 55203)%N).
Proof.
  split; [|split; [|split]].
  - intros s. unfold utils.has_korean, py.strip.
    rewrite existsb_reverse, existsb_hangul_lstrip, existsb_reverse,
      existsb_hangul_lstrip.
    reflexivity.
  - intros s1 s2. unfold utils.has_korean. apply existsb_app.
  - intros v Hv. destruct v; try reflexivity. exfalso. eapply Hv. reflexivity.
  - intros s H. unfold utils.has_korean in H. apply existsb_exists in H as (c & Hin & Hc).
    exists c. split; [apply list_elem_of_In; exact Hin|].
    unfold utils.is_hangul_syllable in Hc. apply andb_true_iff in Hc as [H1 H2].
    apply N.leb_le in H1, H2. lia.
Qed.

(* ====================================================================== *)
(** * handlers/docx_handler.py and verify.py: a document without Korean    *)
(* ====================================================================== *)

Section DocxClean.

Import docx docx_handler.

Variable json_loads : pystr -> option pyval.
Variables (file_path context : pystr) (sheets_manager : bool) (row_index : option nat).

Lemma counts_false_not_queued t :
  verify.counts t = false ->
  truthy (PStr (py.strip t)) && utils.has_korean (PStr (py.strip t)) = false.
Proof.
  unfold verify.counts. intros H. apply andb_false_iff in H as [H|H].
  - destruct t; [reflexivity | discriminate].
  - rewrite H. apply andb_false_r.
Qed.

Lemma paragraph_loop_clean hs s w :
  Forall (fun h => verify.counts (text (paragraph_at (store (doc s)) h)) = false) hs ->
  paragraph_loop json_loads file_path context sheets_manager row_index hs s w
  = (Return s, w).
Proof.
  induction 1 as [|h hs Hh _ IH]; [reflexivity|].
  cbn [paragraph_loop]. unfold bind, paragraph_step.
  rewrite (counts_false_not_queued _ Hh). exact IH.
Qed.

Lemma count_korean_zero texts :
  verify.count_korean texts = 0%nat -> Forall (fun t => verify.counts t = false) texts.
Proof.
  unfold verify.count_korean. intros H. apply Forall_forall. intros t Hin.
  destruct (verify.counts t) eqn:E; [|reflexivity]. exfalso.
  assert (Hf : t ∈ filter (fun t => verify.counts t = true) texts).
  { apply list_elem_of_filter. split; assumption. }
  destruct (filter _ texts); [inversion Hf | discriminate].
Qed.

End DocxClean.

(** X13: a Word document in which the scan of [verify.py] counts no
    Korean paragraph passes through [process_docx] untouched: the scan
    answers (False, 0), and [process_docx] makes no call of the
    translation service and no worksheet call, saves the document once
    with every paragraph as it was, and returns the path. *)
Theorem process_docx_leaves_korean_free_document
  json_loads file_path context sheets_manager row_index w size d written :
  fs w !! file_path = Some (NFile (mkFile size (DocxDoc d))) ->
  verify.count_korean (verify.docx_texts d) = 0%nat ->
  spec.next_save_size w = Some written ->
  verify.scan_korean_in_docx file_path w = (Return (false, 0%nat), w)
  /\ exists w',
       docx_handler.process_docx json_loads file_path context sheets_manager row_index w
       = (Return file_path, w')
       /\ log w' = log w ++ [EvSave file_path]
       /\ fs w' = <[file_path := NFile (mkFile written (DocxDoc d))]> (fs w)
       /\ remote w' = remote w /\ sheet w' = sheet w /\ gspread w' = gspread w.
Proof.
  intros Hfile Hcount Hsave. split.
  - unfold verify.scan_korean_in_docx, try_except, bind, open_content.
    rewrite Hfile. cbn [file_content]. rewrite Hcount. reflexivity.
  - unfold docx_handler.process_docx. unfold bind at 1.
    unfold docx_handler.open_document. rewrite Hfile.
    unfold bind at 1.
    rewrite paragraph_loop_clean.
    2:{ apply count_korean_zero in Hcount. unfold verify.docx_texts in Hcount.
        rewrite Forall_fmap in Hcount. exact Hcount. }
    unfold bind at 1. cbn [docx_handler.trailing_batch docx_handler.batch_queue].
    unfold ret at 1.
    cbn [docx_handler.doc docx_handler.total_input_tokens
         docx_handler.total_output_tokens].
    unfold docx_handler.new_path.
    assert (Hs : exists w',
              docx_handler.save_document_with_retry d file_path
                docx_handler.SAVE_MAX_RETRIES w = (Return true, w')
              /\ log w' = log w ++ [EvSave file_path]
              /\ fs w' = <[file_path := NFile (mkFile written (DocxDoc d))]> (fs w)
              /\ remote w' = remote w /\ sheet w' = sheet w /\ gspread w' = gspread w).
    { unfold docx_handler.save_document_with_retry, docx_handler.SAVE_MAX_RETRIES.
      change (seq 1 5) with (1%nat :: seq 2 4). cbn [docx_handler.save_attempts].
      unfold try_except. unfold bind at 1. unfold library_save, bind, emit.
      cbn [saves set_log]. unfold spec.next_save_size in Hsave.
      destruct (saves w) as [|[sz|m|m] rest]; try discriminate;
        injection Hsave as <-; eexists; (split; [reflexivity|]);
        cbn [log fs remote sheet gspread set_fs set_saves set_log];
        repeat split; reflexivity. }
    destruct Hs as (w' & Hrun & Hrest). unfold bind at 1. rewrite Hrun.
    change (0 <? 0) with false. cbn [orb].
    exists w'. split; [|exact Hrest].
    destruct (tracking sheets_manager row_index); reflexivity.
Qed.

Lemma process_docx_clean_witness :
  fs scenario.translated_docx_on_disk !! scenario.work_docx
  = Some (NFile (mkFile 4096 (DocxDoc scenario.translated_docx)))
  /\ verify.count_korean (verify.docx_texts scenario.translated_docx) = 0%nat
  /\ spec.next_save_size scenario.translated_docx_on_disk = Some 1
  /\ exists w',
       docx_handler.process_docx sample.json_loads scenario.work_docx scenario.ctx
         true (Some 4%nat) scenario.translated_docx_on_disk
       = (Return scenario.work_docx, w')
       /\ log w' = [EvSave scenario.work_docx].
Proof.
  split; [reflexivity|]. split; [reflexivity|]. split; [reflexivity|].
  destruct (proj2 (process_docx_leaves_korean_free_document sample.json_loads
                     scenario.work_docx scenario.ctx true (Some 4%nat)
                     scenario.translated_docx_on_disk 4096 scenario.translated_docx 1
                     eq_refl eq_refl eq_refl))
    as (w' & Hrun & Hlog & _).
  exists w'. split; [exact Hrun | exact Hlog].
Defined.

(* ====================================================================== *)
(** * handlers/xlsx_handler.py: the helpers                                *)
(* ====================================================================== *)

(** X14: [truncate_cell_value] returns a string of at most
    [MAX_CELL_LENGTH] characters when it is given a string: one within
    the limit comes back as it is, a longer one as its first 31997
    characters followed by three dots.  Any other value comes back as it
    is, and a second application changes nothing. *)
Theorem truncate_cell_value_bounds value :
  (forall s, xlsx_handler.truncate_cell_value value = PStr s ->
             Z.of_nat (length s) <= xlsx_handler.MAX_CELL_LENGTH)
  /\ (forall s, value = PStr s ->
                Z.of_nat (length s) <= xlsx_handler.MAX_CELL_LENGTH ->
                xlsx_handler.truncate_cell_value value = value)
  /\ (forall s, value = PStr s ->
                xlsx_handler.MAX_CELL_LENGTH < Z.of_nat (length s) ->
                xlsx_handler.truncate_cell_value value
                = PStr (take (Z.to_nat 31997) s ++ u "...")
                /\ Z.of_nat (length (take (Z.to_nat 31997) s ++ u "...")) = 32000)
  /\ ((forall s, value <> PStr s) -> xlsx_handler.truncate_cell_value value = value)
  /\ xlsx_handler.truncate_cell_value (xlsx_handler.truncate_cell_value value)
     = xlsx_handler.truncate_cell_value value.
Proof.
  unfold xlsx_handler.MAX_CELL_LENGTH.
  split; [|split; [|split; [|split]]].
  - intros s H. destruct value as [| | |t| | |]; try discriminate.
    cbn [xlsx_handler.truncate_cell_value] in H. unfold xlsx_handler.MAX_CELL_LENGTH in H.
    destruct (Z.ltb_spec 32000 (Z.of_nat (length t))) as [Hlt|Hge].
    + injection H as <-. rewrite length_app, length_take.
      change (length (u "...")) with 3%nat. lia.
    + injection H as <-. exact Hge.
  - intros s -> Hle. cbn [xlsx_handler.truncate_cell_value].
    unfold xlsx_handler.MAX_CELL_LENGTH.
    destruct (Z.ltb_spec 32000 (Z.of_nat (length s))); [lia | reflexivity].
  - intros s -> Hlt. cbn [xlsx_handler.truncate_cell_value].
    unfold xlsx_handler.MAX_CELL_LENGTH.
    destruct (Z.ltb_spec 32000 (Z.of_nat (length s))); [|lia].
    change (32000 - 3) with 31997. split; [reflexivity|].
    rewrite length_app, length_take. change (length (u "...")) with 3%nat. lia.
  - intros H. destruct value; try reflexivity. exfalso. eapply H. reflexivity.
  - apply truncate_cell_value_idem.
Qed.

Section XlsxSave.

Import xlsx_handler.

Lemma workbook_save_effect p w :
  exists r w1,
    workbook_save p w = (r, w1)
    /\ log w1 = log w ++ [EvSave p] /\ saves w1 = drop 1 (saves w).
Proof.
  unfold workbook_save, bind, emit. cbn [saves set_log].
  destruct (saves w) as [|[size|msg|msg] rest] eqn:E; eexists _, _;
    (split; [reflexivity|]); cbn; rewrite ?E; auto.
Qed.

Lemma xlsx_save_attempts_seq m :
  forall k max_retries p w,
    (k + m = max_retries)%nat -> (1 <= m)%nat ->
    exists b w' n,
      save_attempts (seq k m) max_retries p w = (Return b, w')
      /\ log w' = log w ++ concat (replicate n [EvSave p; EvSleep 2000]) ++ [EvSave p]
      /\ (n < m)%nat
      /\ (b = false -> n = (m - 1)%nat)
      /\ saves w' = drop (S n) (saves w).
Proof.
  induction m as [|m IH]; intros k max_retries p w Hsum Hm; [lia|].
  cbn [seq save_attempts]. unfold try_except. unfold bind at 1.
  destruct (workbook_save_effect p w) as (r & w1 & Hs & Hlog & Hsv). rewrite Hs.
  destruct r as [[]|e].
  - exists true, w1, 0%nat. split; [reflexivity|]. split; [exact Hlog|].
    split; [lia|]. split; [discriminate | exact Hsv].
  - destruct (Nat.ltb_spec k (max_retries - 1)) as [Hlt|Hge].
    + unfold bind, sleep, emit.
      destruct (IH (S k) max_retries p (set_log (log w1 ++ [EvSleep (1000 * SAVE_RETRY_DELAY)]) w1))
        as (b & w' & n & Hrun & Hl & Hn & Hb & Hsv'); [lia | lia |].
      exists b, w', (S n). split; [exact Hrun|].
      cbn [log set_log saves] in Hl, Hsv'. split.
      { rewrite Hl, Hlog. cbn [replicate concat]. rewrite <- !app_assoc. reflexivity. }
      split; [lia|]. split; [intros Hf; rewrite (Hb Hf); lia|].
      rewrite Hsv', Hsv, drop_drop. f_equal.
    + exists false, w1, 0%nat. split; [reflexivity|]. split; [exact Hlog|].
      split; [lia|]. split; [intros _; lia | exact Hsv].
Qed.

End XlsxSave.

(** X15: [save_workbook_simple] never raises.  It tries the save up to
    [max_retries] times with 2 s between two tries, consuming one save
    outcome for each try, and answers [False] only after the last of
    them. *)
Theorem save_workbook_simple_never_raises file_path max_retries w :
  (1 <= max_retries)%nat ->
  exists b w' n,
    xlsx_handler.save_workbook_simple file_path max_retries w = (Return b, w')
    /\ log w' = log w ++ concat (replicate n [EvSave file_path; EvSleep 2000])
                      ++ [EvSave file_path]
    /\ (n < max_retries)%nat
    /\ (b = false -> n = (max_retries - 1)%nat)
    /\ saves w' = drop (S n) (saves w).
Proof.
  intros H. unfold xlsx_handler.save_workbook_simple.
  apply xlsx_save_attempts_seq; [reflexivity | exact H].
Qed.

Lemma save_workbook_simple_witness :
  (1 <= xlsx_handler.SAVE_MAX_RETRIES)%nat
  /\ exists w',
       xlsx_handler.save_workbook_simple scenario.work_file xlsx_handler.SAVE_MAX_RETRIES
         scenario.excel_busy = (Return false, w')
       /\ log w' = [EvSave scenario.work_file; EvSleep 2000; EvSave scenario.work_file;
                    EvSleep 2000; EvSave scenario.work_file].
Proof.
  assert (H : (1 <= xlsx_handler.SAVE_MAX_RETRIES)%nat)
    by (unfold xlsx_handler.SAVE_MAX_RETRIES; lia).
  split; [exact H|].
  destruct (save_workbook_simple_never_raises scenario.work_file
              xlsx_handler.SAVE_MAX_RETRIES scenario.excel_busy H)
    as (b & w' & n & Hrun & Hlog & Hn & Hb & _).
  assert (Hfalse : b = false).
  { apply (f_equal fst) in Hrun. vm_compute in Hrun. injection Hrun as <-. reflexivity. }
  subst b. exists w'. split; [exact Hrun|].
  rewrite Hlog, (Hb eq_refl). reflexivity.
Defined.

Section XlsxRange.

Import xlsx_handler.

Lemma range_assign_effect ev w :
  exists r w1, range_assign ev w = (r, w1) /\ log w1 = log w ++ [ev]
               /\ (forall e, r = Raise e -> exists rest, range_writes w = false :: rest).
Proof.
  unfold range_assign, bind, emit. cbn [range_writes set_log].
  destruct (range_writes w) as [|[|] rest]; eexists _, _;
    (split; [reflexivity|]); (split; [reflexivity|]); intros e He; try discriminate.
  eexists. reflexivity.
Qed.

Lemma write_rows_log rows :
  forall idx n w,
    exists m w',
      write_rows idx rows n w = (Return m, w')
      /\ log w' = log w
                  ++ concat (imap (fun row_idx row =>
                                     match row with
                                     | PNone => []
                                     | PList l => [EvRowWrite (idx + row_idx) l]
                                     | _ => [EvRowWrite (idx + row_idx) [row]]
                                     end) rows).
Proof.
  induction rows as [|row rest IH]; intros idx n w.
  - eexists _, _. split; [reflexivity|]. simpl. rewrite app_nil_r. reflexivity.
  - assert (Hgen : forall cells,
      exists m w', (n' <- try_except (range_assign (EvRowWrite idx cells) ;; ret n)
                          (fun e => ret (S n)) ;;
                    write_rows (S idx) rest n') w = (Return m, w')
                   /\ log w' = log w ++ [EvRowWrite idx cells]
                               ++ concat (imap (fun row_idx row =>
                                     match row with
                                     | PNone => []
                                     | PList l => [EvRowWrite (S idx + row_idx) l]
                                     | _ => [EvRowWrite (S idx + row_idx) [row]]
                                     end) rest)).
    { intros cells. unfold bind at 1, try_except. unfold bind at 1.
      destruct (range_assign_effect (EvRowWrite idx cells) w) as (r & w1 & Hr & Hl & _).
      rewrite Hr. destruct r as [[]|e]; unfold ret;
        [destruct (IH (S idx) n w1) as (m & w' & Hrun & Hlog)
        |destruct (IH (S idx) (S n) w1) as (m & w' & Hrun & Hlog)];
        exists m, w'; (split; [exact Hrun|]); rewrite Hlog, Hl, <- app_assoc; reflexivity. }
    assert (Hshift : forall (rest : list pyval),
      imap ((fun row_idx row =>
               match row with
               | PNone => []
               | PList l => [EvRowWrite (idx + row_idx) l]
               | _ => [EvRowWrite (idx + row_idx) [row]]
               end) ∘ S) rest
      = imap (fun row_idx row =>
                match row with
                | PNone => []
                | PList l => [EvRowWrite (S idx + row_idx) l]
                | _ => [EvRowWrite (S idx + row_idx) [row]]
                end) rest).
    { intros l. apply imap_ext. intros i x _. unfold compose.
      replace (idx + S i)%nat with (S idx + i)%nat by lia. reflexivity. }
    destruct row; cbn [write_rows imap concat]; rewrite Hshift;
      try (replace (idx + 0)%nat with idx by lia; apply Hgen).
    destruct (IH (S idx) n w) as (m & w' & Hrun & Hlog).
    exists m, w'. split; [exact Hrun|]. exact Hlog.
Qed.

End XlsxRange.

(** X16: [write_range_safely] answers [True] whatever Excel does.  The
    values it writes are those it was given with the length cap applied
    to every cell of every row that is a list.  When the write of the
    whole range fails, every row that is not [None] is written on its
    own, one write for each, and rows that cannot be written are passed
    over without a change of the answer. *)
Theorem write_range_safely_always_true all_values w :
  let capped_values := xlsx_handler.truncate_rows all_values in
  exists w',
    xlsx_handler.write_range_safely all_values w = (Return (true, capped_values), w')
    /\ (log w' = log w ++ [EvRangeWrite capped_values]
        \/ (exists rest, range_writes w = false :: rest)
           /\ log w' = log w ++ [EvRangeWrite capped_values]
                             ++ spec.row_writes capped_values)
    /\ ((forall rest, range_writes w <> false :: rest) ->
        log w' = log w ++ [EvRangeWrite capped_values]).
Proof.
  intros V'. subst V'. unfold xlsx_handler.write_range_safely, try_except.
  unfold bind at 1.
  destruct (range_assign_effect (EvRangeWrite (xlsx_handler.truncate_rows all_values)) w)
    as (r & w1 & Hr & Hl & Hfail).
  rewrite Hr. destruct r as [[]|e].
  - exists w1. split; [reflexivity|]. split; [left; exact Hl | intros _; exact Hl].
  - unfold bind at 1.
    destruct (write_rows_log (xlsx_handler.truncate_rows all_values) 0 0 w1)
      as (m & w' & Hrun & Hlog).
    rewrite Hrun. exists w'. split; [reflexivity|].
    destruct (Hfail e eq_refl) as (rest & Hrest).
    split.
    + right. split; [eauto|]. rewrite Hlog, Hl, <- app_assoc. reflexivity.
    + intros Hno. exfalso. exact (Hno rest Hrest).
Qed.

Lemma write_range_safely_witness :
  exists w',
    xlsx_handler.write_range_safely scenario.small_values scenario.excel_refuses
    = (Return (true, scenario.small_values), w')
    /\ log w' = [EvRangeWrite scenario.small_values;
                 EvRowWrite 0 [PStr scenario.ga; PStr scenario.na]]
    /\ range_writes w' = [].
Proof.
  destruct (write_range_safely_always_true scenario.small_values scenario.excel_refuses)
    as (w' & Hrun & _ & _).
  exists w'. split; [exact Hrun|].
  assert (Hw : w' = snd (xlsx_handler.write_range_safely scenario.small_values
                           scenario.excel_refuses)) by (rewrite Hrun; reflexivity).
  rewrite Hw. vm_compute. split; reflexivity.
Defined.

Lemma contains_char c s : contains [c] s = true <-> c ∈ s.
Proof.
  induction s as [|x s IH].
  - simpl. split; [discriminate | intros H; inversion H].
  - cbn [contains startswith]. rewrite andb_true_r, orb_true_iff, IH, elem_of_cons.
    rewrite N.eqb_eq. reflexivity.
Qed.

Lemma first_problematic_none chars p :
  xlsx_handler.first_problematic chars p = None <-> Forall (fun c => c ∉ p) chars.
Proof.
  induction chars as [|c chars IH]; cbn [xlsx_handler.first_problematic].
  - split; [constructor | reflexivity].
  - destruct (contains [c] p) eqn:E.
    + apply contains_char in E. split; [discriminate|].
      intros H. apply Forall_cons in H as [H _]. contradiction.
    + rewrite IH. split.
      * intros H. constructor; [|exact H]. intros Hin. apply contains_char in Hin.
        congruence.
      * intros H. apply Forall_cons in H as [_ H]. exact H.
Qed.

(** X17: [has_problematic_path] answers (False, None) exactly for the
    paths of at most 180 characters that hold none of the characters
    [ ] < > ? * | ; for every other path it answers True with a reason. *)
Theorem has_problematic_path_characterised file_path :
  (xlsx_handler.has_problematic_path file_path = (false, None) <->
   (length file_path <= xlsx_handler.MAX_PATH_LENGTH)%nat
   /\ Forall (fun c => c ∉ file_path) xlsx_handler.PROBLEMATIC_CHARS)
  /\ (xlsx_handler.has_problematic_path file_path = (false, None)
      \/ exists reason, xlsx_handler.has_problematic_path file_path = (true, Some reason)).
Proof.
  unfold xlsx_handler.has_problematic_path.
  destruct (Nat.ltb_spec xlsx_handler.MAX_PATH_LENGTH (length file_path)) as [Hlt|Hle].
  - split; [|right; eauto]. split; [discriminate | intros [H _]; lia].
  - destruct (xlsx_handler.first_problematic xlsx_handler.PROBLEMATIC_CHARS file_path)
      as [c|] eqn:E.
    + split; [|right; eauto]. split; [discriminate|]. intros [_ H].
      apply first_problematic_none in H. congruence.
    + split; [|left; reflexivity]. split; [|reflexivity]. intros _.
      split; [exact Hle|]. apply first_problematic_none. exact E.
Qed.

(* ====================================================================== *)
(** * handlers/xlsx_handler.py: the cells that hold no Korean text         *)
(* ====================================================================== *)

Section XlsxUntouched.

Import xlsx_handler.

Variable json_loads : pystr -> option pyval.
Variables (work_path context : pystr) (sheets_manager : bool) (row_index : option nat).
Variable all_formulas : list pyval.
Variable values0 : list pyval.

Lemma existsb_take_false {A} (f : A -> bool) n l :
  existsb f l = false -> existsb f (take n l) = false.
Proof.
  revert n. induction l as [|x l IH]; intros n H; [destruct n; reflexivity|].
  destruct n as [|n]; [reflexivity|]. cbn [take existsb] in *.
  apply orb_false_iff in H as [-> H]. apply IH. exact H.
Qed.

Lemma korean_text_truncate v :
  spec.korean_text v = false -> spec.korean_text (truncate_cell_value v) = false.
Proof.
  destruct v as [| | |s| | |]; try (intros _; reflexivity).
  intros H. cbn [truncate_cell_value].
  destruct (MAX_CELL_LENGTH <? Z.of_nat (length s)) eqn:E; [|exact H].
  unfold spec.korean_text in *. apply andb_false_iff in H as [H|H].
  - destruct s; [discriminate E | discriminate H].
  - apply andb_false_iff. right. unfold utils.has_korean in *.
    rewrite existsb_app, (existsb_take_false _ _ _ H). reflexivity.
Qed.

Lemma korean_text_capped v0 v :
  spec.korean_text v0 = false -> spec.capped v0 v -> spec.korean_text v = false.
Proof. intros H [-> | ->]; [exact H | apply korean_text_truncate; exact H]. Qed.

Lemma write_back_untouched s translated V' w w' r c :
  spec.untouched_invariant values0 s ->
  write_back (zip (batch_coords s) (items translated)) (all_values s) w = (Return V', w') ->
  spec.korean_text (value_at values0 r c) = false ->
  spec.capped (value_at values0 r c) (value_at V' r c).
Proof.
  intros HI Hwb Hk.
  destruct (write_back_other _ _ _ _ _ r c Hwb) as [Hv _].
  - intros Hin. apply list_elem_of_fmap in Hin as ([coord txt] & Heq & Hin).
    simpl in Heq. subst coord.
    apply elem_of_zip_l in Hin. apply (spec.untouched_coords _ s HI) in Hin.
    simpl in Hin. congruence.
  - rewrite Hv. apply (spec.untouched_values _ s HI). exact Hk.
Qed.

Lemma full_batch_untouched s w s' w' :
  spec.untouched_invariant values0 s ->
  full_batch json_loads work_path context sheets_manager row_index s w = (Return s', w') ->
  spec.untouched_invariant values0 s'.
Proof.
  intros HI Hrun. unfold full_batch in Hrun. unfold bind at 1 in Hrun.
  destruct (translator.translate_batch json_loads (batch_texts s) context w)
    as [[[[translated i] o]|e] w1]; [|discriminate].
  cbn [fst snd] in Hrun.
  destruct (py.len translated) as [n|]; [|discriminate].
  unfold bind at 1 in Hrun.
  match type of Hrun with
  | context [match ?m w1 with _ => _ end] =>
      destruct (m w1) as [[values1|e] w2] eqn:Ev
  end; [|discriminate].
  assert (Hv1 : forall r c, spec.korean_text (value_at values0 r c) = false ->
                  spec.capped (value_at values0 r c) (value_at values1 r c)).
  { intros r c Hk. destruct (n =? length (batch_coords s))%nat.
    - eapply write_back_untouched; eassumption.
    - injection Ev as <- _. apply (spec.untouched_values _ s HI). exact Hk. }
  clear Ev.
  destruct (S (batch_cycle s) mod config.AUTO_SAVE_INTERVAL =? 0)%nat.
  - unfold bind at 1 in Hrun.
    destruct (write_range_safely_total values1 w2) as (w3 & Hw). rewrite Hw in Hrun.
    cbn iota in Hrun. unfold bind at 1 in Hrun.
    destruct (xlsx_save_attempts_total (seq 0 SAVE_MAX_RETRIES) SAVE_MAX_RETRIES
                work_path w3) as (b & w4 & Hs).
    unfold save_workbook_simple in Hrun. rewrite Hs in Hrun.
    unfold bind at 1 in Hrun.
    assert (Hv2 : forall r c, spec.korean_text (value_at values0 r c) = false ->
                    spec.capped (value_at values0 r c)
                      (value_at (truncate_rows values1) r c)).
    { intros r c Hk. eapply capped_trans; [apply Hv1; exact Hk|].
      apply value_at_truncate_rows. }
    destruct (tracking sheets_manager row_index) as [row|].
    + unfold bind at 1 in Hrun.
      destruct (update_tokens_total row (total_input_tokens s + i)
                  (total_output_tokens s + o) w4) as (w5 & Hu).
      rewrite Hu in Hrun. unfold ret, bind, sleep, emit in Hrun.
      injection Hrun as <- _. constructor; simpl; [set_solver | exact Hv2].
    + unfold ret, bind, sleep, emit in Hrun.
      injection Hrun as <- _. constructor; simpl; [set_solver | exact Hv2].
  - unfold ret, bind, sleep, emit in Hrun.
    injection Hrun as <- _. constructor; simpl; [set_solver | exact Hv1].
Qed.

Lemma cell_step_untouched coord s w s' w' :
  spec.untouched_invariant values0 s ->
  cell_step json_loads work_path context sheets_manager row_index all_formulas coord s w
  = (Return s', w') ->
  spec.untouched_invariant values0 s'.
Proof.
  intros HI Hrun. unfold cell_step in Hrun. destruct coord as [row_idx col_idx].
  destruct (is_formula (formula_at all_formulas row_idx col_idx)).
  { injection Hrun as <- _. exact HI. }
  destruct (value_at (all_values s) row_idx col_idx) as [| | |text| | |] eqn:Ev;
    try (injection Hrun as <- _; exact HI).
  destruct (truthy (PStr text) && utils.has_korean (PStr text)) eqn:Ek;
    [|injection Hrun as <- _; exact HI].
  match type of Hrun with
  | context [full_batch _ _ _ _ _ ?s1] =>
      assert (HI1 : spec.untouched_invariant values0 s1)
  end.
  { constructor; simpl.
    - intros coord Hin. apply elem_of_app in Hin as [Hin|Hin].
      + apply (spec.untouched_coords _ s HI). exact Hin.
      + apply list_elem_of_singleton in Hin as ->. simpl.
        destruct (spec.korean_text (value_at values0 row_idx col_idx)) eqn:E0;
          [reflexivity|].
        pose proof (korean_text_capped _ _ E0 (spec.untouched_values _ s HI _ _ E0)) as Hc.
        rewrite Ev in Hc. unfold spec.korean_text in Hc. congruence.
    - apply (spec.untouched_values _ s HI). }
  cbn [batch_texts] in Hrun.
  destruct (config.BATCH_SIZE_XLSX <=? _)%nat.
  - eapply full_batch_untouched; eassumption.
  - injection Hrun as <- _. exact HI1.
Qed.

Lemma cell_loop_untouched coords s w s' w' :
  spec.untouched_invariant values0 s ->
  cell_loop json_loads work_path context sheets_manager row_index all_formulas coords s w
  = (Return s', w') ->
  spec.untouched_invariant values0 s'.
Proof.
  revert s w. induction coords as [|coord rest IH]; intros s w HI Hrun.
  - injection Hrun as <- _. exact HI.
  - cbn [cell_loop] in Hrun. unfold bind in Hrun.
    destruct (cell_step json_loads work_path context sheets_manager row_index
                all_formulas coord s w) as [[s1|e] w1] eqn:E; [|discriminate].
    eapply IH; [|exact Hrun]. eapply cell_step_untouched; eassumption.
Qed.

Lemma trailing_batch_untouched s w s' w' :
  spec.untouched_invariant values0 s ->
  trailing_batch json_loads context s w = (Return s', w') ->
  spec.untouched_invariant values0 s'.
Proof.
  intros HI Hrun. unfold trailing_batch in Hrun.
  destruct (batch_texts s) as [|t ts] eqn:Et.
  { injection Hrun as <- _. exact HI. }
  unfold bind at 1 in Hrun.
  destruct (translator.translate_batch json_loads (t :: ts) context w)
    as [[[[translated i] o]|e] w1]; [|discriminate].
  cbn [fst snd] in Hrun.
  destruct (py.len translated) as [n|]; [|discriminate].
  destruct (n =? length (batch_coords s))%nat.
  - unfold bind in Hrun.
    destruct (write_back (zip (batch_coords s) (items translated)) (all_values s) w1)
      as [[values1|e] w2] eqn:Ev; [|discriminate].
    injection Hrun as <- _. constructor; simpl.
    + apply (spec.untouched_coords _ s HI).
    + intros r c Hk. eapply write_back_untouched; eassumption.
  - injection Hrun as <- _. constructor; simpl.
    + apply (spec.untouched_coords _ s HI).
    + apply (spec.untouched_values _ s HI).
Qed.

Lemma process_sheet_untouched cells cycle total_in total_out s w w' :
  process_sheet json_loads work_path context sheets_manager row_index all_formulas
    values0 cells cycle total_in total_out w = (Return s, w') ->
  spec.untouched_invariant values0 s.
Proof.
  unfold process_sheet. intros Hrun. unfold bind at 1 in Hrun.
  destruct (cell_loop json_loads work_path context sheets_manager row_index
              all_formulas (sheet_cells values0)
              (mkLoop values0 [] [] cells cycle total_in total_out) w)
    as [[s1|e] w1] eqn:E1; [|discriminate].
  assert (HI0 : spec.untouched_invariant values0
                  (mkLoop values0 [] [] cells cycle total_in total_out)).
  { constructor; simpl; [set_solver | intros; left; reflexivity]. }
  pose proof (cell_loop_untouched _ _ _ _ _ HI0 E1) as HI1.
  unfold bind at 1 in Hrun.
  destruct (trailing_batch json_loads context s1 w1) as [[s2|e] w2] eqn:E2;
    [|discriminate].
  pose proof (trailing_batch_untouched _ _ _ _ HI1 E2) as HI2.
  unfold bind in Hrun.
  destruct (write_range_safely_total (all_values s2) w2) as (w3 & Hw).
  rewrite Hw in Hrun. injection Hrun as <- _. constructor; simpl.
  - apply (spec.untouched_coords _ s2 HI2).
  - intros r c Hk. eapply capped_trans; [apply (spec.untouched_values _ s2 HI2); exact Hk|].
    apply value_at_truncate_rows.
Qed.

End XlsxUntouched.

(** X18: what the Excel handler leaves alone.  A cell whose value at the
    start is not a non-empty string with a Hangul syllable (a number, a
    date, an empty cell, a text in another script) is never queued for
    translation, and when the work on its sheet ends it holds the value
    it had, cut to the length cap if that was a string of more than
    32000 characters; a value that is no string, or a string within the
    cap, is exactly what it was. *)
Theorem process_sheet_leaves_other_cells
  json_loads work_path context sheets_manager row_index all_formulas values
  cells cycle total_in total_out s w w' r c :
  xlsx_handler.process_sheet json_loads work_path context sheets_manager row_index
    all_formulas values cells cycle total_in total_out w = (Return s, w') ->
  spec.korean_text (xlsx_handler.value_at values r c) = false ->
  ((r, c) ∉ xlsx_handler.batch_coords s)
  /\ spec.capped (xlsx_handler.value_at values r c)
       (xlsx_handler.value_at (xlsx_handler.all_values s) r c)
  /\ (xlsx_handler.truncate_cell_value (xlsx_handler.value_at values r c)
      = xlsx_handler.value_at values r c ->
      xlsx_handler.value_at (xlsx_handler.all_values s) r c
      = xlsx_handler.value_at values r c).
Proof.
  intros Hrun Hk.
  pose proof (process_sheet_untouched json_loads work_path context sheets_manager
                row_index all_formulas values cells cycle total_in total_out s w w'
                Hrun) as HI.
  split; [|split].
  - intros Hin. apply (spec.untouched_coords _ s HI) in Hin. simpl in Hin. congruence.
  - apply (spec.untouched_values _ s HI). exact Hk.
  - intros Hcap. destruct (spec.untouched_values _ s HI r c Hk) as [-> | ->];
      [reflexivity | exact Hcap].
Qed.

Lemma process_sheet_leaves_witness :
  exists s w',
    xlsx_handler.process_sheet sample.json_loads scenario.work_file scenario.ctx
      false None [] scenario.mixed_values 0 0 0 0 scenario.answers_one = (Return s, w')
    /\ spec.korean_text (xlsx_handler.value_at scenario.mixed_values 0 1) = false
    /\ xlsx_handler.value_at (xlsx_handler.all_values s) 0 0 = PStr (u "A")
    /\ xlsx_handler.value_at (xlsx_handler.all_values s) 0 1 = PNum 42.
Proof.
  destruct (xlsx_handler.process_sheet sample.json_loads scenario.work_file scenario.ctx
              false None [] scenario.mixed_values 0 0 0 0 scenario.answers_one)
    as [r w'] eqn:E.
  assert (Hr : r = Return (xlsx_handler.mkLoop
                             [PList [PStr (u "A"); PNum 42; PStr (u "total")]]
                             [(0%nat, 0%nat)] [scenario.ga] 1 1 0 0)).
  { apply (f_equal fst) in E. vm_compute in E. symmetry. exact E. }
  subst r. eexists _, w'. split; [reflexivity|].
  assert (Hk : spec.korean_text (xlsx_handler.value_at scenario.mixed_values 0 1) = false)
    by reflexivity.
  split; [exact Hk|]. split; [reflexivity|].
  exact (proj2 (proj2 (process_sheet_leaves_other_cells _ _ _ _ _ _ _ _ _ _ _ _ _ _ 0%nat
                         1%nat E Hk)) eq_refl).
Defined.

(* ====================================================================== *)
(** * main.py and verify.py: the paths of a task                           *)
(* ====================================================================== *)

Lemma lower_idempotent s : py.lower (py.lower s) = py.lower s.
Proof.
  unfold py.lower. rewrite map_map. apply map_ext. intros c.
  destruct ((65 <=? c) && (c <=? 90))%N eqn:E; [|rewrite E; reflexivity].
  apply andb_true_iff in E as [H1 H2]. apply N.leb_le in H1, H2.
  replace ((65 <=? c + 32) && (c + 32 <=? 90))%N with false; [reflexivity|].
  symmetry. apply andb_false_iff. right. apply N.leb_gt. lia.
Qed.

(** X19: the translator and the verifier agree on where the work file of
    a task is.  Whenever splitting the file name with its extension in
    lower case gives back the same stem and that extension (as
    [os.path.splitext] does), the work file path of [main.build_file_path]
    is the path [verify.build_work_file_path] computes for the file name
    as the sheet has it, whatever the case of its extension. *)
Theorem work_file_path_agrees
  os ORIGIN_FOLDER COMPLETED_FOLDER upper_path sub_path file_name :
  let name := fst (os_path_splitext os file_name) in
  let ext := snd (os_path_splitext os file_name) in
  os_path_splitext os (name ++ py.lower ext) = (name, py.lower ext) ->
  snd (fst (main.build_file_path os ORIGIN_FOLDER COMPLETED_FOLDER
              upper_path sub_path file_name))
  = verify.build_work_file_path os COMPLETED_FOLDER upper_path sub_path file_name.
Proof.
  intros name ext H. subst name ext.
  unfold main.build_file_path, verify.build_work_file_path, main.normalize_extension.
  destruct (os_path_splitext os file_name) as [name ext] eqn:E. cbn [fst snd] in *.
  rewrite H. cbn [fst snd]. rewrite lower_idempotent. unfold join4. reflexivity.
Qed.

Lemma work_file_path_agrees_witness :
  os_path_splitext sample.os (u "Plan" ++ py.lower (u ".DOC")) = (u "Plan", py.lower (u ".DOC"))
  /\ snd (fst (main.build_file_path sample.os sample.ORIGIN_FOLDER sample.COMPLETED_FOLDER
                 (u "MC") (u "10.analysis") (u "Plan.DOC")))
     = u "data/completed_folder/MC/10.analysis/Plan - en.docx"
  /\ verify.build_work_file_path sample.os sample.COMPLETED_FOLDER
       (u "MC") (u "10.analysis") (u "Plan.DOC")
     = u "data/completed_folder/MC/10.analysis/Plan - en.docx".
Proof.
  assert (H : os_path_splitext sample.os (u "Plan" ++ py.lower (u ".DOC"))
              = (u "Plan", py.lower (u ".DOC"))) by (vm_compute; reflexivity).
  split; [exact H|].
  pose proof (work_file_path_agrees sample.os sample.ORIGIN_FOLDER sample.COMPLETED_FOLDER
                (u "MC") (u "10.analysis") (u "Plan.DOC") H) as Heq.
  split; [rewrite Heq|]; vm_compute; reflexivity.
Defined.

Section Prepare.

Variable os : OsPath.
Variable word_convert : File -> option File.





End Prepare.



(* ====================================================================== *)
(** * verify.py: the loop of main                                          *)
(* ====================================================================== *)

Section VerifyMain.

Variable verify_task : sheets_manager.Task -> M (bool * pystr).



Variable f : pystr.

Lemma main_step_failing task k t w :
  sheets_manager.file_name task = f ->
  (forall w, exists rt w', verify_task task w = (Return (false, rt), w')) ->
  default 0%nat (verify.fail_count_by_file t !! f) = k ->
  (f ∈ verify.skipped_files t -> (verify.MAX_CONSECUTIVE_FAILS <= k)%nat) ->
  exists t' w',
    verify.main_step verify_task task t w = (Return t', w')
    /\ verify.success_count t' = verify.success_count t
    /\ verify.no_korean_count t' = verify.no_korean_count t
    /\ (f ∈ verify.skipped_files t' -> (verify.MAX_CONSECUTIVE_FAILS <= k)%nat)
    /\ if (verify.MAX_CONSECUTIVE_FAILS <=? k)%nat then
         verify.fail_count t' = verify.fail_count t
         /\ verify.skip_count t' = S (verify.skip_count t)
         /\ default 0%nat (verify.fail_count_by_file t' !! f) = k
       else
         verify.fail_count t' = S (verify.fail_count t)
         /\ verify.skip_count t' = verify.skip_count t
         /\ default 0%nat (verify.fail_count_by_file t' !! f) = S k.
Proof.
  intros Hf Hfail Hk Hs. unfold verify.main_step. rewrite Hf.
  destruct (bool_decide (f ∈ verify.skipped_files t)) eqn:Es.
  { apply bool_decide_eq_true in Es. pose proof (Hs Es) as Hle.
    apply Nat.leb_le in Hle. rewrite Hle.
    eexists _, w. split; [reflexivity|]. cbn. repeat split; auto. }
  rewrite Hk.
  destruct (verify.MAX_CONSECUTIVE_FAILS <=? k)%nat eqn:El.
  { eexists _, w. split; [reflexivity|]. cbn.
    apply Nat.leb_le in El. repeat split; auto. }
  unfold try_except, bind.
  destruct (Hfail w) as (rt & w1 & ->).
  eexists _, w1. split; [reflexivity|]. cbn.
  rewrite lookup_insert_eq. cbn. apply bool_decide_eq_false in Es.
  split; [reflexivity|]. split; [reflexivity|]. split; [|auto].
  intros Hin. exfalso. exact (Es Hin).
Qed.

Lemma main_loop_failing tasks k t w :
  (forall task, task ∈ tasks -> sheets_manager.file_name task = f) ->
  (forall task w, task ∈ tasks ->
     exists rt w', verify_task task w = (Return (false, rt), w')) ->
  default 0%nat (verify.fail_count_by_file t !! f) = k ->
  (f ∈ verify.skipped_files t -> (verify.MAX_CONSECUTIVE_FAILS <= k)%nat) ->
  (k <= verify.MAX_CONSECUTIVE_FAILS)%nat ->
  exists t' w',
    verify.main_loop verify_task tasks t w = (Return t', w')
    /\ verify.success_count t' = verify.success_count t
    /\ verify.no_korean_count t' = verify.no_korean_count t
    /\ (verify.fail_count t'
        = verify.fail_count t
          + (Nat.min (k + length tasks) verify.MAX_CONSECUTIVE_FAILS - k))%nat
    /\ (verify.skip_count t'
        = verify.skip_count t + (k + length tasks - verify.MAX_CONSECUTIVE_FAILS))%nat.
Proof.
  revert k t w. induction tasks as [|task rest IH]; intros k t w Hf Hfail Hk Hs Hle.
  - exists t, w. split; [reflexivity|]. cbn [length].
    unfold verify.MAX_CONSECUTIVE_FAILS in *. repeat split; lia.
  - assert (Hin : task ∈ task :: rest) by (left).
    destruct (main_step_failing task k t w (Hf task Hin)
                (fun w0 => Hfail task w0 Hin) Hk Hs)
      as (t1 & w1 & E1 & Hs1 & Hn1 & Hsk1 & Hcase).
    cbn [verify.main_loop]. unfold bind. rewrite E1.
    assert (Hf' : forall task0, task0 ∈ rest -> sheets_manager.file_name task0 = f).
    { intros task0 H0. apply Hf. right. exact H0. }
    assert (Hfail' : forall task0 w0, task0 ∈ rest ->
               exists rt w', verify_task task0 w0 = (Return (false, rt), w')).
    { intros task0 w0 H0. apply Hfail. right. exact H0. }
    destruct (verify.MAX_CONSECUTIVE_FAILS <=? k)%nat eqn:El.
    + apply Nat.leb_le in El. destruct Hcase as (Hfc & Hsc & Hk1).
      destruct (IH k t1 w1 Hf' Hfail' Hk1 Hsk1 Hle) as (t2 & w2 & E2 & A & B & C & D).
      exists t2, w2. split; [exact E2|]. cbn [length].
      unfold verify.MAX_CONSECUTIVE_FAILS in *. repeat split; lia.
    + apply Nat.leb_gt in El. destruct Hcase as (Hfc & Hsc & Hk1).
      assert (Hsk2 : f ∈ verify.skipped_files t1 ->
                     (verify.MAX_CONSECUTIVE_FAILS <= S k)%nat).
      { intros H0. pose proof (Hsk1 H0). lia. }
      destruct (IH (S k) t1 w1 Hf' Hfail' Hk1 Hsk2 ltac:(lia))
        as (t2 & w2 & E2 & A & B & C & D).
      exists t2, w2. split; [exact E2|]. cbn [length].
      unfold verify.MAX_CONSECUTIVE_FAILS in *. repeat split; lia.
Qed.

End VerifyMain.


(** X22: a file whose verification keeps failing is verified three times
    and then passed over.  When every task of the list has the same file
    name and [verify_task] returns a failure for each, the loop counts
    [min n 3] failures and [n - 3] skips among the [n] tasks, and nothing
    else. *)
Theorem repeated_failure_is_skipped verify_task f completed_tasks w :
  (forall task, task ∈ completed_tasks -> sheets_manager.file_name task = f) ->
  (forall task w, task ∈ completed_tasks ->
     exists rt w', verify_task task w = (Return (false, rt), w')) ->
  exists t w',
    verify.main_loop verify_task completed_tasks verify.initial_tally w = (Return t, w')
    /\ verify.fail_count t
       = Nat.min (length completed_tasks) verify.MAX_CONSECUTIVE_FAILS
    /\ verify.skip_count t
       = (length completed_tasks - verify.MAX_CONSECUTIVE_FAILS)%nat
    /\ verify.success_count t = 0%nat
    /\ verify.no_korean_count t = 0%nat.
Proof.
  intros Hf Hfail.
  destruct (main_loop_failing verify_task f completed_tasks 0 verify.initial_tally w
              Hf Hfail)
    as (t & w' & E & A & B & C & D).
  - reflexivity.
  - intros H. cbn in H. set_solver.
  - unfold verify.MAX_CONSECUTIVE_FAILS. lia.
  - exists t, w'. split; [exact E|]. cbn in A, B, C, D.
    rewrite C, D, A, B. repeat split; lia.
Qed.

Lemma repeated_failure_witness :
  exists t w',
    verify.main_loop (fun _ => ret (false, u "error")) (replicate 5 scenario.task_a)
      verify.initial_tally sample.empty_world = (Return t, w')
    /\ verify.fail_count t = 3%nat
    /\ verify.skip_count t = 2%nat
    /\ verify.success_count t = 0%nat
    /\ verify.no_korean_count t = 0%nat.
Proof.
  apply (repeated_failure_is_skipped (fun _ => ret (false, u "error"))
           (sheets_manager.file_name scenario.task_a)
           (replicate 5 scenario.task_a) sample.empty_world).
  - intros task H. apply elem_of_replicate in H as [-> _]. reflexivity.
  - intros task w0 _. eexists _, w0. reflexivity.
Defined.

(* ====================================================================== *)
(** * final_review.py: the rows still to review                            *)
(* ====================================================================== *)

Section FinalReview.

Import sheets_manager final_review.

Lemma pending_loop_acc idx rows acc d :
  pending_loop idx rows acc d
  = (acc ++ fst (pending_loop idx rows [] 0),
     (d + snd (pending_loop idx rows [] 0))%nat).
Proof.
  revert idx acc d. induction rows as [|row rest IH]; intros idx acc d.
  - cbn. rewrite app_nil_r, Nat.add_0_r. reflexivity.
  - cbn [pending_loop].
    destruct (negb (py.truthy (PStr (py.strip (field row FinalReviewColumns.ORIGINAL_FILE)))));
      [apply IH|].
    destruct (py.truthy (PStr (py.strip (field row FinalReviewColumns.REVIEW_DATETIME)))).
    + rewrite (IH (S idx) acc (S d)), (IH (S idx) [] 1%nat). cbn [fst snd app].
      f_equal. lia.
    + rewrite (IH (S idx) (acc ++ _) d), (IH (S idx) ([] ++ _) 0%nat). cbn [fst snd app].
      rewrite <- app_assoc. reflexivity.
Qed.

Lemma pending_cons idx row rest :
  fst (pending_loop idx (row :: rest) [] 0)
  = if spec.named row && negb (spec.reviewed row)
    then spec.pending_entry idx row :: fst (pending_loop (S idx) rest [] 0)
    else fst (pending_loop (S idx) rest [] 0).
Proof.
  cbn [pending_loop]. unfold spec.named, spec.reviewed, spec.pending_entry.
  destruct (py.truthy (PStr (py.strip (field row FinalReviewColumns.ORIGINAL_FILE))));
    cbn [negb andb]; [|reflexivity].
  destruct (py.truthy (PStr (py.strip (field row FinalReviewColumns.REVIEW_DATETIME))));
    cbn [negb]; rewrite pending_loop_acc; reflexivity.
Qed.

Lemma done_cons idx row rest :
  snd (pending_loop idx (row :: rest) [] 0)
  = ((if spec.named row && spec.reviewed row then 1 else 0)
     + snd (pending_loop (S idx) rest [] 0))%nat.
Proof.
  cbn [pending_loop]. unfold spec.named, spec.reviewed.
  destruct (py.truthy (PStr (py.strip (field row FinalReviewColumns.ORIGINAL_FILE))));
    cbn [negb andb]; [|reflexivity].
  destruct (py.truthy (PStr (py.strip (field row FinalReviewColumns.REVIEW_DATETIME))));
    cbn [negb]; rewrite pending_loop_acc; reflexivity.
Qed.

Lemma pending_elem idx rows p :
  p ∈ fst (pending_loop idx rows [] 0) <->
  exists i row,
    rows !! i = Some row /\ spec.named row = true /\ spec.reviewed row = false
    /\ p = spec.pending_entry (idx + i) row.
Proof.
  revert idx. induction rows as [|row rest IH]; intros idx.
  - split; [intros H; inversion H
           | intros (i & r & H & _); rewrite lookup_nil in H; discriminate].
  - rewrite pending_cons.
    destruct (spec.named row && negb (spec.reviewed row)) eqn:E.
    + apply andb_true_iff in E as [En Er]. apply negb_true_iff in Er.
      rewrite elem_of_cons, IH. split.
      * intros [-> | (i & r & Hi & Hn & Hr & Hp)].
        -- exists 0%nat, row. rewrite Nat.add_0_r. auto.
        -- exists (S i), r. rewrite Hp. replace (idx + S i)%nat with (S idx + i)%nat by lia.
           auto.
      * intros (i & r & Hi & Hn & Hr & Hp). destruct i as [|i].
        -- left. simpl in Hi. injection Hi as ->. rewrite Hp, Nat.add_0_r. reflexivity.
        -- right. exists i, r. rewrite Hp.
           replace (idx + S i)%nat with (S idx + i)%nat by lia. auto.
    + rewrite IH. split.
      * intros (i & r & Hi & Hn & Hr & Hp). exists (S i), r. rewrite Hp.
        replace (idx + S i)%nat with (S idx + i)%nat by lia. auto.
      * intros (i & r & Hi & Hn & Hr & Hp). destruct i as [|i].
        -- simpl in Hi. injection Hi as ->. rewrite Hn, Hr in E. discriminate.
        -- exists i, r. rewrite Hp.
           replace (idx + S i)%nat with (S idx + i)%nat by lia. auto.
Qed.

Lemma pending_ge idx rows p :
  p ∈ fst (pending_loop idx rows [] 0) -> (idx <= row_index p)%nat.
Proof.
  intros H. apply pending_elem in H as (i & row & _ & _ & _ & ->). simpl. lia.
Qed.

Lemma pending_increasing idx rows j k p q :
  (j < k)%nat ->
  fst (pending_loop idx rows [] 0) !! j = Some p ->
  fst (pending_loop idx rows [] 0) !! k = Some q ->
  (row_index p < row_index q)%nat.
Proof.
  revert idx j k. induction rows as [|row rest IH]; intros idx j k Hjk H1 H2.
  - simpl in H1. rewrite lookup_nil in H1. discriminate.
  - rewrite pending_cons in H1, H2.
    destruct (spec.named row && negb (spec.reviewed row)); [|eapply IH; eassumption].
    destruct k as [|k]; [lia|]. simpl in H2.
    destruct j as [|j].
    + simpl in H1. injection H1 as <-. simpl.
      apply list_elem_of_lookup_2 in H2. apply pending_ge in H2. lia.
    + simpl in H1. eapply (IH (S idx) j k); [lia | eassumption | eassumption].
Qed.

Lemma pending_counts idx rows :
  (length (fst (pending_loop idx rows [] 0)) + snd (pending_loop idx rows [] 0)
   = length (filter (fun row => spec.named row = true) rows))%nat
  /\ snd (pending_loop idx rows [] 0)
     = length (filter (fun row => spec.reviewed row = true)
                 (filter (fun row => spec.named row = true) rows)).
Proof.
  revert idx. induction rows as [|row rest IH]; intros idx.
  - split; reflexivity.
  - destruct (IH (S idx)) as [IH1 IH2].
    rewrite pending_cons, done_cons, (filter_cons (fun row => spec.named row = true)).
    destruct (spec.named row) eqn:En; cbn [andb negb].
    + destruct (decide (true = true)) as [_|Hf]; [|contradiction].
      rewrite (filter_cons (fun row => spec.reviewed row = true)).
      destruct (spec.reviewed row) eqn:Er; cbn [negb length].
      * destruct (decide (true = true)) as [_|Hf]; [|contradiction].
        cbn [length]. split; lia.
      * destruct (decide (false = true)) as [Hf|_]; [discriminate|].
        split; lia.
    + destruct (decide (false = true)) as [Hf|_]; [discriminate|].
      split; [exact IH1 | exact IH2].
Qed.

End FinalReview.

(** X23: [get_pending_rows] splits the rows under the header that have
    a file name into the rows to review and the rows already reviewed.
    The rows to review are exactly those whose review date is blank, each
    with its sheet row number and its three fields stripped, in sheet
    order; the count returned is that of the rows with a review date; rows
    without a file name are in neither. *)
Theorem get_pending_rows_partitions all_values :
  let pending_rows := fst (final_review.get_pending_rows all_values) in
  let already_done_count := snd (final_review.get_pending_rows all_values) in
  let named := filter (fun row => spec.named row = true) (drop 1 all_values) in
  (length pending_rows + already_done_count = length named)%nat
  /\ already_done_count = length (filter (fun row => spec.reviewed row = true) named)
  /\ (forall p, p ∈ pending_rows <->
        (2 <= final_review.row_index p)%nat
        /\ exists row,
             all_values !! (final_review.row_index p - 1)%nat = Some row
             /\ spec.named row = true /\ spec.reviewed row = false
             /\ p = spec.pending_entry (final_review.row_index p) row)
  /\ (forall j k p q, (j < k)%nat ->
        pending_rows !! j = Some p -> pending_rows !! k = Some q ->
        (final_review.row_index p < final_review.row_index q)%nat).
Proof.
  cbv zeta. unfold final_review.get_pending_rows.
  destruct (pending_counts 2 (drop 1 all_values)) as [H1 H2].
  split; [exact H1|]. split; [exact H2|]. split; [|apply pending_increasing].
  intros p. rewrite pending_elem. split.
  - intros (i & row & Hi & Hn & Hr & Hp). rewrite lookup_drop in Hi.
    assert (Hidx : final_review.row_index p = (2 + i)%nat) by (rewrite Hp; reflexivity).
    split; [lia|]. exists row. rewrite Hidx.
    replace (2 + i - 1)%nat with (1 + i)%nat by lia.
    split; [exact Hi|]. split; [exact Hn|]. split; [exact Hr|]. exact Hp.
  - intros (Hge & row & Hi & Hn & Hr & Hp).
    exists (final_review.row_index p - 2)%nat, row. rewrite lookup_drop.
    replace (1 + (final_review.row_index p - 2))%nat
      with (final_review.row_index p - 1)%nat by lia.
    replace (2 + (final_review.row_index p - 2))%nat
      with (final_review.row_index p) by lia.
    auto.
Qed.

(* ====================================================================== *)
(** * final_review.py: a review result takes the row off the list          *)
(* ====================================================================== *)

Section ReviewResult.

Import sheets_manager final_review.

Lemma field_lookup (row : list pystr) col :
  field row col = default [] (row !! (col - 1)%nat).
Proof.
  unfold field. destruct (col <=? length row)%nat eqn:E; [reflexivity|].
  apply Nat.leb_gt in E. rewrite lookup_ge_None_2 by plia. reflexivity.
Qed.

Lemma pad_lookup_default {A} (n : nat) (d : A) (l : list A) i :
  default d (pad n d l !! i) = default d (l !! i).
Proof.
  unfold pad. destruct (decide (i < length l)%nat) as [Hlt|Hge].
  - rewrite lookup_app_l by exact Hlt. reflexivity.
  - rewrite lookup_app_r by lia. rewrite (lookup_ge_None_2 l) by lia.
    destruct (replicate (n - length l) d !! (i - length l)%nat) as [x|] eqn:E;
      [|reflexivity].
    apply lookup_replicate in E as [-> _]. reflexivity.
Qed.

Lemma pad_length {A} (n : nat) (d : A) (l : list A) :
  (n <= length (pad n d l))%nat.
Proof. unfold pad. rewrite length_app, length_replicate. lia. Qed.

Lemma field_insert (row : list pystr) c v col :
  (1 <= c)%nat -> (1 <= col)%nat ->
  field (<[(c - 1)%nat := v]> (pad c [] row)) col
  = if decide (col = c) then v else field row col.
Proof.
  intros Hc Hcol. rewrite !field_lookup.
  destruct (decide (col = c)) as [->|Hne].
  - rewrite list_lookup_insert_eq; [reflexivity|].
    pose proof (pad_length c [] row). plia.
  - rewrite list_lookup_insert_ne by lia. apply pad_lookup_default.
Qed.

(** A range write of at least one value replaces the row by one whose
    fields are the values, in their columns, and the old fields elsewhere. *)
Lemma range_update_row row col v vs (g : list (list pystr)) :
  (1 <= row)%nat -> (1 <= col)%nat ->
  exists U,
    range_update row col (v :: vs) g = <[(row - 1)%nat := U]> (pad row [] g)
    /\ forall k, (1 <= k)%nat ->
         field U k
         = if decide (col <= k < col + length (v :: vs))%nat
           then default [] ((v :: vs) !! (k - col)%nat)
           else field (default [] (g !! (row - 1)%nat)) k.
Proof.
  intros Hrow. revert col v g. induction vs as [|v2 vs IH]; intros col v g Hcol.
  - cbn [range_update]. unfold grid_update.
    eexists. split; [reflexivity|]. intros k Hk.
    rewrite field_insert by assumption. rewrite pad_lookup_default.
    cbn [length]. destruct (decide (k = col)) as [->|Hne].
    + destruct (decide (col <= col < col + 1)%nat); [|lia].
      rewrite Nat.sub_diag. reflexivity.
    + destruct (decide (col <= k < col + 1)%nat); [lia|]. reflexivity.
  - change (range_update row col (v :: v2 :: vs) g)
      with (range_update row (S col) (v2 :: vs) (grid_update row col v g)).
    destruct (IH (S col) v2 (grid_update row col v g) ltac:(lia)) as (U & HU & Hf).
    exists U. split.
    + rewrite HU. unfold grid_update.
      rewrite (pad_enough row [] (<[_ := _]> _))
        by (rewrite length_insert; apply pad_length).
      apply list_insert_insert_eq.
    + intros k Hk. rewrite (Hf k Hk).
      assert (Hrowv : default [] (grid_update row col v g !! (row - 1)%nat)
                      = <[(col - 1)%nat := v]>
                          (pad col [] (default [] (g !! (row - 1)%nat)))).
      { unfold grid_update. rewrite list_lookup_insert_eq
          by (pose proof (pad_length row ([] : list pystr) g); plia).
        cbn [default from_option id]. rewrite pad_lookup_default. reflexivity. }
      unfold pystr in *. rewrite Hrowv, field_insert by assumption.
      cbn [length].
      destruct (decide (S col <= k < S col + S (length vs))%nat) as [Hin|Hout].
      * destruct (decide (col <= k < col + S (S (length vs)))%nat); [|lia].
        replace (k - col)%nat with (S (k - S col)) by lia. reflexivity.
      * destruct (decide (k = col)) as [->|Hne].
        -- destruct (decide (col <= col < col + S (S (length vs)))%nat); [|lia].
           rewrite Nat.sub_diag. reflexivity.
        -- destruct (decide (col <= k < col + S (S (length vs)))%nat); [lia|].
           reflexivity.
Qed.

Lemma named_nil : spec.named [] = false.
Proof. reflexivity. Qed.

Lemma pending_blank_tail idx rows n :
  pending_loop idx (rows ++ replicate n []) [] 0 = pending_loop idx rows [] 0.
Proof.
  revert idx. induction rows as [|row rest IH]; intros idx.
  - cbn [app]. revert idx. induction n as [|n IHn]; intros idx; [reflexivity|].
    cbn [replicate]. apply injective_projections.
    + rewrite pending_cons, named_nil. cbn [andb]. rewrite IHn. reflexivity.
    + rewrite done_cons, named_nil. cbn [andb]. rewrite IHn. reflexivity.
  - rewrite <- app_comm_cons. apply injective_projections.
    + rewrite !pending_cons, IH. reflexivity.
    + rewrite !done_cons, IH. reflexivity.
Qed.

Lemma filter_all {A} (P : A -> Prop) `{forall x, Decision (P x)} (l : list A) :
  (forall x, x ∈ l -> P x) -> filter P l = l.
Proof.
  induction l as [|x l IH]; intros Hall; [reflexivity|].
  rewrite filter_cons_True by (apply Hall; left).
  f_equal. apply IH. intros y Hy. apply Hall. right. exact Hy.
Qed.

Lemma pending_insert idx rows k U :
  (k < length rows)%nat ->
  spec.named U && negb (spec.reviewed U) = false ->
  fst (pending_loop idx (<[k := U]> rows) [] 0)
  = filter (fun p => row_index p <> (idx + k)%nat) (fst (pending_loop idx rows [] 0)).
Proof.
  intros Hk HU. revert idx k Hk. induction rows as [|row rest IH]; intros idx k Hk.
  - simpl in Hk. lia.
  - assert (Hrest : forall j, (idx < j)%nat ->
              filter (fun p => row_index p <> j) [] = ([] : list PendingRow))
      by reflexivity.
    destruct k as [|k].
    + change (<[0%nat := U]> (row :: rest)) with (U :: rest).
      rewrite !pending_cons, HU, Nat.add_0_r.
      assert (Hkeep : filter (fun p => row_index p <> idx)
                        (fst (pending_loop (S idx) rest [] 0))
                      = fst (pending_loop (S idx) rest [] 0)).
      { apply filter_all. intros p Hp. apply pending_ge in Hp. lia. }
      destruct (spec.named row && negb (spec.reviewed row)).
      * rewrite filter_cons_False by (cbn; intros Hne; apply Hne; reflexivity).
        symmetry. exact Hkeep.
      * symmetry. exact Hkeep.
    + change (<[S k := U]> (row :: rest)) with (row :: <[k := U]> rest).
      rewrite !pending_cons. cbn [length] in Hk.
      rewrite (IH (S idx) k ltac:(lia)).
      replace (S idx + k)%nat with (idx + S k)%nat by lia.
      destruct (spec.named row && negb (spec.reviewed row)); [|reflexivity].
      rewrite filter_cons_True by (cbn; lia). reflexivity.
Qed.

Lemma named_count_insert rows k U old :
  rows !! k = Some old -> spec.named U = spec.named old ->
  length (filter (fun row => spec.named row = true) (<[k := U]> rows))
  = length (filter (fun row => spec.named row = true) rows).
Proof.
  revert k. induction rows as [|row rest IH]; intros k Hold HU.
  - rewrite lookup_nil in Hold. discriminate.
  - destruct k as [|k].
    + simpl in Hold. injection Hold as ->.
      change (<[0%nat := U]> (old :: rest)) with (U :: rest).
      rewrite !(filter_cons (fun row => spec.named row = true)), HU.
      destruct (decide (spec.named old = true)); reflexivity.
    + simpl in Hold.
      change (<[S k := U]> (row :: rest)) with (row :: <[k := U]> rest).
      rewrite !(filter_cons (fun row => spec.named row = true)).
      destruct (decide (spec.named row = true)); cbn [length];
        rewrite (IH k Hold HU); reflexivity.
Qed.

Lemma drop_pad (row : nat) (g : list (list pystr)) :
  (2 <= row)%nat ->
  exists n, drop 1 (pad row [] g) = drop 1 g ++ replicate n []
            /\ (row - 2 < length (drop 1 g ++ replicate n []))%nat.
Proof.
  intros Hrow. unfold pad. destruct g as [|h t].
  - cbn [length app drop]. rewrite Nat.sub_0_r.
    destruct row as [|row]; [lia|]. cbn [replicate drop].
    exists row. split; [reflexivity|]. rewrite length_replicate. lia.
  - cbn [app drop]. eexists. split; [reflexivity|].
    rewrite length_app, length_replicate. unfold pystr in *. rewrite drop_0. cbn [length]. lia.
Qed.

Lemma sheet_update_ok row col values w :
  spec.api_ok 1 w = true ->
  api_call_with_retry (sheet_update row col values) w
  = (Return tt,
     set_sheet (range_update row col values (sheet w))
       (set_gspread (drop 1 (gspread w)) (set_log (log w ++ [EvSleep 500]) w))).
Proof.
  intros Hok. destruct w as [lg rm gs sh nw sv tk rw f].
  unfold spec.api_ok in Hok. cbn [gspread] in Hok.
  unfold api_call_with_retry, SHEETS_API_RETRY_COUNT.
  cbn [seq api_retry_loop]. unfold try_except, bind, sleep, emit, sheet_update.
  cbn [gspread set_log log].
  destruct gs as [|[|msg] rest]; [reflexivity | reflexivity | discriminate].
Qed.

End ReviewResult.

(** X24: recording a review result takes the row off the list of rows
    to review, and nothing else.  When the worksheet call goes through
    and the result has a review date, [update_row_result] returns after
    the minimum delay; the rows [get_pending_rows] then finds are those
    it found before without the row written, the number of rows with a
    file name is as before, the cells E to K of the row hold the seven
    values, and every other cell is unchanged. *)
Theorem update_row_result_settles_row row_index results w :
  (2 <= row_index)%nat ->
  spec.api_ok 1 w = true ->
  py.strip (final_review.review_datetime results) <> [] ->
  exists w',
    final_review.update_row_result row_index results w = (Return tt, w')
    /\ sleeps (drop (length (log w)) (log w')) = [500]
    /\ fst (final_review.get_pending_rows (sheet w'))
       = filter (fun p => final_review.row_index p <> row_index)
           (fst (final_review.get_pending_rows (sheet w)))
    /\ (length (fst (final_review.get_pending_rows (sheet w')))
        + snd (final_review.get_pending_rows (sheet w'))
        = length (fst (final_review.get_pending_rows (sheet w)))
          + snd (final_review.get_pending_rows (sheet w)))%nat
    /\ (forall i v, final_review.result_values results !! i = Some v ->
          sheets_manager.cell (sheet w') row_index
            (final_review.FinalReviewColumns.TRANSLATED_FILE + i) = v)
    /\ (forall r c, (1 <= r)%nat -> (1 <= c)%nat ->
          r <> row_index
          \/ (c < final_review.FinalReviewColumns.TRANSLATED_FILE)%nat
          \/ (final_review.FinalReviewColumns.REVIEW_DATETIME < c)%nat ->
          sheets_manager.cell (sheet w') r c = sheets_manager.cell (sheet w) r c).
Proof.
  intros Hrow Hok Hdate.
  eexists. split; [apply (sheet_update_ok _ _ _ w Hok)|].
  cbn [log sheet set_sheet set_gspread set_log].
  split; [rewrite drop_app_length; reflexivity|].
  set (g := sheet w).
  destruct (range_update_row row_index final_review.FinalReviewColumns.TRANSLATED_FILE
              (final_review.translated_file_name results)
              (tl (final_review.result_values results)) g ltac:(lia)
              ltac:(unfold final_review.FinalReviewColumns.TRANSLATED_FILE; lia))
    as (U & HU & Hf).
  change (final_review.translated_file_name results
          :: tl (final_review.result_values results))
    with (final_review.result_values results) in HU, Hf.
  rewrite HU.
  assert (Hlen : length (final_review.result_values results) = 7%nat) by reflexivity.
  rewrite Hlen in Hf.
  unfold final_review.FinalReviewColumns.TRANSLATED_FILE,
    final_review.FinalReviewColumns.REVIEW_DATETIME in *.
  set (old := default [] (g !! (row_index - 1)%nat)) in *.
  assert (Hnamed : spec.named U = spec.named old).
  { unfold spec.named, final_review.FinalReviewColumns.ORIGINAL_FILE.
    rewrite (Hf 4%nat ltac:(lia)).
    destruct (decide (5 <= 4 < 5 + 7)%nat); [lia|]. reflexivity. }
  assert (Hrev : spec.reviewed U = true).
  { unfold spec.reviewed, final_review.FinalReviewColumns.REVIEW_DATETIME.
    rewrite (Hf 11%nat ltac:(lia)).
    destruct (decide (5 <= 11 < 5 + 7)%nat); [|lia].
    change (default [] (final_review.result_values results !! (11 - 5)%nat))
      with (final_review.review_datetime results).
    cbn [py.truthy]. rewrite bool_decide_eq_false_2 by exact Hdate. reflexivity. }
  destruct (drop_pad row_index g Hrow) as (n & Hdrop & Hlt).
  assert (Hrows : drop 1 (<[(row_index - 1)%nat := U]> (sheets_manager.pad row_index [] g))
                  = <[(row_index - 2)%nat := U]> (drop 1 g ++ replicate n [])).
  { rewrite drop_insert_ge by lia. rewrite Hdrop. f_equal. lia. }
  assert (Hold : (drop 1 g ++ replicate n []) !! (row_index - 2)%nat = Some old).
  { rewrite <- Hdrop, lookup_drop.
    replace (1 + (row_index - 2))%nat with (row_index - 1)%nat by lia.
    pose proof (pad_lookup_default row_index ([] : list pystr) g (row_index - 1)) as Hp.
    pose proof (pad_length row_index ([] : list pystr) g) as Hl.
    destruct (sheets_manager.pad row_index [] g !! (row_index - 1)%nat) as [x|] eqn:Ex.
    - cbn [default from_option id] in Hp. rewrite Hp. reflexivity.
    - apply lookup_ge_None in Ex. lia. }
  split.
  { unfold final_review.get_pending_rows. rewrite Hrows.
    rewrite pending_insert; [|exact Hlt|rewrite Hrev, andb_false_r; reflexivity].
    rewrite pending_blank_tail.
    replace (2 + (row_index - 2))%nat with row_index by lia. reflexivity. }
  split.
  { unfold final_review.get_pending_rows. rewrite Hrows.
    rewrite (proj1 (pending_counts 2 (<[_ := U]> _))).
    rewrite (named_count_insert _ _ U old Hold Hnamed).
    rewrite <- (proj1 (pending_counts 2 (drop 1 g ++ replicate n []))).
    rewrite pending_blank_tail. reflexivity. }
  assert (Hcell : forall G r c,
            sheets_manager.cell G r c
            = sheets_manager.field (default [] (G !! (r - 1)%nat)) c).
  { intros G r c. rewrite field_lookup. reflexivity. }
  assert (HrowU : default [] (<[(row_index - 1)%nat := U]>
                                (sheets_manager.pad row_index [] g) !! (row_index - 1)%nat)
                  = U).
  { rewrite list_lookup_insert_eq; [reflexivity|].
    pose proof (pad_length row_index ([] : list pystr) g). lia. }
  split.
  - intros i v Hi. rewrite Hcell, HrowU, (Hf (5 + i)%nat ltac:(lia)).
    assert (i < 7)%nat by (rewrite <- Hlen; eapply lookup_lt_Some; exact Hi).
    destruct (decide (5 <= 5 + i < 5 + 7)%nat); [|lia].
    replace (5 + i - 5)%nat with i by lia. unfold pystr in *. rewrite Hi. reflexivity.
  - intros r c Hr Hc Hout. rewrite !Hcell.
    destruct (decide (r = row_index)) as [->|Hne].
    + rewrite HrowU, (Hf c Hc). destruct Hout as [Hout|Hout]; [contradiction|].
      destruct (decide (5 <= c < 5 + 7)%nat); [lia|]. reflexivity.
    + rewrite list_lookup_insert_ne by lia. rewrite pad_lookup_default. reflexivity.
Qed.

Lemma update_row_result_witness :
  exists w',
    final_review.update_row_result 2 scenario.review_result scenario.under_review
    = (Return tt, w')
    /\ map final_review.row_index
         (fst (final_review.get_pending_rows (sheet scenario.under_review)))
       = [2; 5]%nat
    /\ map final_review.row_index (fst (final_review.get_pending_rows (sheet w')))
       = [5]%nat
    /\ snd (final_review.get_pending_rows (sheet w')) = 2%nat.
Proof.
  destruct (update_row_result_settles_row 2 scenario.review_result scenario.under_review)
    as (w' & Hrun & _ & Hp & Hn & _).
  - lia.
  - reflexivity.
  - vm_compute. discriminate.
  - exists w'. split; [exact Hrun|]. split; [vm_compute; reflexivity|].
    assert (Hp' : map final_review.row_index
                    (fst (final_review.get_pending_rows (sheet w'))) = [5]%nat).
    { rewrite Hp. vm_compute. reflexivity. }
    split; [exact Hp'|].
    apply (f_equal (@length nat)) in Hp'. rewrite length_map in Hp'.
    cbn [length] in Hp'.
    assert (H0 : (length (fst (final_review.get_pending_rows (sheet scenario.under_review)))
                  + snd (final_review.get_pending_rows (sheet scenario.under_review))
                  = 3)%nat) by (vm_compute; reflexivity).
    rewrite H0, Hp' in Hn. lia.
Defined.
